(** * per-host-subnet: Windows service registration (register/register_windows.go)

    A shallow embedding of the service-control state machine, the crash
    capture manager and the event sink adapter of
    [src/register/register_windows.go], with the properties of the
    specification stated against it.

    Conventions of the embedding.
    - Go's [error] is [option string]: [None] is [nil].
    - Fixed-width unsigned integers are [Z] with the wrap-around written
      out at every arithmetic operation.
    - Code that touches the operating system, the package-level
      variables, the logrus standard logger or a channel runs in the
      monad [M] over the state [Sys]. A computation returns, exits the
      process ([os.Exit]) or blocks on a channel.
    - One task (goroutine) is run against a script: the list of messages
      the task receives, in the order in which it receives them. Sends
      are recorded in the trace, in order, together with the receives. *)

From Stdlib Require Import ZArith String Ascii List Bool Lia.
From stdpp Require Import base option gmap strings list fin_maps.
Import ListNotations.

Local Open Scope Z_scope.

(** ** Values shared by the packages *)

(** Go's [error]; [nil] is [None]. *)
Definition error : Type := option string.

(** A Windows handle ([syscall.Handle], [windows.Handle]). *)
Definition Handle : Type := Z.

(** A channel, identified by its allocation number. *)
Definition Chan : Type := Z.

Definition uint16 (z : Z) : Z := z mod 2 ^ 16.
Definition uint32 (z : Z) : Z := z mod 2 ^ 32.

(** The line feed of ["\n"]. *)
Definition LF : string := String (ascii_of_nat 10) EmptyString.

(** ** golang.org/x/sys/windows: the constants the file uses *)
Module windows.
Definition EVENTLOG_ERROR_TYPE : Z := 1.
Definition EVENTLOG_WARNING_TYPE : Z := 2.
Definition EVENTLOG_INFORMATION_TYPE : Z := 4.
Definition SERVICE_ACCEPT_PARAMCHANGE : Z := 8.
Definition SERVICE_CONTROL_PARAMCHANGE : Z := 6.
End windows.

(** ** github.com/Sirupsen/logrus: levels and entries *)
Module logrus.
Definition Level : Type := Z.
Definition PanicLevel : Level := 0.
Definition FatalLevel : Level := 1.
Definition ErrorLevel : Level := 2.
Definition WarnLevel : Level := 3.
Definition InfoLevel : Level := 4.
Definition DebugLevel : Level := 5.

(** [logrus.Fields] is a Go map. [Data] lists its pairs in the order in
    which [range] visits them, which Go leaves unspecified; a value is
    kept as the text [fmt.Fprint] renders for it. *)
Record Entry : Type := mkEntry {
  Level_ : Level;
  Message : string;
  Data : list (string * string)
}.
End logrus.

(** ** golang.org/x/sys/windows/svc: states, commands, requests *)
Module svc.
Definition State : Type := Z.
Definition Stopped : State := 1.
Definition StartPending : State := 2.
Definition StopPending : State := 3.
Definition Running : State := 4.

Definition Cmd : Type := Z.
Definition Stop : Cmd := 1.
Definition Pause : Cmd := 2.
Definition Continue : Cmd := 3.
Definition Interrogate : Cmd := 4.
Definition Shutdown : Cmd := 5.

Definition Accepted : Type := Z.
Definition AcceptStop : Accepted := 1.
Definition AcceptShutdown : Accepted := 4.

Record Status : Type := mkStatus {
  State_ : State;
  Accepts : Accepted
}.

Record ChangeRequest : Type := mkChangeRequest {
  Cmd_ : Cmd;
  CurrentStatus : Status
}.
End svc.

(** ** The file's constants *)

Definition ServiceName : string := "rancher-per-host-subnet".
Definition logFile : string := "C:/ProgramData/rancher/per-host-subnet.log".
Definition rancherPanicFile : string :=
  "C:/ProgramData/rancher/per-host-subnet_panic.log".
Definition homeDir : string := "C:/ProgramData/rancher".

Definition eventInfo : Z := 1.
Definition eventWarn : Z := 1.
Definition eventError : Z := 1.
Definition eventDebug : Z := 2.
Definition eventPanic : Z := 3.
Definition eventFatal : Z := 4.
Definition eventExtraOffset : Z := 10.

(** ** Data of the file *)

(** [type handler struct]: the two channels of the handshake. *)
Record handler : Type := mkHandler {
  tosvc : Chan;
  fromsvc : Chan
}.

(** [type etwHook struct]: [log] is [nil] when no event log is open. *)
Record etwHook : Type := mkEtwHook {
  log : option Handle
}.

(** An [*os.File]: its handle and the name it was opened with. *)
Record File : Type := mkFile {
  Fd : Handle;
  Name : string
}.

(** What travels on a channel. *)
Inductive Msg : Type :=
| MBool (b : bool)
| MErr (e : error)
| MStatus (st : svc.Status)
| MChange (c : svc.ChangeRequest).

(** The goroutines the file starts with [go]. *)
Inductive Goroutine : Type :=
| GoRunService (interactive : bool) (h : handler)
| GoSignalListener.

(** What a task does that other tasks can see. *)
Inductive Event : Type :=
| Sent (c : Chan) (m : Msg)
| Received (c : Chan) (m : Msg)
| Spawned (g : Goroutine).

(** One call of [windows.ReportEvent]. *)
Record Reported : Type := mkReported {
  rep_log : Handle;
  rep_etype : Z;
  rep_eid : Z;
  rep_count : Z;
  rep_strings : list string
}.

(** Where the logrus standard logger writes. *)
Inductive Writer : Type :=
| WStderr
| WFile (f : File).

(** A service definition held by the service manager. *)
Record ServiceDef : Type := mkServiceDef {
  sd_path : string;
  sd_args : list string;
  sd_restarts : list Z
}.

(** ** The operating system, as far as the file talks to it

    The model is the portable contract of the calls: a call whose error
    the source discards is given its effect when it applies and none
    otherwise. Sharing violations between open handles are not part of
    the model. *)
Record OS : Type := mkOS {
  files : gmap string string;        (* regular files: path to contents *)
  dirs : gset string;                (* directories *)
  denied : gset string;              (* paths that cannot be created or opened *)
  handles : gmap Z string;           (* open file handles: handle to path *)
  next_handle : Handle;              (* the next handle the system hands out *)
  std_error : Handle;                (* what STD_ERROR_HANDLE designates *)
  console : list string;             (* what was written to os.Stderr *)
  event_log : list Reported;         (* the calls of ReportEvent, oldest first *)
  eventlog_up : bool;                (* an event source can be opened *)
  session : option bool;             (* IsAnInteractiveSession; None: the query fails *)
  scm_up : bool;                     (* the service manager accepts connections *)
  services : gmap string ServiceDef; (* installed service definitions *)
  event_sources : gset string;       (* installed event-log sources *)
  exe_path : option string           (* the executable, if it can be located *)
}.

Definition set_files (f : gmap string string) (w : OS) : OS :=
  mkOS f (dirs w) (denied w) (handles w) (next_handle w) (std_error w)
       (console w) (event_log w) (eventlog_up w) (session w) (scm_up w)
       (services w) (event_sources w) (exe_path w).
Definition set_dirs (d : gset string) (w : OS) : OS :=
  mkOS (files w) d (denied w) (handles w) (next_handle w) (std_error w)
       (console w) (event_log w) (eventlog_up w) (session w) (scm_up w)
       (services w) (event_sources w) (exe_path w).
Definition set_handles (hs : gmap Z string) (w : OS) : OS :=
  mkOS (files w) (dirs w) (denied w) hs (next_handle w) (std_error w)
       (console w) (event_log w) (eventlog_up w) (session w) (scm_up w)
       (services w) (event_sources w) (exe_path w).
Definition set_next_handle (n : Handle) (w : OS) : OS :=
  mkOS (files w) (dirs w) (denied w) (handles w) n (std_error w)
       (console w) (event_log w) (eventlog_up w) (session w) (scm_up w)
       (services w) (event_sources w) (exe_path w).
Definition set_std_error (h : Handle) (w : OS) : OS :=
  mkOS (files w) (dirs w) (denied w) (handles w) (next_handle w) h
       (console w) (event_log w) (eventlog_up w) (session w) (scm_up w)
       (services w) (event_sources w) (exe_path w).
Definition set_console (c : list string) (w : OS) : OS :=
  mkOS (files w) (dirs w) (denied w) (handles w) (next_handle w) (std_error w)
       c (event_log w) (eventlog_up w) (session w) (scm_up w)
       (services w) (event_sources w) (exe_path w).
Definition set_event_log (l : list Reported) (w : OS) : OS :=
  mkOS (files w) (dirs w) (denied w) (handles w) (next_handle w) (std_error w)
       (console w) l (eventlog_up w) (session w) (scm_up w)
       (services w) (event_sources w) (exe_path w).
Definition set_services (sv : gmap string ServiceDef) (w : OS) : OS :=
  mkOS (files w) (dirs w) (denied w) (handles w) (next_handle w) (std_error w)
       (console w) (event_log w) (eventlog_up w) (session w) (scm_up w)
       sv (event_sources w) (exe_path w).
Definition set_event_sources (es : gset string) (w : OS) : OS :=
  mkOS (files w) (dirs w) (denied w) (handles w) (next_handle w) (std_error w)
       (console w) (event_log w) (eventlog_up w) (session w) (scm_up w)
       (services w) es (exe_path w).

(** ** The state of the process, seen from one task *)
Record Sys : Type := mkSys {
  os : OS;
  (* package-level variables *)
  service : option handler;
  oldStderr : Handle;
  panicFile : option File;
  (* the logrus standard logger *)
  log_level : logrus.Level;
  hooks : list etwHook;
  log_out : Writer;
  log_records : list (Writer * logrus.Level * string);
  (* channels *)
  next_chan : Chan;
  inbox : list (Chan * Msg);   (* the script: what this task will receive *)
  trace : list Event           (* what this task did, oldest first *)
}.

Definition set_os (w : OS) (s : Sys) : Sys :=
  mkSys w (service s) (oldStderr s) (panicFile s) (log_level s) (hooks s)
        (log_out s) (log_records s) (next_chan s) (inbox s) (trace s).
Definition set_service (h : option handler) (s : Sys) : Sys :=
  mkSys (os s) h (oldStderr s) (panicFile s) (log_level s) (hooks s)
        (log_out s) (log_records s) (next_chan s) (inbox s) (trace s).
Definition set_oldStderr (h : Handle) (s : Sys) : Sys :=
  mkSys (os s) (service s) h (panicFile s) (log_level s) (hooks s)
        (log_out s) (log_records s) (next_chan s) (inbox s) (trace s).
Definition set_panicFile (f : option File) (s : Sys) : Sys :=
  mkSys (os s) (service s) (oldStderr s) f (log_level s) (hooks s)
        (log_out s) (log_records s) (next_chan s) (inbox s) (trace s).
Definition set_hooks (hs : list etwHook) (s : Sys) : Sys :=
  mkSys (os s) (service s) (oldStderr s) (panicFile s) (log_level s) hs
        (log_out s) (log_records s) (next_chan s) (inbox s) (trace s).
Definition set_log_out (w : Writer) (s : Sys) : Sys :=
  mkSys (os s) (service s) (oldStderr s) (panicFile s) (log_level s) (hooks s)
        w (log_records s) (next_chan s) (inbox s) (trace s).
Definition set_log_records (l : list (Writer * logrus.Level * string)) (s : Sys) : Sys :=
  mkSys (os s) (service s) (oldStderr s) (panicFile s) (log_level s) (hooks s)
        (log_out s) l (next_chan s) (inbox s) (trace s).
Definition set_next_chan (c : Chan) (s : Sys) : Sys :=
  mkSys (os s) (service s) (oldStderr s) (panicFile s) (log_level s) (hooks s)
        (log_out s) (log_records s) c (inbox s) (trace s).
Definition set_inbox (i : list (Chan * Msg)) (s : Sys) : Sys :=
  mkSys (os s) (service s) (oldStderr s) (panicFile s) (log_level s) (hooks s)
        (log_out s) (log_records s) (next_chan s) i (trace s).
Definition set_trace (t : list Event) (s : Sys) : Sys :=
  mkSys (os s) (service s) (oldStderr s) (panicFile s) (log_level s) (hooks s)
        (log_out s) (log_records s) (next_chan s) (inbox s) t.

(** ** The monad of a task *)

Inductive Result (A : Type) : Type :=
| Returned (a : A)     (* the call returned [a] *)
| Exited (code : Z)    (* the process ended in [os.Exit code] *)
| Blocked.             (* the task waits on a channel for ever *)
Arguments Returned {A} a.
Arguments Exited {A} code.
Arguments Blocked {A}.

Definition M (A : Type) : Type := Sys -> Result A * Sys.

#[global] Instance M_ret : MRet M := fun A a s => (Returned a, s).
#[global] Instance M_bind : MBind M := fun A B f m s =>
  match m s with
  | (Returned a, s') => f a s'
  | (Exited code, s') => (Exited code, s')
  | (Blocked, s') => (Blocked, s')
  end.

Definition gets {A : Type} (f : Sys -> A) : M A := fun s => (Returned (f s), s).
Definition modify (f : Sys -> Sys) : M unit := fun s => (Returned tt, f s).
Definition modify_os (f : OS -> OS) : M unit := modify (fun s => set_os (f (os s)) s).
Definition block {A : Type} : M A := fun s => (Blocked, s).

(** [os.Exit]: nothing after it runs. *)
Definition os_Exit {A : Type} (code : Z) : M A := fun s => (Exited code, s).

(** ** Channels

    A send is handed to a receiver that the environment provides; it is
    recorded. A receive takes the next message of the script when that
    message is on the channel and of the type the receiver reads;
    otherwise the task blocks. *)

Definition as_bool (m : Msg) : option bool :=
  match m with MBool b => Some b | _ => None end.
Definition as_error (m : Msg) : option error :=
  match m with MErr e => Some e | _ => None end.
Definition as_change (m : Msg) : option svc.ChangeRequest :=
  match m with MChange c => Some c | _ => None end.

(** The package-level [serviceSignal = make(chan bool)]. *)
Definition serviceSignal : Chan := 0.

(** [make(chan T)] *)
Definition make_chan : M Chan := fun s =>
  (Returned (next_chan s), set_next_chan (next_chan s + 1) s).

(** [c <- m] *)
Definition send (c : Chan) (m : Msg) : M unit :=
  modify (fun s => set_trace (trace s ++ [Sent c m]) s).

(** [<-c] *)
Definition recv {A : Type} (c : Chan) (dec : Msg -> option A) : M A := fun s =>
  match inbox s with
  | (c', m) :: rest =>
      match dec m with
      | Some a =>
          if c' =? c
          then (Returned a, set_trace (trace s ++ [Received c m]) (set_inbox rest s))
          else (Blocked, s)
      | None => (Blocked, s)
      end
  | [] => (Blocked, s)
  end.

(** [select] over two receive cases. *)
Definition select2 {A B : Type} (c1 : Chan) (dec1 : Msg -> option A)
    (c2 : Chan) (dec2 : Msg -> option B) : M (A + B) := fun s =>
  match inbox s with
  | (c', m) :: rest =>
      let s' := set_trace (trace s ++ [Received c' m]) (set_inbox rest s) in
      match (if c' =? c1 then dec1 m else None) with
      | Some a => (Returned (inl a), s')
      | None =>
          match (if c' =? c2 then dec2 m else None) with
          | Some b => (Returned (inr b), s')
          | None => (Blocked, s)
          end
      end
  | [] => (Blocked, s)
  end.

(** [go f()] *)
Definition go (g : Goroutine) : M unit :=
  modify (fun s => set_trace (trace s ++ [Spawned g]) s).

(** ** Package os and syscall *)

Module os_flag.
Definition O_WRONLY : Z := 1.
Definition O_RDWR : Z := 2.
Definition O_CREATE : Z := 64.
Definition O_TRUNC : Z := 512.
Definition O_APPEND : Z := 1024.
End os_flag.

Definition has_flag (flag bit : Z) : bool := negb (Z.land flag bit =? 0).

Definition access_denied (op name : string) : string :=
  op +:+ " " +:+ name +:+ ": Access is denied.".
Definition not_found (op name : string) : string :=
  op +:+ " " +:+ name +:+ ": The system cannot find the file specified.".
Definition ErrInvalid : string := "invalid argument".

(** The system hands out a new handle on [name]. *)
Definition new_handle (name : string) (w : OS) : Handle * OS :=
  (next_handle w,
   set_next_handle (next_handle w + 1)
     (set_handles (<[next_handle w := name]> (handles w)) w)).

(** [os.OpenFile(name, flag, perm)] *)
Definition os_OpenFile (name : string) (flag perm : Z) : M (option File * error) :=
  fun s =>
  let w := os s in
  if bool_decide (name ∈ denied w) || bool_decide (name ∈ dirs w)
  then (Returned (None, Some (access_denied "open" name)), s)
  else
    match files w !! name with
    | Some old =>
        let w1 := if has_flag flag os_flag.O_TRUNC
                  then set_files (<[name := ""]> (files w)) w else w in
        let '(h, w2) := new_handle name w1 in
        (Returned (Some (mkFile h name), None), set_os w2 s)
    | None =>
        if has_flag flag os_flag.O_CREATE
        then
          let '(h, w2) := new_handle name (set_files (<[name := ""]> (files w)) w) in
          (Returned (Some (mkFile h name), None), set_os w2 s)
        else (Returned (None, Some (not_found "open" name)), s)
    end.

(** [os.Create(name)] is
    [OpenFile(name, O_RDWR|O_CREATE|O_TRUNC, 0666)]. *)
Definition os_Create (name : string) : M (option File * error) :=
  os_OpenFile name
    (Z.lor os_flag.O_RDWR (Z.lor os_flag.O_CREATE os_flag.O_TRUNC)) 438.

(** [f.Stat()], of which the file reads the size. A nil [*os.File]
    gives [ErrInvalid]. *)
Definition File_Stat (f : option File) : M (option Z * error) := fun s =>
  match f with
  | None => (Returned (None, Some ErrInvalid), s)
  | Some f =>
      match handles (os s) !! Fd f with
      | None => (Returned (None, Some ("stat " +:+ Name f +:+ ": file already closed")), s)
      | Some p =>
          match files (os s) !! p with
          | None => (Returned (None, Some (not_found "stat" p)), s)
          | Some c => (Returned (Some (Z.of_nat (String.length c)), None), s)
          end
      end
  end.

(** [f.Close()] *)
Definition File_Close (f : option File) : M error := fun s =>
  match f with
  | None => (Returned (Some ErrInvalid), s)
  | Some f =>
      match handles (os s) !! Fd f with
      | None => (Returned (Some ("close " +:+ Name f +:+ ": file already closed")), s)
      | Some _ =>
          (Returned None, set_os (set_handles (delete (Fd f) (handles (os s))) (os s)) s)
      end
  end.

(** [os.Rename(oldpath, newpath)]; an existing file at [newpath] is
    replaced. *)
Definition os_Rename (oldpath newpath : string) : M error := fun s =>
  let w := os s in
  match files w !! oldpath with
  | None => (Returned (Some (not_found "rename" oldpath)), s)
  | Some c =>
      if bool_decide (newpath ∈ denied w) || bool_decide (newpath ∈ dirs w)
      then (Returned (Some (access_denied "rename" oldpath)), s)
      else (Returned None,
            set_os (set_files (<[newpath := c]> (delete oldpath (files w))) w) s)
  end.

(** [os.Remove(name)] *)
Definition os_Remove (name : string) : M error := fun s =>
  let w := os s in
  match files w !! name with
  | Some _ => (Returned None, set_os (set_files (delete name (files w)) w) s)
  | None =>
      if bool_decide (name ∈ dirs w)
      then (Returned None, set_os (set_dirs (dirs w ∖ {[name]}) w) s)
      else (Returned (Some (not_found "remove" name)), s)
  end.

(** [os.Stat(name)], of which the file reads the error only. *)
Definition os_Stat (name : string) : M error := fun s =>
  match files (os s) !! name with
  | Some _ => (Returned None, s)
  | None =>
      if bool_decide (name ∈ dirs (os s)) then (Returned None, s)
      else (Returned (Some (not_found "stat" name)), s)
  end.

(** [os.MkdirAll(path, perm)] *)
Definition os_MkdirAll (path : string) (perm : Z) : M error := fun s =>
  let w := os s in
  if bool_decide (path ∈ dirs w) then (Returned None, s)
  else if bool_decide (path ∈ denied w) || bool_decide (is_Some (files w !! path))
  then (Returned (Some (access_denied "mkdir" path)), s)
  else (Returned None, set_os (set_dirs ({[path]} ∪ dirs w) w) s).

Definition STD_ERROR_HANDLE : Z := -12.

(** [syscall.GetStdHandle(sh)] *)
Definition syscall_GetStdHandle (sh : Z) : M (Handle * error) := fun s =>
  if sh =? STD_ERROR_HANDLE then (Returned (std_error (os s), None), s)
  else (Returned (0, Some "The handle is invalid."), s).

(** [setStdHandle.Call(sh, h)]: the result [r] of SetStdHandle and the
    last error, which a [LazyProc] call always returns non-nil. *)
Definition setStdHandle_Call (sh : Z) (h : Handle) : M (Z * error) := fun s =>
  if sh =? STD_ERROR_HANDLE
  then (Returned (1, Some "The operation completed successfully."),
        set_os (set_std_error h (os s)) s)
  else (Returned (0, Some "The handle is invalid."), s).

(** [fmt.Fprintf(os.Stderr, ...)], with the text already formatted. *)
Definition Fprintf_Stderr (text : string) : M unit :=
  modify_os (fun w => set_console (console w ++ [text]) w).

(** [syscall.UTF16PtrFromString(s)]: [EINVAL] when [s] holds a NUL byte;
    the pointer is represented by the string it points to. *)
Fixpoint has_NUL (s : string) : bool :=
  match s with
  | EmptyString => false
  | String a rest => Ascii.eqb a Ascii.zero || has_NUL rest
  end.

Definition syscall_UTF16PtrFromString (s : string) : option string * error :=
  if has_NUL s then (None, Some "invalid argument") else (Some s, None).

(** [windows.ReportEvent(log, etype, category, eid, usrSId, count, 0, ss, nil)] *)
Definition windows_ReportEvent (lg : Handle) (etype category eid : Z)
    (count : Z) (ss : list string) : M error := fun s =>
  (Returned None,
   set_os (set_event_log
             (event_log (os s) ++ [mkReported lg etype eid count (firstn (Z.to_nat count) ss)])
             (os s)) s).

(** [eventlog.Open(source)] *)
Definition eventlog_Open (source : string) : M (option Handle * error) := fun s =>
  if eventlog_up (os s)
  then let '(h, w) := new_handle ("eventlog:" +:+ source) (os s) in
       (Returned (Some h, None), set_os w s)
  else (Returned (None, Some "The RPC server is unavailable."), s).

(** ** Event sink adapter: [etwHook.Fire] *)

(** The body of [for k, v := range e.Data], run over the pairs in the
    order of the iteration, on the buffer [fs]. *)
Fixpoint range_Data (fs : string) (data : list (string * string)) : string :=
  match data with
  | [] => fs
  | (k, v) :: rest => range_Data (fs +:+ k +:+ "=" +:+ v +:+ " ") rest
  end.

(** [s[:n]] *)
Definition slice_to (s : string) (n : Z) : string :=
  String.substring 0 (Z.to_nat n) s.

Definition len (s : string) : Z := Z.of_nat (String.length s).

(** The [switch e.Level] of [Fire]: the event type and the identifier
    of a level, [None] in the [default] case. *)
Definition level_event (lvl : logrus.Level) : option (Z * Z) :=
  if lvl =? logrus.PanicLevel then Some (windows.EVENTLOG_ERROR_TYPE, eventPanic)
  else if lvl =? logrus.FatalLevel then Some (windows.EVENTLOG_ERROR_TYPE, eventFatal)
  else if lvl =? logrus.ErrorLevel then Some (windows.EVENTLOG_ERROR_TYPE, eventError)
  else if lvl =? logrus.WarnLevel then Some (windows.EVENTLOG_WARNING_TYPE, eventWarn)
  else if lvl =? logrus.InfoLevel then Some (windows.EVENTLOG_INFORMATION_TYPE, eventInfo)
  else if lvl =? logrus.DebugLevel then Some (windows.EVENTLOG_INFORMATION_TYPE, eventDebug)
  else None.

(** The block under [if len(e.Data) > 0]: the second string and the
    identifier after it. *)
Definition extended (data : list (string * string)) (eid : Z) : string * Z :=
  if 0 <? Z.of_nat (length data)
  then
    let fs := range_Data "" data in
    (slice_to fs (len fs - 1), uint32 (eid + eventExtraOffset))
  else ("", eid).

Definition Fire (h : etwHook) (e : logrus.Entry) : M error :=
  match level_event (logrus.Level_ e) with
  | None => mret (Some "unknown level")
  | Some (etype, eid) =>
      (* If there is additional data, include it as a second string. *)
      let exts := fst (extended (logrus.Data e) eid) in
      let eid := snd (extended (logrus.Data e) eid) in
      match log h with
      | None =>
          Fprintf_Stderr (logrus.Message e +:+ " [" +:+ exts +:+ "]" +:+ LF);;
          mret None
      | Some lg =>
          match syscall_UTF16PtrFromString (logrus.Message e) with
          | (_, Some err) => mret (Some err)
          | (None, None) => mret None
          | (Some ss0, None) =>
              let count := 1 in
              if negb (String.eqb exts "")
              then
                match syscall_UTF16PtrFromString exts with
                | (_, Some err) => mret (Some err)
                | (None, None) => mret None
                | (Some ss1, None) =>
                    let count := uint16 (count + 1) in
                    windows_ReportEvent lg etype 0 eid count [ss0; ss1]
                end
              else windows_ReportEvent lg etype 0 eid count [ss0; ""]
          end
      end
  end.

(** ** The logrus standard logger

    An entry at a level the logger lets through is given to the hooks
    registered for the level, then written to the logger's output. The
    first hook that fails ends the round and is reported on standard
    error. [Fatal] ends the process with [os.Exit(1)], logged or not. *)

Definition Levels (h : etwHook) : list logrus.Level :=
  [logrus.PanicLevel; logrus.FatalLevel; logrus.ErrorLevel;
   logrus.WarnLevel; logrus.InfoLevel; logrus.DebugLevel].

Definition logrus_AddHook (h : etwHook) : M unit :=
  modify (fun s => set_hooks (hooks s ++ [h]) s).

Definition logrus_SetOutput (w : Writer) : M unit :=
  modify (set_log_out w).

Fixpoint fire_hooks (hs : list etwHook) (e : logrus.Entry) : M error :=
  match hs with
  | [] => mret None
  | h :: rest =>
      if existsb (Z.eqb (logrus.Level_ e)) (Levels h)
      then
        err ← Fire h e;
        match err with
        | Some _ => mret err
        | None => fire_hooks rest e
        end
      else fire_hooks rest e
  end.

Definition entry_log (level : logrus.Level) (msg : string) : M unit :=
  hs ← gets hooks;
  err ← fire_hooks hs (logrus.mkEntry level msg []);
  match err with
  | Some e => Fprintf_Stderr ("Failed to fire hook: " +:+ e +:+ LF)
  | None => mret tt
  end;;
  modify (fun s => set_log_records (log_records s ++ [(log_out s, level, msg)]) s).

Definition log_at (level : logrus.Level) (msg : string) : M unit :=
  lv ← gets log_level;
  if level <=? lv then entry_log level msg else mret tt.

Definition logrus_Debug (msg : string) : M unit := log_at logrus.DebugLevel msg.
Definition logrus_Info (msg : string) : M unit := log_at logrus.InfoLevel msg.
Definition logrus_Fatal (msg : string) : M unit :=
  log_at logrus.FatalLevel msg;; os_Exit 1.

(** [%v] of an error. *)
Definition show_error (err : error) : string :=
  match err with
  | Some e => e
  | None => "<nil>"
  end.

(** [if err != nil { return err }], then the rest. *)
Definition check (err : error) (rest : M error) : M error :=
  match err with
  | Some _ => mret err
  | None => rest
  end.

(** ** Crash capture manager *)

(** [f.Fd()] and [f.Name()] of the [*os.File] in a variable. *)
Definition File_Fd (f : option File) : Handle :=
  match f with
  | Some f => Fd f
  | None => -1
  end.
Definition File_Name (f : option File) : string :=
  match f with
  | Some f => Name f
  | None => ""
  end.

(** [st.Size()] of the file information [Stat] returned. *)
Definition Size (st : option Z) : Z :=
  match st with
  | Some n => n
  | None => 0
  end.

Definition initPanicFile (path : string) : M error :=
  '(_, err) ← os_Create rancherPanicFile;
  check err (
  '(f, err) ← os_OpenFile path
      (Z.lor os_flag.O_CREATE (Z.lor os_flag.O_WRONLY os_flag.O_APPEND)) 0;
  modify (set_panicFile f);;
  check err (
  pf ← gets panicFile;
  '(st, err) ← File_Stat pf;
  check err (
  (* Update STD_ERROR_HANDLE to point to the panic file so that Go writes
     to it when it panics. Remember the old stderr to restore it before
     removing the panic file. *)
  let redirect : M error :=
    let sh := STD_ERROR_HANDLE in
    '(h, err) ← syscall_GetStdHandle sh;
    check err (
    modify (set_oldStderr h);;
    pf ← gets panicFile;
    '(r, err) ← setStdHandle_Call sh (File_Fd pf);
    if (r =? 0) && bool_decide (is_Some err) then mret err
    else mret None) in
  (* If there are contents in the file already, move the file out of the
     way and replace it. *)
  if 0 <? Size st
  then
    File_Close pf;;
    os_Rename path (path +:+ ".old");;
    '(f, err) ← os_Create path;
    modify (set_panicFile f);;
    check err redirect
  else redirect))).

Definition removePanicFile : M unit :=
  pf ← gets panicFile;
  '(st, err) ← File_Stat pf;
  match err with
  | None =>
      if Size st =? 0
      then
        let sh := STD_ERROR_HANDLE in
        old ← gets oldStderr;
        setStdHandle_Call sh old;;
        File_Close pf;;
        os_Remove (File_Name pf);;
        mret tt
      else mret tt
  | Some _ => mret tt
  end.

(** ** Service control state machine *)

Definition started (h : handler) : M error :=
  err ← initPanicFile rancherPanicFile;
  check err (
  send (tosvc h) (MBool false);;
  mret None).

Definition stopped (h : handler) (err : error) : M unit :=
  logrus_Debug ("Stopping service: " +:+ show_error err);;
  send (tosvc h) (MBool (bool_decide (is_Some err)));;
  recv (fromsvc h) as_error;;
  mret tt.

(** The [Loop:] of [Execute]. Every turn takes one message of the
    script, so [n] turns are enough for a script of fewer than [n]
    messages; the result is the value of [failed] at [break Loop]. *)
Fixpoint Execute_Loop (h : handler) (r s : Chan) (n : nat) : M bool :=
  match n with
  | O => block
  | S n =>
      ev ← select2 (tosvc h) as_bool r as_change;
      match ev with
      | inl failed => mret failed
      | inr c =>
          if svc.Cmd_ c =? windows.SERVICE_CONTROL_PARAMCHANGE
          then Execute_Loop h r s n
          else if svc.Cmd_ c =? svc.Interrogate
          then
            send s (MStatus (svc.CurrentStatus c));;
            Execute_Loop h r s n
          else if (svc.Cmd_ c =? svc.Stop) || (svc.Cmd_ c =? svc.Shutdown)
          then
            send s (MStatus (svc.mkStatus svc.StopPending 0));;
            let failed := true in
            send serviceSignal (MBool true);;
            mret failed
          else Execute_Loop h r s n
      end
  end.

(** [Execute] from [Loop:] to its end: the machine in [Running]. *)
Definition Execute_Running (h : handler) (r s : Chan) : M (bool * Z) :=
  pending ← gets (fun st => length (inbox st));
  failed ← Execute_Loop h r s (S pending);
  removePanicFile;;
  if (failed : bool) then mret (true, 1) else mret (false, 0).

(** [handler.Execute(_, r, s)], with the pair it returns. *)
Definition Execute (h : handler) (r s : Chan) : M (bool * Z) :=
  send s (MStatus (svc.mkStatus svc.StartPending 0));;
  (* Unblock initService() *)
  send (fromsvc h) (MErr None);;
  (* Wait for initialization to complete. *)
  failed ← recv (tosvc h) as_bool;
  if (failed : bool)
  then
    logrus_Debug "Aborting service start due to failure during initialization";;
    mret (true, 1)
  else
    send s (MStatus (svc.mkStatus svc.Running
              (Z.lor (Z.lor svc.AcceptStop svc.AcceptShutdown)
                     windows.SERVICE_ACCEPT_PARAMCHANGE)));;
    logrus_Debug "Service running";;
    Execute_Running h r s.

(** ** Service installer *)

Definition getServicePath : M (string * error) := fun s =>
  match exe_path (os s) with
  | Some p => (Returned (p, None), s)
  | None => (Returned ("", Some "executable file not found in %PATH%"), s)
  end.

(** [mgr.Connect()] *)
Definition mgr_Connect : M error := fun s =>
  if scm_up (os s) then (Returned None, s)
  else (Returned (Some "Access is denied."), s).

(** [m.CreateService(name, exepath, c, args...)]: the new service has
    no failure actions yet. *)
Definition mgr_CreateService (name exepath : string) (args : list string)
    : M error := fun s =>
  let w := os s in
  match services w !! name with
  | Some _ => (Returned (Some ("service " +:+ name +:+ " already exists")), s)
  | None =>
      (Returned None,
       set_os (set_services (<[name := mkServiceDef exepath args []]> (services w)) w) s)
  end.

(** [windows.ChangeServiceConfig2(s.Handle, serviceConfigFailureActions,
    &lpInfo)] on the handle of the service [name]: the failure actions
    become the restarts with the delays [restarts], in milliseconds,
    then no action. *)
Definition windows_ChangeServiceConfig2 (name : string) (restarts : list Z)
    : M error := fun s =>
  let w := os s in
  match services w !! name with
  | Some d =>
      (Returned None,
       set_os (set_services
                 (<[name := mkServiceDef (sd_path d) (sd_args d) restarts]> (services w))
                 w) s)
  | None => (Returned (Some "The handle is invalid."), s)
  end.

(** [eventlog.Install(src, msgFile, false, eventsSupported)] *)
Definition eventlog_Install (src : string) : M error := fun s =>
  let w := os s in
  if bool_decide (src ∈ event_sources w)
  then (Returned (Some (src +:+ " registry key already exists")), s)
  else (Returned None, set_os (set_event_sources ({[src]} ∪ event_sources w) w) s).

(** [eventlog.Remove(src)] *)
Definition eventlog_Remove (src : string) : M error := fun s =>
  let w := os s in
  if bool_decide (src ∈ event_sources w)
  then (Returned None, set_os (set_event_sources (event_sources w ∖ {[src]}) w) s)
  else (Returned (Some (not_found "remove" src)), s).

(** [m.OpenService(name)] then [s.Delete()] *)
Definition mgr_OpenService (name : string) : M error := fun s =>
  match services (os s) !! name with
  | Some _ => (Returned None, s)
  | None => (Returned (Some "The specified service does not exist as an installed service."), s)
  end.
Definition Service_Delete (name : string) : M error := fun s =>
  let w := os s in
  (Returned None, set_os (set_services (delete name (services w)) w) s).

Definition registerService : M error :=
  '(p, err) ← getServicePath;
  check err (
  err ← mgr_Connect;
  check err (
  (* Configure the service to launch with the arguments that were just
     passed. *)
  let args := ["--enable-route-update"] in
  err ← mgr_CreateService ServiceName p args;
  check err (
  let t := [uint32 (60 * 1000); uint32 (60 * 1000)] in
  err ← windows_ChangeServiceConfig2 ServiceName t;
  check err (
  err ← eventlog_Install ServiceName;
  check err (
  mret None))))).

Definition unregisterService : M error :=
  err ← mgr_Connect;
  check err (
  err ← mgr_OpenService ServiceName;
  check err (
  eventlog_Remove ServiceName;;
  err ← Service_Delete ServiceName;
  check err (
  mret None))).

(** ** Initialisation and the collaborator interface *)

(** [svc.IsAnInteractiveSession()] *)
Definition svc_IsAnInteractiveSession : M (bool * error) := fun s =>
  match session (os s) with
  | Some b => (Returned (b, None), s)
  | None => (Returned (false, Some "Access is denied."), s)
  end.

Definition initService (register unregister : bool) : M error :=
  err ← os_Stat homeDir;
  err ← match err with
        | Some _ => os_MkdirAll homeDir 493
        | None => mret None
        end;
  check err (
  (if register
   then
     err ← registerService;
     match err with
     | Some e => logrus_Fatal ("Failed to register service, err: " +:+ e)
     | None => mret tt
     end;;
     os_Exit 0
   else mret tt);;
  (if unregister
   then
     err ← unregisterService;
     match err with
     | Some e => logrus_Fatal ("Failed to unregister service, err: " +:+ e)
     | None => mret tt
     end;;
     os_Exit 0
   else mret tt);;
  '(interactive, err) ← svc_IsAnInteractiveSession;
  check err (
  c1 ← make_chan;
  c2 ← make_chan;
  let h := mkHandler c1 c2 in
  '(lg, err) ← (if negb interactive
                then eventlog_Open ServiceName
                else mret (None, None));
  check err (
  logrus_AddHook (mkEtwHook lg);;
  err ← os_Stat logFile;
  err ← match err with
        | Some _ => '(_, err) ← os_Create logFile; mret err
        | None => mret None
        end;
  check err (
  '(file, err) ← os_OpenFile logFile os_flag.O_WRONLY 493;
  check err (
  logrus_SetOutput (match file with
                    | Some f => WFile f
                    | None => WStderr
                    end);;
  modify (set_service (Some h));;
  go (GoRunService interactive h);;
  (* Wait for the first signal from the service handler. *)
  err ← recv (fromsvc h) as_error;
  check err (mret None)))))).

Definition notifySystem : M unit :=
  sv ← gets service;
  match sv with
  | Some h =>
      err ← started h;
      match err with
      | Some e => logrus_Fatal e
      | None => mret tt
      end
  | None => mret tt
  end.

Definition NotifyShutdown (err : error) : M unit :=
  sv ← gets service;
  match sv with
  | Some h =>
      match err with
      | Some e => logrus_Fatal e
      | None => mret tt
      end;;
      stopped h err
  | None => mret tt
  end.

(** The goroutine [Init] starts: it listens to the service stop signal. *)
Definition signal_listener : M unit :=
  signal ← recv serviceSignal as_bool;
  if (signal : bool)
  then
    logrus_Info "Receiving service stop signal. Stopping per-host-subnet";;
    os_Exit 0
  else mret tt.

Definition Init (register unregister : bool) : M error :=
  err ← initService register unregister;
  check err (
  notifySystem;;
  (* listen to service stop signal *)
  go GoSignalListener;;
  mret None).


(** * Vocabulary of the properties, and the states of the examples *)

(** The auxiliary string in the words of the specification: the fields
    as [k=v], joined by single spaces, nothing after the last. *)
Definition joined_fields (data : list (string * string)) : string :=
  String.concat " " (map (fun kv => fst kv +:+ "=" +:+ snd kv) data).

(** The state after one more call of [ReportEvent]. *)
Definition report (ev : Reported) (s : Sys) : Sys :=
  set_os (set_event_log (event_log (os s) ++ [ev]) (os s)) s.

(** The process as the service manager starts it: the home directory
    is there, no file is open, standard error is the handle 7, the
    logger is as logrus sets it up. *)
Definition boot_os : OS :=
  mkOS ∅ {[ homeDir ]} ∅ ∅ 100 7 [] [] true (Some false) true ∅ ∅
       (Some "C:/rancher/per-host-subnet.exe").
Definition boot : Sys :=
  mkSys boot_os None 0 None logrus.InfoLevel [] WStderr [] 1 [] [].

(** [s'] is [s] but for what was logged: the console, the event log and
    the records of the logger. *)
Definition logged (s s' : Sys) : Prop :=
  s' = set_log_records (log_records s')
         (set_os (set_event_log (event_log (os s'))
                    (set_console (console (os s')) (os s))) s).

(** The state after the clean end of the crash capture on the file [f]:
    standard error is the remembered handle again, the handle of [f] is
    closed and the file is gone. *)
Definition removed (f : File) (s : Sys) : Sys :=
  set_os (set_files (delete (Name f) (files (os s)))
            (set_handles (delete (Fd f) (handles (os s)))
               (set_std_error (oldStderr s) (os s)))) s.

(** [Stat] of the crash file fails: the variable is nil, the handle is
    closed, or the file is gone from under it. *)
Definition Stat_fails (s : Sys) : Prop :=
  exists e, File_Stat (panicFile s) s = (Returned (None, Some e), s).

(** The state after the system opened [name] and left the regular files
    as [fs]. *)
Definition opened (name : string) (fs : gmap string string) (s : Sys) : Sys :=
  set_os (set_next_handle (next_handle (os s) + 1)
            (set_handles (<[next_handle (os s) := name]> (handles (os s)))
               (set_files fs (os s)))) s.

(** Projections of states built with the setters. *)
Ltac simpl_sys :=
  cbn [os service oldStderr panicFile log_level hooks log_out log_records
       next_chan inbox trace
       files dirs denied handles next_handle std_error console event_log
       eventlog_up session scm_up services event_sources exe_path
       set_os set_service set_oldStderr set_panicFile set_hooks set_log_out
       set_log_records set_next_chan set_inbox set_trace
       set_files set_dirs set_handles set_next_handle set_std_error
       set_console set_event_log set_services set_event_sources
       opened removed report fst snd Fd Name].
Ltac simpl_sys_all :=
  cbn [os service oldStderr panicFile log_level hooks log_out log_records
       next_chan inbox trace
       files dirs denied handles next_handle std_error console event_log
       eventlog_up session scm_up services event_sources exe_path
       set_os set_service set_oldStderr set_panicFile set_hooks set_log_out
       set_log_records set_next_chan set_inbox set_trace
       set_files set_dirs set_handles set_next_handle set_std_error
       set_console set_event_log set_services set_event_sources
       opened removed report fst snd Fd Name] in *.

(** The process as it starts after a run that left a crash record. *)
Definition after_crash : Sys :=
  set_os (set_files {[ rancherPanicFile := "panic: runtime error" ]} boot_os) boot.

(** The statuses [Execute] reports. *)
Definition StartPending_status : svc.Status := svc.mkStatus svc.StartPending 0.
Definition StopPending_status : svc.Status := svc.mkStatus svc.StopPending 0.
Definition Running_status : svc.Status :=
  svc.mkStatus svc.Running
    (Z.lor (Z.lor svc.AcceptStop svc.AcceptShutdown) windows.SERVICE_ACCEPT_PARAMCHANGE).

(** The task took the messages before [rest] and did [evs] since [s]. *)
Definition advanced (evs : list Event) (rest : list (Chan * Msg)) (s : Sys) : Sys :=
  set_trace (trace s ++ evs) (set_inbox rest s).

(** The event reports the [Running] state on some channel. *)
Definition reports_Running (ev : Event) : Prop :=
  exists c acc, ev = Sent c (MStatus (svc.mkStatus svc.Running acc)).

(** What the machine sends back on a request that does not stop it. *)
Definition answer (st : Chan) (c : svc.ChangeRequest) : list Event :=
  if svc.Cmd_ c =? windows.SERVICE_CONTROL_PARAMCHANGE then []
  else if svc.Cmd_ c =? svc.Interrogate
       then [Sent st (MStatus (svc.CurrentStatus c))]
       else [].

(** The handler, the channels of the dispatcher and the states of the
    examples: the crash capture has begun on an empty file. *)
Definition h0 : handler := mkHandler 1 2.
Definition r0 : Chan := 11.
Definition s0 : Chan := 12.
Definition started_state : Sys := snd (started h0 boot).
Definition stop_request : svc.ChangeRequest := svc.mkChangeRequest svc.Stop Running_status.

(** The events of the clean-stop scenario, as the dispatcher task sees
    them. *)
Definition clean_stop_events (h : handler) (r st : Chan) (c : svc.ChangeRequest)
    : list Event :=
  [Sent st (MStatus (svc.mkStatus svc.StartPending 0));
   Sent (fromsvc h) (MErr None);
   Received (tosvc h) (MBool false);
   Sent st (MStatus (svc.mkStatus svc.Running
              (Z.lor (Z.lor svc.AcceptStop svc.AcceptShutdown)
                     windows.SERVICE_ACCEPT_PARAMCHANGE)));
   Received r (MChange c);
   Sent st (MStatus (svc.mkStatus svc.StopPending 0));
   Sent serviceSignal (MBool true)].

(** The state of the scenario: the crash capture has begun, the
    application signals success and the system sends a stop. *)
Definition clean_stop : Sys :=
  set_inbox [(tosvc h0, MBool false); (r0, MChange stop_request)] started_state.

(** The application after [Init]: the service handler is installed and
    the crash capture has begun. *)
Definition serving : Sys := set_service (Some h0) started_state.

(** [s'] has the session, the hooks and the service handler of [s]. *)
Definition keeps (s s' : Sys) : Prop :=
  session (os s') = session (os s) /\ hooks s' = hooks s /\ service s' = service s.

(** The process started from a console: the session is interactive and
    the dispatcher task will release [initService]. *)
Definition interactive_boot : Sys :=
  mkSys (mkOS ∅ {[ homeDir ]} ∅ ∅ 100 7 [] [] true (Some true) true ∅ ∅
               (Some "C:/rancher/per-host-subnet.exe"))
        None 0 None logrus.InfoLevel [] WStderr [] 1 [(2, MErr None)] [].

(** [m] returns from [s], with a value and a state that [Q] holds of. *)
Definition post {A : Type} (m : M A) (s : Sys) (Q : A -> Sys -> Prop) : Prop :=
  exists a s', m s = (Returned a, s') /\ Q a s'.

(** [s'] is [s] but for the operating system and the two variables of
    the crash capture. *)
Definition capture_frame (s s' : Sys) : Prop :=
  s' = set_os (os s') (set_oldStderr (oldStderr s') (set_panicFile (panicFile s') s)).

(** The crash capture has come from [s] to [s'] without redirecting
    standard error. *)
Definition not_redirected (s s' : Sys) : Prop :=
  capture_frame s s' /\ std_error (os s') = std_error (os s).

(** How a begin of the crash capture that started in [s] has ended:
    without an error, the crash file open and standard error on it, the
    handle it replaced remembered; or with an error and standard error
    where it was. *)
Definition capture_result (s : Sys) (err : error) (s' : Sys) : Prop :=
  capture_frame s s' /\
  ((err = None /\ is_Some (panicFile s') /\
    std_error (os s') = File_Fd (panicFile s') /\
    oldStderr s' = std_error (os s)) \/
   (is_Some err /\ std_error (os s') = std_error (os s))).

(** A request that does not stop the machine: neither a stop nor a
    shutdown. *)
Definition quiet (c : svc.ChangeRequest) : Prop :=
  svc.Cmd_ c <> svc.Stop /\ svc.Cmd_ c <> svc.Shutdown.

(** The requests [cs] as messages on the channel [r], and what the
    machine in [Running] does over them. *)
Definition requests (r : Chan) (cs : list svc.ChangeRequest) : list (Chan * Msg) :=
  map (fun c => (r, MChange c)) cs.
Definition answers (r st : Chan) (cs : list svc.ChangeRequest) : list Event :=
  flat_map (fun c => Received r (MChange c) :: answer st c) cs.

(** [s'] is [s] but for the operating system, whose session is the
    same. *)
Definition os_changed (s s' : Sys) : Prop :=
  exists w, s' = set_os w s /\ session w = session (os s).

(** * Properties *)

(** ** Strings *)

Lemma append_cons (x : ascii) (a b : string) :
  String x a +:+ b = String x (a +:+ b).
Proof. reflexivity. Qed.

Lemma append_nil_l (b : string) : "" +:+ b = b.
Proof. reflexivity. Qed.

Lemma append_nil_r (a : string) : a +:+ "" = a.
Proof.
  induction a as [|x a IH]; [reflexivity |].
  now rewrite append_cons, IH.
Qed.

Lemma append_assoc (a b c : string) : (a +:+ b) +:+ c = a +:+ b +:+ c.
Proof.
  induction a as [|x a IH]; [reflexivity |].
  now rewrite !append_cons, IH.
Qed.

Lemma length_append (a b : string) :
  String.length (a +:+ b) = (String.length a + String.length b)%nat.
Proof.
  induction a as [|x a IH]; [reflexivity |].
  rewrite append_cons. simpl. now rewrite IH.
Qed.

Lemma substring_0_0 (b : string) : String.substring 0 0 b = "".
Proof. destruct b; reflexivity. Qed.

Lemma substring_prefix (a b : string) :
  String.substring 0 (String.length a) (a +:+ b) = a.
Proof.
  induction a as [|x a IH].
  - rewrite append_nil_l. apply substring_0_0.
  - rewrite append_cons. simpl. now rewrite IH.
Qed.

(** [s[:len(s)-1]] takes the last byte off. *)
Lemma slice_to_last (a : string) (c : ascii) :
  slice_to (a +:+ String c "") (len (a +:+ String c "") - 1) = a.
Proof.
  unfold slice_to, len. rewrite length_append. simpl String.length.
  replace (Z.to_nat (Z.of_nat (String.length a + 1) - 1)) with (String.length a) by lia.
  apply substring_prefix.
Qed.

Lemma has_NUL_append (a b : string) : has_NUL (a +:+ b) = has_NUL a || has_NUL b.
Proof.
  induction a as [|x a IH]; [reflexivity |].
  rewrite append_cons. simpl. rewrite IH. now rewrite orb_assoc.
Qed.

(** ** Event sink adapter *)

Lemma range_Data_acc (data : list (string * string)) (fs : string) :
  range_Data fs data = fs +:+ range_Data "" data.
Proof.
  revert fs. induction data as [|[k v] rest IH]; intros fs; simpl.
  - now rewrite append_nil_r.
  - rewrite IH. rewrite (IH ("" +:+ _)). now rewrite append_nil_l, !append_assoc.
Qed.

(** The loop of [Fire] writes the joined fields and one more space. *)
Lemma range_Data_joined (data : list (string * string)) :
  data <> [] -> range_Data "" data = joined_fields data +:+ " ".
Proof.
  induction data as [|[k v] rest IH]; intros Hne; [congruence |].
  simpl range_Data. rewrite range_Data_acc.
  destruct rest as [|kv rest].
  - simpl. rewrite append_nil_r, append_nil_l.
    unfold joined_fields. simpl map. simpl String.concat.
    now rewrite !append_assoc.
  - rewrite IH by congruence.
    unfold joined_fields. simpl map. simpl String.concat.
    now rewrite !append_assoc.
Qed.

Lemma joined_fields_nonempty (data : list (string * string)) :
  data <> [] -> joined_fields data <> "".
Proof.
  destruct data as [|[k v] rest]; intros Hne; [congruence |].
  intros Heq. apply (f_equal String.length) in Heq.
  unfold joined_fields in Heq. simpl map in Heq.
  destruct rest; simpl String.concat in Heq;
    rewrite ?length_append in Heq; simpl in Heq; lia.
Qed.

(** The identifiers of the switch are small: adding the offset does not
    wrap. *)
Lemma level_event_range (lvl : logrus.Level) (etype eid : Z) :
  level_event lvl = Some (etype, eid) -> 1 <= eid <= 4.
Proof.
  unfold level_event.
  repeat (destruct (lvl =? _); [intros [= <- <-]; cbv; split; congruence |]).
  discriminate.
Qed.

(** What [extended] computes, in the words of the specification. *)
Lemma extended_fields (data : list (string * string)) (etype eid : Z) (lvl : logrus.Level) :
  level_event lvl = Some (etype, eid) -> data <> [] ->
  extended data eid = (joined_fields data, eid + eventExtraOffset).
Proof.
  intros Hlvl Hne. apply level_event_range in Hlvl.
  unfold extended.
  destruct data as [|kv rest]; [congruence |].
  replace (0 <? Z.of_nat (length (kv :: rest))) with true
    by (symmetry; apply Z.ltb_lt; simpl length; lia).
  cbv zeta. rewrite range_Data_joined by congruence.
  rewrite (slice_to_last (joined_fields (kv :: rest)) " "%char).
  f_equal. unfold uint32, eventExtraOffset. apply Z.mod_small. lia.
Qed.

Lemma extended_plain (eid : Z) : extended [] eid = ("", eid).
Proof. reflexivity. Qed.

Lemma level_event_None (lvl : logrus.Level) :
  level_event lvl = None <-> ~ (0 <= lvl <= 5).
Proof.
  unfold level_event, logrus.PanicLevel, logrus.FatalLevel, logrus.ErrorLevel,
    logrus.WarnLevel, logrus.InfoLevel, logrus.DebugLevel.
  repeat match goal with
  | |- context [?a =? ?b] => destruct (Z.eqb_spec a b)
  end; split; intros H; try discriminate; try reflexivity; lia.
Qed.

(** Whatever [Fire] does with a record of a known level, the event log
    is left as it was or grows by one event of the level's type, whose
    identifier is the level's, plus the offset when there are fields. *)
Lemma Fire_event_log (h : etwHook) (e : logrus.Entry) (s s' : Sys)
    (r : Result error) (etype eid : Z) :
  level_event (logrus.Level_ e) = Some (etype, eid) ->
  Fire h e s = (r, s') ->
  event_log (os s') = event_log (os s) \/
  exists lg n ss,
    event_log (os s') =
    event_log (os s) ++
      [mkReported lg etype
         (match logrus.Data e with [] => eid | _ :: _ => eid + eventExtraOffset end) n ss].
Proof.
  intros Hlvl HF. unfold Fire in HF. rewrite Hlvl in HF.
  assert (Hid : snd (extended (logrus.Data e) eid) =
                match logrus.Data e with [] => eid | _ :: _ => eid + eventExtraOffset end).
  { destruct (logrus.Data e) as [|kv rest] eqn:HD; [reflexivity |].
    now rewrite (extended_fields _ _ _ _ Hlvl). }
  rewrite Hid in HF. clear Hid.
  destruct (log h) as [lg|].
  - destruct (syscall_UTF16PtrFromString (logrus.Message e)) as [[ss0|] [err|]];
      try (injection HF as <- <-; now left).
    destruct (negb _).
    + destruct (syscall_UTF16PtrFromString _) as [[ss1|] [err|]];
        try (injection HF as <- <-; now left).
      injection HF as <- <-. right. simpl. eauto.
    + injection HF as <- <-. right. simpl. eauto.
  - injection HF as <- <-. now left.
Qed.

(** C8. The event sink adapter maps every severity to a fixed pair of
    event type and identifier: panic, fatal and error to the error type
    with three different identifiers, warn to the warning type, info and
    debug to the information type with two different identifiers. An
    event that [Fire] reports carries the type of its record's severity
    and the identifier of that severity (moved by the offset when the
    record has fields). A record of any other severity makes [Fire]
    return an error and leaves the whole state, so the event log and the
    console, as it was. *)
Theorem Fire_severity_mapping :
  (level_event logrus.PanicLevel = Some (windows.EVENTLOG_ERROR_TYPE, eventPanic) /\
   level_event logrus.FatalLevel = Some (windows.EVENTLOG_ERROR_TYPE, eventFatal) /\
   level_event logrus.ErrorLevel = Some (windows.EVENTLOG_ERROR_TYPE, eventError) /\
   level_event logrus.WarnLevel = Some (windows.EVENTLOG_WARNING_TYPE, eventWarn) /\
   level_event logrus.InfoLevel = Some (windows.EVENTLOG_INFORMATION_TYPE, eventInfo) /\
   level_event logrus.DebugLevel = Some (windows.EVENTLOG_INFORMATION_TYPE, eventDebug)) /\
  (eventPanic <> eventFatal /\ eventPanic <> eventError /\ eventFatal <> eventError /\
   eventInfo <> eventDebug) /\
  (forall (h : etwHook) (e : logrus.Entry) (s s' : Sys) (r : Result error) (etype eid : Z),
     level_event (logrus.Level_ e) = Some (etype, eid) ->
     Fire h e s = (r, s') ->
     event_log (os s') = event_log (os s) \/
     exists lg n ss,
       event_log (os s') =
       event_log (os s) ++
         [mkReported lg etype
            (match logrus.Data e with [] => eid | _ :: _ => eid + eventExtraOffset end)
            n ss]) /\
  (forall (h : etwHook) (e : logrus.Entry) (s : Sys),
     ~ (0 <= logrus.Level_ e <= 5) ->
     Fire h e s = (Returned (Some "unknown level"), s)).
Proof.
  split; [repeat split |].
  split; [repeat split; discriminate |].
  split.
  - intros h e s s' r etype eid. apply Fire_event_log.
  - intros h e s Hlvl. apply level_event_None in Hlvl.
    unfold Fire. now rewrite Hlvl.
Qed.

(** C9. With an event log open and strings that convert to UTF-16: a
    record with one or more fields is reported as one event of two
    strings, the message and the fields joined as [k=v] by single
    spaces, under the severity's identifier plus the offset; a record
    without fields is reported as one event of one string, the message,
    under the severity's identifier. *)
Theorem Fire_extended_record (h : etwHook) (e : logrus.Entry) (s : Sys)
    (lg : Handle) (etype eid : Z) :
  log h = Some lg ->
  level_event (logrus.Level_ e) = Some (etype, eid) ->
  has_NUL (logrus.Message e) = false ->
  (logrus.Data e <> [] ->
   has_NUL (joined_fields (logrus.Data e)) = false ->
   Fire h e s =
   (Returned None,
    report (mkReported lg etype (eid + eventExtraOffset) 2
              [logrus.Message e; joined_fields (logrus.Data e)]) s)) /\
  (logrus.Data e = [] ->
   Fire h e s =
   (Returned None, report (mkReported lg etype eid 1 [logrus.Message e]) s)).
Proof.
  intros Hlog Hlvl Hmsg. unfold Fire. rewrite Hlvl, Hlog.
  split.
  - intros Hne Hnul.
    rewrite (extended_fields _ _ _ _ Hlvl Hne). cbn [fst snd].
    destruct (String.eqb_spec (joined_fields (logrus.Data e)) "") as [Heq|_].
    { now apply joined_fields_nonempty in Heq. }
    cbn [negb]. unfold syscall_UTF16PtrFromString. rewrite Hmsg, Hnul.
    reflexivity.
  - intros ->. rewrite extended_plain. cbn [fst snd].
    unfold syscall_UTF16PtrFromString. rewrite Hmsg. reflexivity.
Qed.

Lemma Fire_extended_record_witness :
  Fire (mkEtwHook (Some 5))
       (logrus.mkEntry logrus.ErrorLevel "route update failed"
          [("subnet", "10.42.0.0/24"); ("host", "node 1")]) boot =
  (Returned None,
   report (mkReported 5 windows.EVENTLOG_ERROR_TYPE 11 2
             ["route update failed"; "subnet=10.42.0.0/24 host=node 1"]) boot).
Proof.
  apply (Fire_extended_record (mkEtwHook (Some 5))
           (logrus.mkEntry logrus.ErrorLevel "route update failed"
              [("subnet", "10.42.0.0/24"); ("host", "node 1")])
           boot 5 windows.EVENTLOG_ERROR_TYPE eventError);
    try reflexivity; discriminate.
Defined.

(** ** The monad and the logger *)

Lemma bind_Returned {A B : Type} (m : M A) (f : A -> M B) (s s1 : Sys) (a : A) :
  m s = (Returned a, s1) -> (m ≫= f) s = f a s1.
Proof. intros H. unfold mbind, M_bind. now rewrite H. Qed.

Lemma bind_Exited {A B : Type} (m : M A) (f : A -> M B) (s s1 : Sys) (code : Z) :
  m s = (Exited code, s1) -> (m ≫= f) s = (Exited code, s1).
Proof. intros H. unfold mbind, M_bind. now rewrite H. Qed.

Lemma bind_Blocked {A B : Type} (m : M A) (f : A -> M B) (s s1 : Sys) :
  m s = (Blocked, s1) -> (m ≫= f) s = (Blocked, s1).
Proof. intros H. unfold mbind, M_bind. now rewrite H. Qed.

(** A computation that returns came through both halves of a bind. *)
Lemma bind_inv {A B : Type} (m : M A) (f : A -> M B) (s s' : Sys) (b : B) :
  (m ≫= f) s = (Returned b, s') ->
  exists a s1, m s = (Returned a, s1) /\ f a s1 = (Returned b, s').
Proof.
  unfold mbind, M_bind. destruct (m s) as [[a| |] s1]; intros H;
    [eauto | discriminate | discriminate].
Qed.

Lemma logged_refl (s : Sys) : logged s s.
Proof. destruct s as [w]; destruct w; reflexivity. Qed.

Lemma logged_trans (s1 s2 s3 : Sys) : logged s1 s2 -> logged s2 s3 -> logged s1 s3.
Proof.
  unfold logged.
  destruct s1 as [w1 ? ? ? ? ? ? ? ? ? ?], s2 as [w2 ? ? ? ? ? ? ? ? ? ?],
    s3 as [w3 ? ? ? ? ? ? ? ? ? ?].
  destruct w1, w2, w3. cbn.
  intros H12 H23. injection H12. injection H23. intros. subst. reflexivity.
Qed.

Lemma Fire_logged (h : etwHook) (e : logrus.Entry) (s : Sys) :
  exists err s', Fire h e s = (Returned err, s') /\ logged s s'.
Proof.
  unfold Fire.
  destruct (level_event _) as [[etype eid]|].
  2: { eexists _, _. split; [reflexivity | apply logged_refl]. }
  destruct (log h) as [lg|].
  - destruct (syscall_UTF16PtrFromString (logrus.Message e)) as [[ss0|] [err|]];
      try (eexists _, _; split; [reflexivity | apply logged_refl]).
    destruct (negb _).
    + destruct (syscall_UTF16PtrFromString _) as [[ss1|] [err|]];
        try (eexists _, _; split; [reflexivity | apply logged_refl]).
      eexists _, _. split; [reflexivity |].
      destruct s as [w]; destruct w; reflexivity.
    + eexists _, _. split; [reflexivity |].
      destruct s as [w]; destruct w; reflexivity.
  - eexists _, _. split; [reflexivity |].
    destruct s as [w]; destruct w; reflexivity.
Qed.

Lemma fire_hooks_logged (hs : list etwHook) (e : logrus.Entry) (s : Sys) :
  exists err s', fire_hooks hs e s = (Returned err, s') /\ logged s s'.
Proof.
  revert s. induction hs as [|h rest IH]; intros s; cbn [fire_hooks].
  - eexists _, _. split; [reflexivity | apply logged_refl].
  - destruct (existsb (Z.eqb (logrus.Level_ e)) (Levels h)); [| apply IH].
    destruct (Fire_logged h e s) as (err & s1 & HF & Hl1).
    rewrite (bind_Returned _ _ _ _ _ HF).
    destruct err as [msg|].
    + eexists _, _. split; [reflexivity | exact Hl1].
    + destruct (IH s1) as (err & s2 & HR & Hl2).
      eexists _, _. split; [exact HR | eapply logged_trans; eassumption].
Qed.

Lemma entry_log_logged (level : logrus.Level) (msg : string) (s : Sys) :
  exists s', entry_log level msg s = (Returned tt, s') /\ logged s s'.
Proof.
  unfold entry_log.
  rewrite (bind_Returned _ _ s s (hooks s)) by reflexivity.
  destruct (fire_hooks_logged (hooks s) (logrus.mkEntry level msg []) s)
    as (err & s1 & HR & Hl1).
  rewrite (bind_Returned _ _ _ _ _ HR).
  destruct err as [e|].
  - eexists. split; [reflexivity |].
    eapply logged_trans; [exact Hl1 |].
    destruct s1 as [w]; destruct w; reflexivity.
  - eexists. split; [reflexivity |].
    eapply logged_trans; [exact Hl1 |].
    destruct s1 as [w]; destruct w; reflexivity.
Qed.

(** Logging returns and touches nothing but the logs. *)
Lemma log_at_logged (level : logrus.Level) (msg : string) (s : Sys) :
  exists s', log_at level msg s = (Returned tt, s') /\ logged s s'.
Proof.
  unfold log_at.
  rewrite (bind_Returned _ _ s s (log_level s)) by reflexivity.
  destruct (level <=? log_level s).
  - apply entry_log_logged.
  - eexists. split; [reflexivity | apply logged_refl].
Qed.

(** [Fatal] ends the process with code 1, after the logging. *)
Lemma logrus_Fatal_exits (msg : string) (s : Sys) :
  exists s', logrus_Fatal msg s = (Exited 1, s') /\ logged s s'.
Proof.
  unfold logrus_Fatal.
  destruct (log_at_logged logrus.FatalLevel msg s) as (s1 & HR & Hl).
  rewrite (bind_Returned _ _ _ _ _ HR).
  eexists. split; [reflexivity | exact Hl].
Qed.

(** ** Crash capture manager *)

Lemma removePanicFile_empty (s : Sys) (f : File) :
  panicFile s = Some f ->
  handles (os s) !! Fd f = Some (Name f) ->
  files (os s) !! Name f = Some "" ->
  removePanicFile s = (Returned tt, removed f s).
Proof.
  intros Hpf Hh Hf. unfold removePanicFile.
  rewrite (bind_Returned _ _ s s (Some f)) by (unfold gets; now rewrite Hpf).
  rewrite (bind_Returned _ _ s s (Some 0, None)).
  2: { unfold File_Stat. now rewrite Hh, Hf. }
  cbn [Size Z.eqb].
  rewrite (bind_Returned _ _ s s (oldStderr s)) by reflexivity.
  unfold mbind, M_bind, setStdHandle_Call, File_Close, os_Remove, File_Name, mret, M_ret.
  cbn. rewrite Hh. cbn. rewrite Hf. reflexivity.
Qed.

Lemma removePanicFile_nonempty (s : Sys) (f : File) (c : string) :
  panicFile s = Some f ->
  handles (os s) !! Fd f = Some (Name f) ->
  files (os s) !! Name f = Some c ->
  c <> "" ->
  removePanicFile s = (Returned tt, s).
Proof.
  intros Hpf Hh Hf Hc. unfold removePanicFile.
  rewrite (bind_Returned _ _ s s (Some f)) by (unfold gets; now rewrite Hpf).
  rewrite (bind_Returned _ _ s s (Some (Z.of_nat (String.length c)), None)).
  2: { unfold File_Stat. now rewrite Hh, Hf. }
  cbn [Size].
  destruct c as [|x c]; [congruence |].
  replace (Z.of_nat (String.length (String x c)) =? 0) with false; [reflexivity |].
  symmetry. apply Z.eqb_neq. simpl String.length. lia.
Qed.

Lemma removePanicFile_Stat_fails (s : Sys) :
  Stat_fails s -> removePanicFile s = (Returned tt, s).
Proof.
  intros [e He]. unfold removePanicFile.
  rewrite (bind_Returned _ _ s s (panicFile s)) by reflexivity.
  rewrite (bind_Returned _ _ _ _ _ He). reflexivity.
Qed.

(** [Stat] reads and returns; it changes nothing. *)
Lemma File_Stat_pure (f : option File) (s : Sys) :
  exists r, File_Stat f s = (Returned r, s).
Proof.
  unfold File_Stat. destruct f as [f|]; [| eauto].
  destruct (handles (os s) !! Fd f); [| eauto].
  destruct (files (os s) !! _); eauto.
Qed.

Lemma removePanicFile_returns (s : Sys) :
  exists s', removePanicFile s = (Returned tt, s').
Proof.
  unfold removePanicFile.
  rewrite (bind_Returned _ _ s s (panicFile s)) by reflexivity.
  destruct (File_Stat_pure (panicFile s) s) as [[st err] HS].
  rewrite (bind_Returned _ _ _ _ _ HS).
  destruct err as [e|]; [eauto |].
  destruct (Size st =? 0); [| eauto].
  rewrite (bind_Returned _ _ s s (oldStderr s)) by reflexivity.
  unfold mbind, M_bind.
  destruct (setStdHandle_Call _ _ s) as [[[r e]| |] s1] eqn:H1.
  2,3: unfold setStdHandle_Call in H1; destruct (_ =? _) in H1; discriminate.
  destruct (File_Close (panicFile s) s1) as [[e2| |] s2] eqn:H2.
  2,3: unfold File_Close in H2; destruct (panicFile s) as [f|]; [| discriminate];
       destruct (handles (os s1) !! Fd f); discriminate.
  destruct (os_Remove _ s2) as [[e3| |] s3] eqn:H3.
  2,3: unfold os_Remove in H3; destruct (files (os s2) !! _);
       [discriminate | destruct (bool_decide _); discriminate].
  eauto.
Qed.

(** The end of the crash capture touches the operating system only. *)
Lemma removePanicFile_frame (s s' : Sys) :
  removePanicFile s = (Returned tt, s') -> exists w, s' = set_os w s.
Proof.
  assert (Hid : s = set_os (os s) s) by (destruct s; reflexivity).
  unfold removePanicFile.
  rewrite (bind_Returned _ _ s s (panicFile s)) by reflexivity.
  destruct (File_Stat_pure (panicFile s) s) as [[st err] HS].
  rewrite (bind_Returned _ _ _ _ _ HS).
  destruct err as [e|]; [intros [= <-]; eauto |].
  destruct (Size st =? 0); [| intros [= <-]; eauto].
  rewrite (bind_Returned _ _ s s (oldStderr s)) by reflexivity.
  rewrite (bind_Returned _ _ s (set_os (set_std_error (oldStderr s) (os s)) s)
             (1, Some "The operation completed successfully.")) by reflexivity.
  unfold mbind, M_bind.
  destruct (File_Close (panicFile s) _) as [[e2| |] s2] eqn:H2;
    [| intros [=] | intros [=]].
  assert (exists w2, s2 = set_os w2 s) as [w2 ->].
  { unfold File_Close in H2. destruct (panicFile s) as [f|]; [| injection H2 as _ <-; eauto].
    destruct (handles _ !! Fd f); injection H2 as _ <-; eauto. }
  destruct (os_Remove _ _) as [[e3| |] s3] eqn:H3; [| intros [=] | intros [=]].
  intros [= <-].
  unfold os_Remove in H3. destruct (files _ !! _); [injection H3 as _ <-; eauto |].
  destruct (bool_decide _); injection H3 as _ <-; eauto.
Qed.

(** C10. The end of the crash capture always returns, and it has no
    error to return. When [Stat] of the crash file fails it does
    nothing: standard error is not restored, the file is neither closed
    nor deleted, the state is the one it started from. *)
Theorem removePanicFile_total (s : Sys) :
  (exists s', removePanicFile s = (Returned tt, s')) /\
  (Stat_fails s -> removePanicFile s = (Returned tt, s)).
Proof.
  split; [apply removePanicFile_returns | apply removePanicFile_Stat_fails].
Qed.

Lemma removePanicFile_total_witness :
  Stat_fails boot /\ removePanicFile boot = (Returned tt, boot).
Proof.
  assert (H : Stat_fails boot) by (exists ErrInvalid; reflexivity).
  split; [exact H | exact (proj2 (removePanicFile_total boot) H)].
Defined.

Lemma set_files_id (w : OS) : set_files (files w) w = w.
Proof. destruct w; reflexivity. Qed.

(** What [os.OpenFile] can have done when it returns. *)
Lemma os_OpenFile_inv (name : string) (flag perm : Z) (s s' : Sys)
    (fo : option File) (err : error) :
  os_OpenFile name flag perm s = (Returned (fo, err), s') ->
  (exists e, err = Some e /\ fo = None /\ s' = s) \/
  (err = None /\ fo = Some (mkFile (next_handle (os s)) name) /\
   exists fs c,
     s' = opened name fs s /\
     fs !! name = Some c /\
     (has_flag flag os_flag.O_TRUNC = true -> c = "") /\
     (files (os s) !! name = None -> c = "") /\
     (has_flag flag os_flag.O_TRUNC = false -> files (os s) !! name = Some c \/
                                               files (os s) !! name = None) /\
     (forall p, p <> name -> fs !! p = files (os s) !! p)).
Proof.
  unfold os_OpenFile.
  destruct (_ || _).
  { intros [= <- <- <-]. left. eauto. }
  destruct (files (os s) !! name) as [old|] eqn:Hold.
  - destruct (has_flag flag os_flag.O_TRUNC) eqn:Htr; cbn; intros [= <- <- <-];
      right; (split; [reflexivity |]); (split; [reflexivity |]).
    + exists (<[name := ""]> (files (os s))), "".
      split; [reflexivity |]. split; [apply lookup_insert_eq |].
      split; [reflexivity |]. split; [reflexivity |]. split; [discriminate |].
      intros p Hp. now apply lookup_insert_ne.
    + exists (files (os s)), old.
      split; [unfold opened; now rewrite set_files_id |].
      split; [exact Hold |]. split; [discriminate |]. split; [discriminate |].
      split; [now left | reflexivity].
  - destruct (has_flag flag os_flag.O_CREATE); cbn; intros [= <- <- <-].
    + right. split; [reflexivity |]. split; [reflexivity |].
      exists (<[name := ""]> (files (os s))), "".
      split; [reflexivity |]. split; [apply lookup_insert_eq |].
      split; [reflexivity |]. split; [reflexivity |]. split; [now right |].
      intros p Hp. now apply lookup_insert_ne.
    + left. eauto.
Qed.

Lemma string_length_0 (c : string) : Z.of_nat (String.length c) <= 0 -> c = "".
Proof. destruct c; simpl; [reflexivity | lia]. Qed.

(** After a successful begin, the variable holds the open crash file,
    which is empty, and the handle that was standard error is
    remembered. *)
Lemma initPanicFile_ok (path : string) (s s1 : Sys) :
  initPanicFile path s = (Returned None, s1) ->
  exists f,
    panicFile s1 = Some f /\ Name f = path /\
    handles (os s1) !! Fd f = Some path /\
    files (os s1) !! path = Some "" /\
    oldStderr s1 = std_error (os s) /\
    std_error (os s1) = Fd f.
Proof.
  intros H. unfold initPanicFile in H.
  apply bind_inv in H as ([fo0 err0] & sa & H0 & H).
  destruct err0 as [e|]; [discriminate |]. cbn [check] in H.
  unfold os_Create in H0.
  apply os_OpenFile_inv in H0 as [(e & He & _) | (_ & _ & fs0 & c0 & -> & _)].
  1: discriminate.
  apply bind_inv in H as ([fo1 err1] & sb & H1 & H).
  apply bind_inv in H as ([] & sc & Hset & H).
  injection Hset as <-.
  destruct err1 as [e|]; [discriminate |]. cbn [check] in H.
  apply os_OpenFile_inv in H1
    as [(e & He & _) | (_ & -> & fs1 & c1 & -> & Hc1 & _ & _ & _ & _)];
    [discriminate |].
  apply bind_inv in H as (pf & sd & Hpf & H).
  injection Hpf as <- <-.
  apply bind_inv in H as ([st err2] & se & HS & H).
  cbn in HS. rewrite lookup_insert_eq in HS. cbn in HS. rewrite Hc1 in HS.
  injection HS as <- <- <-. cbn [check Size] in H.
  destruct (0 <? Z.of_nat (String.length c1)) eqn:Hsz.
  - (* the file had contents: it is moved away and created again *)
    apply bind_inv in H as (ec & sf & HC & H).
    cbn in HC. rewrite lookup_insert_eq in HC. injection HC as <- <-.
    apply bind_inv in H as (er & sg & HR & H).
    apply bind_inv in H as ([fo2 err3] & sh & H2 & H).
    apply bind_inv in H as ([] & si & Hset & H).
    injection Hset as <-.
    destruct err3 as [e|]; [discriminate |]. cbn [check] in H.
    unfold os_Create in H2.
    apply os_OpenFile_inv in H2
      as [(e & He & _) | (_ & -> & fs2 & c2 & -> & Hc2 & Htr & _ & _ & _)];
      [discriminate |].
    specialize (Htr eq_refl). subst c2.
    assert (Hstd : std_error (os sg) = std_error (os s)).
    { unfold os_Rename in HR. cbn in HR. rewrite Hc1 in HR.
      destruct (_ || _) in HR; now injection HR as <- <-. }
    cbn in H. unfold mbind, M_bind in H. cbn in H.
    injection H as <-. cbn.
    eexists. split; [reflexivity |]. cbn.
    split; [reflexivity |]. split; [apply lookup_insert_eq |].
    split; [exact Hc2 |]. split; [exact Hstd | reflexivity].
  - (* the file is empty *)
    assert (c1 = "") as -> by (apply string_length_0; lia).
    cbn in H. unfold mbind, M_bind in H. cbn in H.
    injection H as <-. cbn.
    eexists. split; [reflexivity |]. cbn.
    split; [reflexivity |]. split; [apply lookup_insert_eq |].
    split; [exact Hc1 |]. split; reflexivity.
Qed.

(** Called on [rancherPanicFile], as [started] calls it, a successful
    begin changes no other file: the contents the crash file had are not
    moved to the [.old] file, they are cut off by the [os.Create] of the
    first line. *)
Lemma initPanicFile_never_rotates (s s1 : Sys) :
  initPanicFile rancherPanicFile s = (Returned None, s1) ->
  files (os s1) !! rancherPanicFile = Some "" /\
  forall p, p <> rancherPanicFile -> files (os s1) !! p = files (os s) !! p.
Proof.
  intros H. split.
  { apply initPanicFile_ok in H as (f & _ & _ & _ & Hf & _). exact Hf. }
  unfold initPanicFile in H.
  set (rpf := rancherPanicFile) in *. clearbody rpf.
  apply bind_inv in H as ([fo0 err0] & sa & H0 & H).
  destruct err0 as [e|]; [discriminate |]. cbn [check] in H.
  unfold os_Create in H0.
  apply os_OpenFile_inv in H0
    as [(e & He & _) | (_ & _ & fs0 & c0 & -> & Hc0 & Htr0 & _ & _ & Hfs0)];
    [discriminate |].
  specialize (Htr0 eq_refl). subst c0.
  apply bind_inv in H as ([fo1 err1] & sb & H1 & H).
  apply bind_inv in H as ([] & sc & Hset & H).
  injection Hset as <-.
  destruct err1 as [e|]; [discriminate |]. cbn [check] in H.
  apply os_OpenFile_inv in H1
    as [(e & He & _) | (_ & -> & fs1 & c1 & -> & Hc1 & _ & _ & Hold & Hfs1)];
    [discriminate |].
  specialize (Hold eq_refl). cbn in Hold. rewrite Hc0 in Hold.
  destruct Hold as [[= <-] | [=]].
  apply bind_inv in H as (pf & sd & Hpf & H).
  injection Hpf as <- <-.
  apply bind_inv in H as ([st err2] & se & HS & H).
  cbn in HS. rewrite lookup_insert_eq in HS. cbn in HS. rewrite Hc1 in HS.
  injection HS as <- <- <-. cbn [check Size] in H.
  match type of H with
  | context [0 <? ?n] => change (0 <? n) with false in H
  end.
  cbn in H. unfold mbind, M_bind in H. cbn in H.
  injection H as <-. simpl_sys.
  intros p Hp. rewrite Hfs1 by exact Hp. simpl_sys. now apply Hfs0.
Qed.

(** C6. The end of the crash capture, when [Stat] succeeds. On an
    empty crash file, standard error is the remembered handle again, the
    file is closed and deleted. On a crash file with contents, nothing
    is done: the state is the one it started from, file, contents and
    standard error included. A begin followed by the end leaves no
    crash file at the path and standard error as it was before the
    begin. *)
Theorem removePanicFile_spec :
  (forall (s : Sys) (f : File),
     panicFile s = Some f ->
     handles (os s) !! Fd f = Some (Name f) ->
     files (os s) !! Name f = Some "" ->
     removePanicFile s = (Returned tt, removed f s) /\
     std_error (os (removed f s)) = oldStderr s /\
     handles (os (removed f s)) !! Fd f = None /\
     files (os (removed f s)) !! Name f = None) /\
  (forall (s : Sys) (f : File) (c : string),
     panicFile s = Some f ->
     handles (os s) !! Fd f = Some (Name f) ->
     files (os s) !! Name f = Some c ->
     c <> "" ->
     removePanicFile s = (Returned tt, s)) /\
  (forall (path : string) (s s1 : Sys),
     initPanicFile path s = (Returned None, s1) ->
     exists s2,
       removePanicFile s1 = (Returned tt, s2) /\
       files (os s2) !! path = None /\
       std_error (os s2) = std_error (os s)).
Proof.
  split; [| split].
  - intros s f Hpf Hh Hf.
    split; [now apply removePanicFile_empty |].
    cbn. split; [reflexivity |]. split; apply lookup_delete_eq.
  - apply removePanicFile_nonempty.
  - intros path s s1 H.
    apply initPanicFile_ok in H as (f & Hpf & <- & Hh & Hf & Hold & _).
    exists (removed f s1).
    split; [now apply removePanicFile_empty |].
    cbn. split; [apply lookup_delete_eq | exact Hold].
Qed.

Lemma removePanicFile_spec_witness :
  exists s2,
    removePanicFile (snd (initPanicFile rancherPanicFile boot)) = (Returned tt, s2) /\
    files (os s2) !! rancherPanicFile = None /\
    std_error (os s2) = std_error (os boot).
Proof.
  apply (proj2 (proj2 removePanicFile_spec) rancherPanicFile boot).
  vm_compute. reflexivity.
Defined.

(** C1, at the failing input. The crash file holds the record of the
    prior run; the begin returns without an error, the crash file is
    empty and it is the only file: the record was not moved to the
    [.old] file, it is lost. *)
Theorem initPanicFile_prior_record_lost :
  files (os after_crash) !! rancherPanicFile = Some "panic: runtime error" /\
  fst (initPanicFile rancherPanicFile after_crash) = Returned None /\
  files (os (snd (initPanicFile rancherPanicFile after_crash))) !! rancherPanicFile
    = Some "" /\
  files (os (snd (initPanicFile rancherPanicFile after_crash)))
    !! (rancherPanicFile +:+ ".old") = None.
Proof. vm_compute. repeat split; reflexivity. Qed.

(** On another path the rotation under [if st.Size() > 0] does what its
    comment says: the contents go to the [.old] file and the file is
    made anew. *)
Example initPanicFile_rotates_other_path :
  let s := set_os (set_files {[ "C:/crash.log" := "panic: runtime error" ]} boot_os) boot in
  fst (initPanicFile "C:/crash.log" s) = Returned None /\
  files (os (snd (initPanicFile "C:/crash.log" s))) !! "C:/crash.log" = Some "" /\
  files (os (snd (initPanicFile "C:/crash.log" s))) !! "C:/crash.log.old"
    = Some "panic: runtime error".
Proof. vm_compute. repeat split; reflexivity. Qed.

(** *** The begin of the crash capture, from any state *)

Lemma post_ret {A : Type} (a : A) (s : Sys) (Q : A -> Sys -> Prop) :
  Q a s -> post (mret a) s Q.
Proof. intros H. now exists a, s. Qed.

Lemma post_bind {A B : Type} (m : M A) (f : A -> M B) (s : Sys) (Q : B -> Sys -> Prop) :
  post m s (fun a s1 => post (f a) s1 Q) -> post (m ≫= f) s Q.
Proof.
  intros (a & s1 & Hm & b & s2 & Hf & HQ).
  exists b, s2. split; [| exact HQ].
  now rewrite (bind_Returned _ _ _ _ _ Hm).
Qed.

Lemma post_weaken {A : Type} (m : M A) (s : Sys) (P Q : A -> Sys -> Prop) :
  post m s P -> (forall a s', P a s' -> Q a s') -> post m s Q.
Proof. intros (a & s' & Hm & HP) HPQ. exists a, s'. eauto. Qed.

Lemma post_gets {A : Type} (f : Sys -> A) (s : Sys) (Q : A -> Sys -> Prop) :
  Q (f s) s -> post (gets f) s Q.
Proof. intros H. now exists (f s), s. Qed.

Lemma post_modify (f : Sys -> Sys) (s : Sys) (Q : unit -> Sys -> Prop) :
  Q tt (f s) -> post (modify f) s Q.
Proof. intros H. now exists tt, (f s). Qed.

(** [os.OpenFile] returns: an error and nothing done, or a file on a
    new handle. *)
Lemma post_OpenFile (name : string) (flag perm : Z) (s : Sys) :
  post (os_OpenFile name flag perm) s
    (fun r s' =>
       (exists e, r = (None, Some e) /\ s' = s) \/
       (exists fs c,
          r = (Some (mkFile (next_handle (os s)) name), None) /\
          s' = opened name fs s /\ fs !! name = Some c /\
          (has_flag flag os_flag.O_TRUNC = true -> c = ""))).
Proof.
  assert (Ht : exists r s', os_OpenFile name flag perm s = (Returned r, s')).
  { unfold os_OpenFile. destruct (_ || _); [eauto |].
    destruct (files (os s) !! name).
    - destruct (has_flag flag os_flag.O_TRUNC); cbn; eauto.
    - destruct (has_flag flag os_flag.O_CREATE); cbn; eauto. }
  destruct Ht as ([fo err] & s' & H). exists (fo, err), s'. split; [exact H |].
  apply os_OpenFile_inv in H
    as [(e & -> & -> & ->) | (-> & -> & fs & c & -> & Hc & Htr & _)].
  - left. eauto.
  - right. exists fs, c. auto.
Qed.

Lemma post_Close (f : option File) (s : Sys) :
  post (File_Close f) s
    (fun _ s' =>
       s' = s \/
       exists p, handles (os s) !! File_Fd f = Some p /\
         s' = set_os (set_handles (delete (File_Fd f) (handles (os s))) (os s)) s).
Proof.
  unfold post, File_Close. destruct f as [f|]; [| eexists _, _; split; [reflexivity | now left]].
  cbn [File_Fd]. destruct (handles (os s) !! Fd f) as [p|] eqn:Hh.
  - eexists _, _. split; [reflexivity |]. right. eauto.
  - eexists _, _. split; [reflexivity | now left].
Qed.

Lemma post_Rename (oldpath newpath : string) (s : Sys) :
  post (os_Rename oldpath newpath) s
    (fun _ s' => s' = s \/ exists fs, s' = set_os (set_files fs (os s)) s).
Proof.
  unfold post, os_Rename. destruct (files (os s) !! oldpath).
  - destruct (_ || _); eexists _, _; (split; [reflexivity |]); [now left | right; eauto].
  - eexists _, _. split; [reflexivity | now left].
Qed.

Lemma post_Remove (name : string) (s : Sys) :
  post (os_Remove name) s
    (fun _ s' => s' = s \/
       exists fs ds, s' = set_os (set_dirs ds (set_files fs (os s))) s).
Proof.
  unfold post, os_Remove. destruct (files (os s) !! name).
  - eexists _, _. split; [reflexivity |]. right.
    exists (delete name (files (os s))), (dirs (os s)). now destruct s as [[]].
  - destruct (bool_decide _); eexists _, _; (split; [reflexivity |]).
    + right. exists (files (os s)), (dirs (os s) ∖ {[name]}). now destruct s as [[]].
    + now left.
Qed.

Lemma not_redirected_refl (s : Sys) : not_redirected s s.
Proof. split; [| reflexivity]. destruct s; reflexivity. Qed.

Lemma not_redirected_os (s s1 : Sys) (w : OS) :
  not_redirected s s1 -> std_error w = std_error (os s1) ->
  not_redirected s (set_os w s1).
Proof.
  intros [Hf Hs] Hw. split; [| simpl_sys; congruence].
  unfold capture_frame in *. rewrite Hf. reflexivity.
Qed.

Lemma not_redirected_panicFile (s s1 : Sys) (f : option File) :
  not_redirected s s1 -> not_redirected s (set_panicFile f s1).
Proof.
  intros [Hf Hs]. split; [| exact Hs].
  unfold capture_frame in *. rewrite Hf. reflexivity.
Qed.

Lemma not_redirected_opened (s s1 : Sys) (name : string) (fs : gmap string string) :
  not_redirected s s1 -> not_redirected s (opened name fs s1).
Proof. intros H. now apply not_redirected_os. Qed.

Lemma post_Stat (f : option File) (s : Sys) :
  post (File_Stat f) s (fun _ s' => s' = s).
Proof. destruct (File_Stat_pure f s) as [r H]. now exists r, s. Qed.

Lemma capture_result_error (s s1 : Sys) (e : string) :
  not_redirected s s1 -> capture_result s (Some e) s1.
Proof. intros [Hf Hs]. split; [exact Hf |]. right. eauto. Qed.

Lemma capture_frame_os (s s1 : Sys) (w : OS) :
  capture_frame s s1 -> capture_frame s (set_os w s1).
Proof. unfold capture_frame. intros ->. reflexivity. Qed.

Lemma capture_frame_oldStderr (s s1 : Sys) (o : Handle) :
  capture_frame s s1 -> capture_frame s (set_oldStderr o s1).
Proof. unfold capture_frame. intros ->. reflexivity. Qed.

(** The last part of [initPanicFile]: standard error is remembered and
    set to the crash file. *)
Lemma post_redirect (s s1 : Sys) :
  not_redirected s s1 -> is_Some (panicFile s1) ->
  post ('(h, err) ← syscall_GetStdHandle STD_ERROR_HANDLE;
        check err (
          modify (set_oldStderr h);;
          pf ← gets panicFile;
          '(r, err) ← setStdHandle_Call STD_ERROR_HANDLE (File_Fd pf);
          if (r =? 0) && bool_decide (is_Some err) then mret err else mret None))
       s1 (capture_result s).
Proof.
  intros [Hf Hs] Hpf.
  eexists None, _. split; [reflexivity |].
  split; [| left; simpl_sys; auto].
  now apply capture_frame_os, capture_frame_oldStderr.
Qed.

(** The begin of the crash capture, from any state. *)
Lemma initPanicFile_post (path : string) (s : Sys) :
  post (initPanicFile path) s (capture_result s).
Proof.
  pose proof (not_redirected_refl s) as H0.
  unfold initPanicFile, os_Create.
  apply post_bind. eapply post_weaken; [apply post_OpenFile |].
  intros r0 s1 [(e & -> & ->) | (fs0 & c0 & -> & -> & _)]; cbn [check].
  { apply post_ret. now apply capture_result_error. }
  apply (not_redirected_opened _ _ rancherPanicFile fs0) in H0.
  apply post_bind. eapply post_weaken; [apply post_OpenFile |].
  intros r1 s2 [(e & -> & ->) | (fs1 & c1 & -> & -> & _)].
  { apply post_bind, post_modify. cbn [check]. apply post_ret.
    now apply capture_result_error, not_redirected_panicFile. }
  apply (not_redirected_opened _ _ path fs1) in H0.
  apply post_bind, post_modify. cbn [check].
  apply (not_redirected_panicFile _ _
           (Some (mkFile (next_handle (os (opened rancherPanicFile fs0 s))) path))) in H0.
  apply post_bind, post_gets. simpl_sys.
  apply post_bind. eapply post_weaken; [apply post_Stat |].
  intros [st err2] s3 ->. destruct err2 as [e|]; cbn [check].
  { apply post_ret. now apply capture_result_error. }
  destruct (0 <? Size st).
  - apply post_bind. eapply post_weaken; [apply post_Close |].
    intros ec s4 Hc.
    assert (H4 : not_redirected s s4).
    { destruct Hc as [-> | (p & _ & ->)]; [exact H0 |]. now apply not_redirected_os. }
    apply post_bind. eapply post_weaken; [apply post_Rename |].
    intros er s5 Hr.
    assert (H5 : not_redirected s s5).
    { destruct Hr as [-> | (fs & ->)]; [exact H4 |]. now apply not_redirected_os. }
    apply post_bind. eapply post_weaken; [apply post_OpenFile |].
    intros r2 s6 [(e & -> & ->) | (fs2 & c2 & -> & -> & _)].
    { apply post_bind, post_modify. cbn [check]. apply post_ret.
      now apply capture_result_error, not_redirected_panicFile. }
    apply post_bind, post_modify. cbn [check].
    apply post_redirect; [| eauto].
    now apply not_redirected_panicFile, not_redirected_opened.
  - apply post_redirect; [exact H0 | eauto].
Qed.

Lemma capture_frame_fields (s s' : Sys) :
  capture_frame s s' ->
  trace s' = trace s /\ inbox s' = inbox s /\ service s' = service s /\
  hooks s' = hooks s.
Proof. intros ->. repeat split. Qed.

(** ** Service control state machine *)

Lemma logged_fields (s s' : Sys) :
  logged s s' ->
  trace s' = trace s /\ inbox s' = inbox s /\ panicFile s' = panicFile s /\
  oldStderr s' = oldStderr s /\ service s' = service s /\
  files (os s') = files (os s) /\ handles (os s') = handles (os s) /\
  std_error (os s') = std_error (os s).
Proof. intros ->. repeat split. Qed.

Lemma removePanicFile_snd (s s' : Sys) :
  removePanicFile s = (Returned tt, s') -> snd (removePanicFile s) = s'.
Proof. now intros ->. Qed.

Lemma advanced_advanced (evs1 evs2 : list Event) (rest1 rest2 : list (Chan * Msg))
    (s : Sys) :
  advanced evs2 rest2 (advanced evs1 rest1 s) = advanced (evs1 ++ evs2) rest2 s.
Proof. unfold advanced. simpl_sys. now rewrite app_assoc. Qed.

Lemma advanced_start (evs : list Event) (s : Sys) :
  set_trace (trace s ++ evs) s = advanced evs (inbox s) s.
Proof. destruct s; reflexivity. Qed.

Lemma send_advanced (c : Chan) (m : Msg) (evs : list Event)
    (rest : list (Chan * Msg)) (s : Sys) :
  send c m (advanced evs rest s) = (Returned tt, advanced (evs ++ [Sent c m]) rest s).
Proof. unfold send, modify, advanced. simpl_sys. now rewrite app_assoc. Qed.

Lemma recv_bool (c : Chan) (b : bool) (rest : list (Chan * Msg)) (s : Sys) :
  inbox s = (c, MBool b) :: rest ->
  recv c as_bool s = (Returned b, advanced [Received c (MBool b)] rest s).
Proof.
  intros Hin. unfold recv. rewrite Hin. cbn [as_bool].
  now rewrite Z.eqb_refl.
Qed.

Lemma recv_error (c : Chan) (e : error) (rest : list (Chan * Msg)) (s : Sys) :
  inbox s = (c, MErr e) :: rest ->
  recv c as_error s = (Returned e, advanced [Received c (MErr e)] rest s).
Proof.
  intros Hin. unfold recv. rewrite Hin. cbn [as_error].
  now rewrite Z.eqb_refl.
Qed.

(** A receive either waits or takes the first message of the script. *)
Lemma recv_cases {A : Type} (c : Chan) (dec : Msg -> option A) (s : Sys) :
  recv c dec s = (Blocked, s) \/
  exists m rest a,
    inbox s = (c, m) :: rest /\ dec m = Some a /\
    recv c dec s = (Returned a, advanced [Received c m] rest s).
Proof.
  unfold recv. destruct (inbox s) as [|[c' m] rest]; [now left |].
  destruct (dec m) as [a|] eqn:Hdec; [| now left].
  destruct (Z.eqb_spec c' c) as [-> | _]; [| now left].
  right. now exists m, rest, a.
Qed.

Lemma select2_tosvc (h : handler) (r : Chan) (b : bool)
    (rest : list (Chan * Msg)) (s : Sys) :
  inbox s = (tosvc h, MBool b) :: rest ->
  select2 (tosvc h) as_bool r as_change s =
  (Returned (inl b), advanced [Received (tosvc h) (MBool b)] rest s).
Proof.
  intros Hin. unfold select2. rewrite Hin. now rewrite Z.eqb_refl.
Qed.

Lemma select2_change (h : handler) (r : Chan) (c : svc.ChangeRequest)
    (rest : list (Chan * Msg)) (s : Sys) :
  inbox s = (r, MChange c) :: rest ->
  select2 (tosvc h) as_bool r as_change s =
  (Returned (inr c), advanced [Received r (MChange c)] rest s).
Proof.
  intros Hin. unfold select2. rewrite Hin. rewrite Z.eqb_refl.
  destruct (r =? tosvc h); reflexivity.
Qed.

(** A turn of the loop on a stop or a shutdown. *)
Lemma Execute_Loop_stop (h : handler) (r st : Chan) (c : svc.ChangeRequest)
    (rest : list (Chan * Msg)) (s : Sys) (n : nat) :
  inbox s = (r, MChange c) :: rest ->
  svc.Cmd_ c = svc.Stop \/ svc.Cmd_ c = svc.Shutdown ->
  Execute_Loop h r st (S n) s =
  (Returned true,
   advanced [Received r (MChange c); Sent st (MStatus StopPending_status);
             Sent serviceSignal (MBool true)] rest s).
Proof.
  intros Hin Hcmd. cbn [Execute_Loop].
  rewrite (bind_Returned _ _ _ _ _ (select2_change h r c rest s Hin)).
  replace (svc.Cmd_ c =? windows.SERVICE_CONTROL_PARAMCHANGE) with false
    by (destruct Hcmd as [-> | ->]; reflexivity).
  replace (svc.Cmd_ c =? svc.Interrogate) with false
    by (destruct Hcmd as [-> | ->]; reflexivity).
  replace ((svc.Cmd_ c =? svc.Stop) || (svc.Cmd_ c =? svc.Shutdown)) with true
    by (destruct Hcmd as [-> | ->]; reflexivity).
  rewrite (bind_Returned _ _ _ _ _ (send_advanced _ _ _ _ _)).
  rewrite (bind_Returned _ _ _ _ _ (send_advanced _ _ _ _ _)).
  reflexivity.
Qed.

(** A turn of the loop on the stop signal of the application. *)
Lemma Execute_Loop_tosvc (h : handler) (r st : Chan) (b : bool)
    (rest : list (Chan * Msg)) (s : Sys) (n : nat) :
  inbox s = (tosvc h, MBool b) :: rest ->
  Execute_Loop h r st (S n) s =
  (Returned b, advanced [Received (tosvc h) (MBool b)] rest s).
Proof.
  intros Hin. cbn [Execute_Loop].
  now rewrite (bind_Returned _ _ _ _ _ (select2_tosvc h r b rest s Hin)).
Qed.

(** A turn of the loop on any other request: the loop goes on. *)
Lemma Execute_Loop_stays (h : handler) (r st : Chan) (c : svc.ChangeRequest)
    (rest : list (Chan * Msg)) (s : Sys) (n : nat) :
  inbox s = (r, MChange c) :: rest ->
  svc.Cmd_ c <> svc.Stop -> svc.Cmd_ c <> svc.Shutdown ->
  Execute_Loop h r st (S n) s =
  Execute_Loop h r st n (advanced (Received r (MChange c) :: answer st c) rest s).
Proof.
  intros Hin Hstop Hshut. cbn [Execute_Loop].
  rewrite (bind_Returned _ _ _ _ _ (select2_change h r c rest s Hin)).
  unfold answer.
  destruct (svc.Cmd_ c =? windows.SERVICE_CONTROL_PARAMCHANGE); [reflexivity |].
  destruct (svc.Cmd_ c =? svc.Interrogate).
  { now rewrite (bind_Returned _ _ _ _ _ (send_advanced _ _ _ _ _)). }
  destruct (Z.eqb_spec (svc.Cmd_ c) svc.Stop) as [|_]; [contradiction |].
  destruct (Z.eqb_spec (svc.Cmd_ c) svc.Shutdown) as [|_]; [contradiction |].
  reflexivity.
Qed.

(** The machine in [Running] stays there over a request that is neither
    a stop nor a shutdown. *)
Lemma Execute_Running_stays (h : handler) (r st : Chan) (c : svc.ChangeRequest)
    (rest : list (Chan * Msg)) (s : Sys) :
  inbox s = (r, MChange c) :: rest ->
  svc.Cmd_ c <> svc.Stop -> svc.Cmd_ c <> svc.Shutdown ->
  Execute_Running h r st s =
  Execute_Running h r st (advanced (Received r (MChange c) :: answer st c) rest s).
Proof.
  intros Hin Hstop Hshut. unfold Execute_Running.
  rewrite (bind_Returned _ _ s s (S (length rest))) by (unfold gets; now rewrite Hin).
  rewrite (bind_Returned _ _ (advanced _ rest s) (advanced _ rest s) (length rest))
    by reflexivity.
  unfold mbind at 1 3, M_bind.
  now rewrite (Execute_Loop_stays h r st c rest s _ Hin Hstop Hshut).
Qed.

(** The application stops the service itself, with [failed]. *)
Lemma Execute_Running_application_stop (h : handler) (r st : Chan) (failed : bool)
    (rest : list (Chan * Msg)) (s : Sys) :
  inbox s = (tosvc h, MBool failed) :: rest ->
  Execute_Running h r st s =
  (Returned (if failed then (true, 1) else (false, 0)),
   snd (removePanicFile (advanced [Received (tosvc h) (MBool failed)] rest s))).
Proof.
  intros Hin. unfold Execute_Running.
  rewrite (bind_Returned _ _ s s (length (inbox s))) by reflexivity.
  rewrite (bind_Returned _ _ _ _ _ (Execute_Loop_tosvc h r st failed rest s _ Hin)).
  destruct (removePanicFile_returns (advanced [Received (tosvc h) (MBool failed)] rest s))
    as [s' Hrem].
  rewrite (bind_Returned _ _ _ _ _ Hrem). rewrite Hrem.
  destruct failed; reflexivity.
Qed.

(** The machine in [Running] on a stop or a shutdown. *)
Lemma Execute_Running_stop (h : handler) (r st : Chan) (c : svc.ChangeRequest)
    (rest : list (Chan * Msg)) (s : Sys) :
  inbox s = (r, MChange c) :: rest ->
  svc.Cmd_ c = svc.Stop \/ svc.Cmd_ c = svc.Shutdown ->
  Execute_Running h r st s =
  (Returned (true, 1),
   snd (removePanicFile
          (advanced [Received r (MChange c); Sent st (MStatus StopPending_status);
                     Sent serviceSignal (MBool true)] rest s))).
Proof.
  intros Hin Hcmd. unfold Execute_Running.
  rewrite (bind_Returned _ _ s s (length (inbox s))) by reflexivity.
  rewrite (bind_Returned _ _ _ _ _ (Execute_Loop_stop h r st c rest s _ Hin Hcmd)).
  destruct (removePanicFile_returns
              (advanced [Received r (MChange c); Sent st (MStatus StopPending_status);
                         Sent serviceSignal (MBool true)] rest s)) as [s' Hrem].
  rewrite (bind_Returned _ _ _ _ _ Hrem). rewrite Hrem. reflexivity.
Qed.

(** A [select] either waits or takes the first message of the script. *)
Lemma select2_cases {A B : Type} (c1 : Chan) (dec1 : Msg -> option A)
    (c2 : Chan) (dec2 : Msg -> option B) (s : Sys) :
  select2 c1 dec1 c2 dec2 s = (Blocked, s) \/
  exists c' m rest v,
    inbox s = (c', m) :: rest /\
    select2 c1 dec1 c2 dec2 s = (Returned v, advanced [Received c' m] rest s).
Proof.
  unfold select2. destruct (inbox s) as [|[c' m] rest]; [now left |].
  destruct (if c' =? c1 then dec1 m else None) as [a|].
  { right. now exists c', m, rest, (inl a). }
  destruct (if c' =? c2 then dec2 m else None) as [b|]; [| now left].
  right. now exists c', m, rest, (inr b).
Qed.

(** The turns of the loop never outrun the script: any two numbers of
    turns above the length of the script give the same run. *)
Lemma Execute_Loop_fuel (h : handler) (r st : Chan) (n m : nat) (s : Sys) :
  (length (inbox s) < n)%nat -> (length (inbox s) < m)%nat ->
  Execute_Loop h r st n s = Execute_Loop h r st m s.
Proof.
  revert m s. induction n as [|n IH]; intros m s Hn Hm; [lia |].
  destruct m as [|m]; [lia |].
  cbn [Execute_Loop].
  destruct (select2_cases (tosvc h) as_bool r as_change s)
    as [Hb | (c' & msg & rest & v & Hin & Hsel)].
  { now rewrite !(bind_Blocked _ _ _ _ Hb). }
  rewrite !(bind_Returned _ _ _ _ _ Hsel).
  rewrite Hin in Hn, Hm. cbn [length] in Hn, Hm.
  destruct v as [failed|c]; [reflexivity |].
  destruct (svc.Cmd_ c =? windows.SERVICE_CONTROL_PARAMCHANGE).
  { apply IH; unfold advanced; simpl_sys; lia. }
  destruct (svc.Cmd_ c =? svc.Interrogate).
  { rewrite !(bind_Returned _ _ _ _ _ (send_advanced _ _ _ _ _)).
    apply IH; unfold advanced; simpl_sys; lia. }
  destruct ((svc.Cmd_ c =? svc.Stop) || (svc.Cmd_ c =? svc.Shutdown)); [reflexivity |].
  apply IH; unfold advanced; simpl_sys; lia.
Qed.

(** The stop listener that [Init] starts ends the process when the
    machine signals it. *)
Lemma signal_listener_exits (rest : list (Chan * Msg)) (s : Sys) :
  inbox s = (serviceSignal, MBool true) :: rest ->
  exists s', signal_listener s = (Exited 0, s').
Proof.
  intros Hin. unfold signal_listener.
  rewrite (bind_Returned _ _ _ _ _ (recv_bool serviceSignal true rest s Hin)).
  unfold logrus_Info.
  destruct (log_at_logged logrus.InfoLevel
              "Receiving service stop signal. Stopping per-host-subnet"
              (advanced [Received serviceSignal (MBool true)] rest s)) as (s' & Hlog & _).
  rewrite (bind_Returned _ _ _ _ _ Hlog). eauto.
Qed.

(** C3. A stop or a shutdown request received by the machine in
    [Running]: the machine reports [StopPending], accepting nothing,
    signals the stop listener of the application, ends the crash capture
    and returns the pair of failure and exit code 1, in this order. *)
Theorem Execute_stop_request (h : handler) (r st : Chan) (c : svc.ChangeRequest)
    (rest : list (Chan * Msg)) (s : Sys) :
  inbox s = (r, MChange c) :: rest ->
  svc.Cmd_ c = svc.Stop \/ svc.Cmd_ c = svc.Shutdown ->
  exists (evs : list Event) (s' : Sys),
    Execute_Running h r st s = (Returned (true, 1), s') /\
    evs = [Received r (MChange c);
           Sent st (MStatus (svc.mkStatus svc.StopPending 0));
           Sent serviceSignal (MBool true)] /\
    s' = snd (removePanicFile (advanced evs rest s)) /\
    trace s' = trace s ++ evs /\
    inbox s' = rest.
Proof.
  intros Hin Hcmd. eexists _, _.
  split; [exact (Execute_Running_stop h r st c rest s Hin Hcmd) |].
  split; [reflexivity |]. split; [reflexivity |].
  destruct (removePanicFile_returns
              (advanced [Received r (MChange c); Sent st (MStatus StopPending_status);
                         Sent serviceSignal (MBool true)] rest s)) as [s' Hrem].
  rewrite Hrem. apply removePanicFile_frame in Hrem as [w ->].
  split; reflexivity.
Qed.

Lemma Execute_stop_request_witness :
  exists (evs : list Event) (s' : Sys),
    Execute_Running h0 r0 s0 (set_inbox [(r0, MChange stop_request)] started_state)
      = (Returned (true, 1), s') /\
    evs = [Received r0 (MChange stop_request);
           Sent s0 (MStatus (svc.mkStatus svc.StopPending 0));
           Sent serviceSignal (MBool true)] /\
    s' = snd (removePanicFile
                (advanced evs [] (set_inbox [(r0, MChange stop_request)] started_state))) /\
    trace s' = trace (set_inbox [(r0, MChange stop_request)] started_state) ++ evs /\
    inbox s' = [].
Proof.
  apply (Execute_stop_request h0 r0 s0 stop_request []
           (set_inbox [(r0, MChange stop_request)] started_state)).
  - reflexivity.
  - left. reflexivity.
Defined.

(** [Execute] up to the answer of the application to the handshake. *)
Lemma Execute_handshake (h : handler) (r st : Chan) (failed : bool)
    (rest : list (Chan * Msg)) (s : Sys) :
  inbox s = (tosvc h, MBool failed) :: rest ->
  Execute h r st s =
  (if failed
   then
     logrus_Debug "Aborting service start due to failure during initialization";;
     mret (true, 1)
   else
     send st (MStatus Running_status);;
     logrus_Debug "Service running";;
     Execute_Running h r st)
    (advanced [Sent st (MStatus StartPending_status); Sent (fromsvc h) (MErr None);
               Received (tosvc h) (MBool failed)] rest s).
Proof.
  intros Hin. unfold Execute.
  rewrite (bind_Returned _ _ s
             (advanced [Sent st (MStatus StartPending_status)] (inbox s) s) tt)
    by (unfold send, modify; now rewrite advanced_start).
  rewrite (bind_Returned _ _ _ _ _ (send_advanced _ _ _ _ _)).
  rewrite (bind_Returned _ _ _ _ _
             (recv_bool (tosvc h) failed rest (advanced _ (inbox s) s) Hin)).
  rewrite advanced_advanced. destruct failed; reflexivity.
Qed.

(** C7. The application reports the failure of its initialisation
    while the machine is in [StartPending]: [Execute] returns the pair
    of failure and exit code 1. It has reported [StartPending], released
    [initService] and taken the report, nothing else: no [Running]
    status was sent, and nothing but the logs of the process changed. *)
Theorem Execute_initialization_failure (h : handler) (r st : Chan)
    (rest : list (Chan * Msg)) (s : Sys) :
  inbox s = (tosvc h, MBool true) :: rest ->
  exists (evs : list Event) (s' : Sys),
    Execute h r st s = (Returned (true, 1), s') /\
    evs = [Sent st (MStatus (svc.mkStatus svc.StartPending 0));
           Sent (fromsvc h) (MErr None);
           Received (tosvc h) (MBool true)] /\
    trace s' = trace s ++ evs /\
    (forall ev, ev ∈ evs -> ~ reports_Running ev) /\
    logged (advanced evs rest s) s'.
Proof.
  intros Hin. rewrite (Execute_handshake h r st true rest s Hin).
  destruct (log_at_logged logrus.DebugLevel
              "Aborting service start due to failure during initialization"
              (advanced [Sent st (MStatus StartPending_status);
                         Sent (fromsvc h) (MErr None);
                         Received (tosvc h) (MBool true)] rest s))
    as (s' & Hlog & Hl).
  eexists _, s'. split.
  { unfold logrus_Debug. now rewrite (bind_Returned _ _ _ _ _ Hlog). }
  split; [reflexivity |].
  split; [apply logged_fields in Hl as (-> & _); reflexivity |].
  split; [| exact Hl].
  intros ev Hev (c & acc & ->).
  repeat (apply elem_of_cons in Hev as [Hev | Hev]; [discriminate Hev |]).
  now apply elem_of_nil in Hev.
Qed.

Lemma Execute_initialization_failure_witness :
  exists (evs : list Event) (s' : Sys),
    Execute h0 r0 s0 (set_inbox [(tosvc h0, MBool true)] boot) = (Returned (true, 1), s') /\
    evs = [Sent s0 (MStatus (svc.mkStatus svc.StartPending 0));
           Sent (fromsvc h0) (MErr None);
           Received (tosvc h0) (MBool true)] /\
    trace s' = trace (set_inbox [(tosvc h0, MBool true)] boot) ++ evs /\
    (forall ev, ev ∈ evs -> ~ reports_Running ev) /\
    logged (advanced evs [] (set_inbox [(tosvc h0, MBool true)] boot)) s'.
Proof.
  apply (Execute_initialization_failure h0 r0 s0 []
           (set_inbox [(tosvc h0, MBool true)] boot)).
  reflexivity.
Defined.

(** C2, amended. In the clean-stop scenario (the application signals
    success, the system sends a stop, the crash file is empty)
    [Execute] reports [StartPending], [Running] accepting stop, shutdown
    and parameter change, then [StopPending]; the empty crash file is
    removed and standard error restored; the pair returned is failure
    and exit code 1. *)
Theorem Execute_clean_stop (h : handler) (r st : Chan) (c : svc.ChangeRequest)
    (f : File) (s : Sys) :
  inbox s = [(tosvc h, MBool false); (r, MChange c)] ->
  svc.Cmd_ c = svc.Stop ->
  panicFile s = Some f ->
  handles (os s) !! Fd f = Some (Name f) ->
  files (os s) !! Name f = Some "" ->
  exists s',
    Execute h r st s = (Returned (true, 1), s') /\
    trace s' = trace s ++ clean_stop_events h r st c /\
    files (os s') !! Name f = None /\
    handles (os s') !! Fd f = None /\
    std_error (os s') = oldStderr s.
Proof.
  intros Hin Hcmd Hpf Hh Hf.
  rewrite (Execute_handshake h r st false _ s Hin).
  rewrite (bind_Returned _ _ _ _ _ (send_advanced _ _ _ _ _)).
  match goal with
  | |- context [(logrus_Debug ?msg ≫= _) ?s1] =>
      destruct (log_at_logged logrus.DebugLevel msg s1) as (s2 & Hlog & Hl)
  end.
  unfold logrus_Debug. rewrite (bind_Returned _ _ _ _ _ Hlog).
  apply logged_fields in Hl as (Htr & Hin2 & Hpf2 & Hold2 & _ & Hf2 & Hh2 & _).
  unfold advanced in Htr, Hin2, Hpf2, Hold2, Hf2, Hh2. simpl_sys_all.
  rewrite (Execute_Running_stop h r st c [] s2 Hin2 (or_introl Hcmd)).
  erewrite removePanicFile_snd.
  2: { apply (removePanicFile_empty _ f); unfold advanced; simpl_sys.
       - now rewrite Hpf2.
       - now rewrite Hh2.
       - now rewrite Hf2. }
  eexists. split; [reflexivity |]. unfold advanced. simpl_sys.
  split; [rewrite Htr, <- app_assoc; reflexivity |].
  split; [apply lookup_delete_eq |].
  split; [apply lookup_delete_eq | exact Hold2].
Qed.

Lemma Execute_clean_stop_witness :
  exists s',
    Execute h0 r0 s0 clean_stop = (Returned (true, 1), s') /\
    trace s' = trace clean_stop ++ clean_stop_events h0 r0 s0 stop_request /\
    files (os s') !! rancherPanicFile = None /\
    handles (os s') !! 101 = None /\
    std_error (os s') = oldStderr clean_stop.
Proof.
  apply (Execute_clean_stop h0 r0 s0 stop_request (mkFile 101 rancherPanicFile) clean_stop);
    vm_compute; reflexivity.
Defined.

(** C2 as stated fails: in the scenario the crash file is removed and
    what [Execute] returns is not [(false, 0)]. *)
Lemma Execute_clean_stop_counterexample :
  inbox clean_stop = [(tosvc h0, MBool false); (r0, MChange stop_request)] /\
  files (os clean_stop) !! rancherPanicFile = Some "" /\
  trace (snd (Execute h0 r0 s0 clean_stop)) =
    trace clean_stop ++ clean_stop_events h0 r0 s0 stop_request /\
  files (os (snd (Execute h0 r0 s0 clean_stop))) !! rancherPanicFile = None /\
  fst (Execute h0 r0 s0 clean_stop) <> Returned (false, 0).
Proof. vm_compute. repeat split; try reflexivity. discriminate. Qed.

(** The machine in [Running] with nothing to receive waits; the crash
    capture is not ended. *)
Lemma Execute_Running_blocked (h : handler) (r st : Chan) (s : Sys) :
  inbox s = [] -> Execute_Running h r st s = (Blocked, s).
Proof.
  intros Hin. unfold Execute_Running.
  rewrite (bind_Returned _ _ s s (length (inbox s))) by reflexivity.
  apply bind_Blocked. cbn [Execute_Loop]. apply bind_Blocked.
  unfold select2. now rewrite Hin.
Qed.

(** ** The collaborator interface *)

(** A stop without an error: the application hands [false] to the
    dispatcher and waits for its answer. *)
Lemma NotifyShutdown_nil (h : handler) (e : error) (rest : list (Chan * Msg)) (s : Sys) :
  service s = Some h ->
  inbox s = (fromsvc h, MErr e) :: rest ->
  exists s',
    NotifyShutdown None s = (Returned tt, s') /\
    trace s' = trace s ++ [Sent (tosvc h) (MBool false); Received (fromsvc h) (MErr e)].
Proof.
  intros Hsv Hin. unfold NotifyShutdown.
  rewrite (bind_Returned _ _ s s (Some h)) by (unfold gets; now rewrite Hsv).
  rewrite (bind_Returned _ _ s s tt) by reflexivity.
  unfold stopped, logrus_Debug.
  destruct (log_at_logged logrus.DebugLevel ("Stopping service: " +:+ show_error None) s)
    as (s1 & Hlog & Hl).
  rewrite (bind_Returned _ _ _ _ _ Hlog).
  apply logged_fields in Hl as (Htr & Hin1 & _).
  rewrite (bind_Returned _ _ s1
             (advanced [Sent (tosvc h) (MBool false)] (inbox s1) s1) tt)
    by (unfold send, modify; now rewrite advanced_start).
  rewrite Hin1, Hin.
  rewrite (bind_Returned _ _ _ _ _
             (recv_error (fromsvc h) e rest (advanced _ _ s1) eq_refl)).
  rewrite advanced_advanced.
  eexists. split; [reflexivity |].
  unfold advanced. simpl_sys. now rewrite Htr.
Qed.

(** C4, on the code. A stop with an error: [logrus.Fatal] ends the
    process with exit code 1 before [stopped] is called. Nothing but the
    logs changed: no message went to the dispatcher, the crash file and
    the redirection of standard error are as they were. *)
Theorem NotifyShutdown_error_exits (h : handler) (e : string) (s : Sys) :
  service s = Some h ->
  exists s',
    NotifyShutdown (Some e) s = (Exited 1, s') /\
    logged s s' /\
    trace s' = trace s /\
    files (os s') = files (os s) /\
    std_error (os s') = std_error (os s).
Proof.
  intros Hsv. unfold NotifyShutdown.
  rewrite (bind_Returned _ _ s s (Some h)) by (unfold gets; now rewrite Hsv).
  destruct (logrus_Fatal_exits e s) as (s' & HF & Hl).
  exists s'. split.
  { apply bind_Exited. exact HF. }
  split; [exact Hl |].
  apply logged_fields in Hl as (Htr & _ & _ & _ & _ & Hf & _ & Hstd).
  now rewrite Htr, Hf, Hstd.
Qed.

Lemma NotifyShutdown_error_exits_witness :
  exists s',
    NotifyShutdown (Some "route table unavailable") serving = (Exited 1, s') /\
    logged serving s' /\
    trace s' = trace serving /\
    files (os s') = files (os serving) /\
    std_error (os s') = std_error (os serving).
Proof.
  apply (NotifyShutdown_error_exits h0 "route table unavailable" serving).
  reflexivity.
Defined.

(** ** Initialisation *)

Lemma keeps_refl (s : Sys) : keeps s s.
Proof. repeat split. Qed.

Lemma keeps_trans (s1 s2 s3 : Sys) : keeps s1 s2 -> keeps s2 s3 -> keeps s1 s3.
Proof.
  intros (H1 & H2 & H3) (K1 & K2 & K3).
  repeat split; congruence.
Qed.

Lemma os_Stat_pure (name : string) (s s' : Sys) (e : error) :
  os_Stat name s = (Returned e, s') -> s' = s.
Proof.
  unfold os_Stat. destruct (files (os s) !! name); [now intros [= _ <-] |].
  destruct (bool_decide _); now intros [= _ <-].
Qed.

Lemma os_MkdirAll_keeps (path : string) (perm : Z) (s s' : Sys) (e : error) :
  os_MkdirAll path perm s = (Returned e, s') -> keeps s s'.
Proof.
  unfold os_MkdirAll. destruct (bool_decide _); [intros [= _ <-]; apply keeps_refl |].
  destruct (_ || _); intros [= _ <-]; repeat split.
Qed.

Lemma os_OpenFile_keeps (name : string) (flag perm : Z) (s s' : Sys)
    (fo : option File) (e : error) :
  os_OpenFile name flag perm s = (Returned (fo, e), s') -> keeps s s'.
Proof.
  intros H. apply os_OpenFile_inv in H
    as [(? & _ & _ & ->) | (_ & _ & fs & c & -> & _)]; repeat split.
Qed.

Lemma recv_keeps {A : Type} (c : Chan) (dec : Msg -> option A) (s s' : Sys) (a : A) :
  recv c dec s = (Returned a, s') -> keeps s s'.
Proof.
  unfold recv. destruct (inbox s) as [|[c' m] rest]; [discriminate |].
  destruct (dec m); [| discriminate].
  destruct (c' =? c); [| discriminate].
  intros [= _ <-]. repeat split.
Qed.

(** A call that ends in [os.Exit] does not return. *)
Lemma exit_no_return {A B : Type} (m : M A) (code : Z) (s s' : Sys) (b : B) :
  (m;; os_Exit code) s <> (Returned b, s').
Proof.
  intros H. apply bind_inv in H as (a & s1 & _ & H). discriminate.
Qed.

(** What an interactive session leaves behind when [initService]
    returns: the handler is installed as the service of the process and
    the hook is registered without an event log. *)
Lemma initService_interactive (register unregister : bool) (s s' : Sys) :
  session (os s) = Some true ->
  initService register unregister s = (Returned None, s') ->
  (exists h, service s' = Some h) /\ hooks s' = hooks s ++ [mkEtwHook None].
Proof.
  intros Hses H. unfold initService in H.
  apply bind_inv in H as (e1 & s1 & H1 & H).
  apply os_Stat_pure in H1 as ->.
  apply bind_inv in H as (e2 & s2 & H2 & H).
  assert (K2 : keeps s s2).
  { destruct e1; [now apply os_MkdirAll_keeps in H2 |].
    injection H2 as _ <-. apply keeps_refl. }
  destruct e2 as [e|]; [discriminate |]. cbn [check] in H.
  apply bind_inv in H as ([] & s3 & H3 & H).
  destruct register.
  { apply bind_inv in H3 as (er & sx & _ & H3). now apply exit_no_return in H3. }
  injection H3 as <-.
  apply bind_inv in H as ([] & s4 & H4 & H).
  destruct unregister.
  { apply bind_inv in H4 as (er & sx & _ & H4). now apply exit_no_return in H4. }
  injection H4 as <-.
  apply bind_inv in H as ([interactive e5] & s5 & H5 & H).
  unfold svc_IsAnInteractiveSession in H5.
  destruct K2 as (Kses & Khooks & _).
  rewrite Kses, Hses in H5. injection H5 as <- <- <-. cbn [check] in H.
  apply bind_inv in H as (c1 & s6 & H6 & H). injection H6 as <- <-.
  apply bind_inv in H as (c2 & s7 & H7 & H). injection H7 as <- <-.
  apply bind_inv in H as ([lg e8] & s8 & H8 & H).
  cbn [negb] in H8. injection H8 as <- <- <-. cbn [check] in H.
  apply bind_inv in H as ([] & s9 & H9 & H). injection H9 as <-.
  apply bind_inv in H as (e10 & s10 & H10 & H).
  apply os_Stat_pure in H10 as ->.
  apply bind_inv in H as (e11 & s11 & H11 & H).
  assert (K11 : hooks s11 = hooks s2 ++ [mkEtwHook None]).
  { destruct e10 as [e|].
    - apply bind_inv in H11 as ([fo e'] & sx & Hc & Hr).
      injection Hr as _ <-. unfold os_Create in Hc.
      apply os_OpenFile_keeps in Hc as (_ & Hc & _). exact Hc.
    - injection H11 as _ <-. reflexivity. }
  destruct e11 as [e|]; [discriminate |]. cbn [check] in H.
  apply bind_inv in H as ([file e12] & s12 & H12 & H).
  apply os_OpenFile_keeps in H12 as K12.
  destruct e12 as [e|]; [discriminate |]. cbn [check] in H.
  apply bind_inv in H as ([] & s13 & H13 & H). injection H13 as <-.
  apply bind_inv in H as ([] & s14 & H14 & H). injection H14 as <-.
  apply bind_inv in H as ([] & s15 & H15 & H). injection H15 as <-.
  apply bind_inv in H as (e16 & s16 & H16 & H).
  apply recv_keeps in H16 as (_ & Kh16 & Ks16).
  destruct e16 as [e|]; [discriminate |]. cbn [check] in H.
  injection H as <-.
  split.
  - eexists. rewrite Ks16. reflexivity.
  - rewrite Kh16. simpl_sys.
    destruct K12 as (_ & -> & _). rewrite K11. now rewrite Khooks.
Qed.

(** A hook without an event log writes the record to standard error and
    reports no event. *)
Lemma Fire_console (h : etwHook) (e : logrus.Entry) (st : Sys) (etype eid : Z) :
  log h = None ->
  level_event (logrus.Level_ e) = Some (etype, eid) ->
  Fire h e st =
  (Returned None,
   set_os (set_console
             (console (os st) ++
                [logrus.Message e +:+ " [" +:+ fst (extended (logrus.Data e) eid)
                   +:+ "]" +:+ LF])
             (os st)) st).
Proof. intros Hlog Hlvl. unfold Fire. now rewrite Hlvl, Hlog. Qed.

Lemma notifySystem_no_service (st : Sys) :
  service st = None -> notifySystem st = (Returned tt, st).
Proof.
  intros Hsv. unfold notifySystem.
  now rewrite (bind_Returned _ _ st st None) by (unfold gets; now rewrite Hsv).
Qed.

Lemma NotifyShutdown_no_service (err : error) (st : Sys) :
  service st = None -> NotifyShutdown err st = (Returned tt, st).
Proof.
  intros Hsv. unfold NotifyShutdown.
  now rewrite (bind_Returned _ _ st st None) by (unfold gets; now rewrite Hsv).
Qed.

(** With a service installed, [notifySystem] begins the crash capture
    on [rancherPanicFile]: it tells the dispatcher [false] when the
    capture has begun, and is fatal when it has not. *)
Lemma notifySystem_installed (h : handler) (s : Sys) :
  service s = Some h ->
  exists err s1,
    initPanicFile rancherPanicFile s = (Returned err, s1) /\
    capture_result s err s1 /\
    match err with
    | None =>
        notifySystem s =
        (Returned tt, advanced [Sent (tosvc h) (MBool false)] (inbox s1) s1)
    | Some e => exists s2, notifySystem s = (Exited 1, s2) /\ logged s1 s2
    end.
Proof.
  intros Hsv. unfold notifySystem.
  rewrite (bind_Returned _ _ s s (Some h)) by (unfold gets; now rewrite Hsv).
  unfold started.
  destruct (initPanicFile_post rancherPanicFile s) as (err & s1 & Hi & Hres).
  exists err, s1. split; [exact Hi |]. split; [exact Hres |].
  rewrite (bind_Returned (initPanicFile rancherPanicFile ≫= _) _ s
             (match err with
              | Some _ => s1
              | None => advanced [Sent (tosvc h) (MBool false)] (inbox s1) s1
              end)
             err).
  2: { rewrite (bind_Returned _ _ _ _ _ Hi). destruct err as [e|]; [reflexivity |].
       cbn [check]. unfold send, modify. unfold mbind, M_bind.
       now rewrite advanced_start. }
  destruct err as [e|]; [| reflexivity].
  destruct (logrus_Fatal_exits e s1) as (s2 & HF & Hl). eauto.
Qed.

(** With a service installed, [NotifyShutdown] is fatal on an error;
    without one it tells the dispatcher [false] and waits for its
    answer. *)
Lemma NotifyShutdown_installed (h : handler) (err : error) (s : Sys) :
  service s = Some h ->
  exists res s' evs,
    NotifyShutdown err s = (res, s') /\ trace s' = trace s ++ evs /\
    ((is_Some err /\ res = Exited 1 /\ evs = []) \/
     (err = None /\ res = Blocked /\ evs = [Sent (tosvc h) (MBool false)]) \/
     (err = None /\ res = Returned tt /\
      exists e, evs = [Sent (tosvc h) (MBool false); Received (fromsvc h) (MErr e)])).
Proof.
  intros Hsv. unfold NotifyShutdown.
  rewrite (bind_Returned _ _ s s (Some h)) by (unfold gets; now rewrite Hsv).
  destruct err as [e|].
  - destruct (logrus_Fatal_exits e s) as (s2 & HF & Hl).
    rewrite (bind_Exited _ _ _ _ _ HF).
    apply logged_fields in Hl as (Htr2 & _).
    exists (Exited 1), s2, []. split; [reflexivity |].
    split; [now rewrite Htr2, app_nil_r |]. left. eauto.
  - rewrite (bind_Returned _ _ s s tt) by reflexivity.
    unfold stopped, logrus_Debug.
    destruct (log_at_logged logrus.DebugLevel ("Stopping service: " +:+ show_error None) s)
      as (s1 & Hlog & Hl).
    rewrite (bind_Returned _ _ _ _ _ Hlog).
    apply logged_fields in Hl as (Htr & _).
    rewrite (bind_Returned _ _ s1
               (advanced [Sent (tosvc h) (MBool false)] (inbox s1) s1) tt)
      by (unfold send, modify; now rewrite advanced_start).
    destruct (recv_cases (fromsvc h) as_error
                (advanced [Sent (tosvc h) (MBool false)] (inbox s1) s1))
      as [Hb | (m & rest & a & Hin & Hdec & Hr)].
    + rewrite (bind_Blocked _ _ _ _ Hb).
      eexists _, _, _. split; [reflexivity |].
      split; [unfold advanced; simpl_sys; now rewrite Htr |].
      right. left. auto.
    + rewrite (bind_Returned _ _ _ _ _ Hr). rewrite advanced_advanced.
      destruct m as [| e | |]; try discriminate.
      eexists _, _, _. split; [reflexivity |].
      split; [unfold advanced; simpl_sys; now rewrite Htr |].
      right. right. eauto.
Qed.

(** A task that has added events to its trace is not where it was. *)
Lemma trace_grown (s s' : Sys) (ev : Event) (evs : list Event) :
  trace s' = trace s ++ ev :: evs -> s' <> s.
Proof.
  intros Htr ->. apply (f_equal (@length Event)) in Htr.
  rewrite length_app in Htr. cbn [length] in Htr. lia.
Qed.

(** C5, amended. In an interactive session, when [initService]
    returns without an error: the handler is installed as the service of
    the process; the hook is registered without an event log, so a
    record of a known severity goes to the console and to no event log.
    [notifySystem] and [NotifyShutdown] do nothing only in a state
    without a service: there they return and leave the state as it is,
    and with a service installed they act. [notifySystem] ends the
    process with exit code 1 or returns having told the dispatcher
    [false] on [tosvc]; [NotifyShutdown] ends the process with exit code
    1 on an error, and without one tells the dispatcher [false] on
    [tosvc]. *)
Theorem initService_interactive_mode (register unregister : bool) (s s' : Sys) :
  session (os s) = Some true ->
  initService register unregister s = (Returned None, s') ->
  (exists h, service s' = Some h) /\
  hooks s' = hooks s ++ [mkEtwHook None] /\
  (forall (e : logrus.Entry) (st : Sys) (etype eid : Z),
     level_event (logrus.Level_ e) = Some (etype, eid) ->
     Fire (mkEtwHook None) e st =
     (Returned None,
      set_os (set_console
                (console (os st) ++
                   [logrus.Message e +:+ " [" +:+ fst (extended (logrus.Data e) eid)
                      +:+ "]" +:+ LF])
                (os st)) st)) /\
  (forall st : Sys,
     service st = None ->
     notifySystem st = (Returned tt, st) /\
     forall err, NotifyShutdown err st = (Returned tt, st)) /\
  (forall (st : Sys) (h : handler),
     service st = Some h ->
     (fst (notifySystem st) = Exited 1 \/
      fst (notifySystem st) = Returned tt /\
      trace (snd (notifySystem st)) = trace st ++ [Sent (tosvc h) (MBool false)]) /\
     (forall err,
        (is_Some err /\ fst (NotifyShutdown err st) = Exited 1) \/
        (err = None /\
         exists evs,
           trace (snd (NotifyShutdown err st)) =
             trace st ++ Sent (tosvc h) (MBool false) :: evs))) /\
  (forall st : Sys,
     (notifySystem st = (Returned tt, st) -> service st = None) /\
     (forall err, NotifyShutdown err st = (Returned tt, st) -> service st = None)).
Proof.
  intros Hses H.
  destruct (initService_interactive register unregister s s' Hses H) as [Hsv Hhooks].
  assert (Hn : forall (st : Sys) (h : handler),
             service st = Some h ->
             fst (notifySystem st) = Exited 1 \/
             fst (notifySystem st) = Returned tt /\
             trace (snd (notifySystem st)) = trace st ++ [Sent (tosvc h) (MBool false)]).
  { intros st h Hst.
    destruct (notifySystem_installed h st Hst) as (err & s1 & _ & [Hf _] & Hrun).
    apply capture_frame_fields in Hf as (Htr & _).
    destruct err as [e|].
    - destruct Hrun as (s2 & -> & _). now left.
    - rewrite Hrun. right. split; [reflexivity |].
      unfold advanced. simpl_sys. now rewrite Htr. }
  assert (Hd : forall (st : Sys) (h : handler) (err : error),
             service st = Some h ->
             (is_Some err /\ fst (NotifyShutdown err st) = Exited 1) \/
             (err = None /\
              exists evs,
                trace (snd (NotifyShutdown err st)) =
                  trace st ++ Sent (tosvc h) (MBool false) :: evs)).
  { intros st h err Hst.
    destruct (NotifyShutdown_installed h err st Hst)
      as (res & st' & evs & -> & Htr &
          [(He & -> & _) | [(-> & _ & ->) | (-> & _ & e & ->)]]).
    - now left.
    - right. split; [reflexivity |]. now exists [].
    - right. split; [reflexivity |]. now exists [Received (fromsvc h) (MErr e)]. }
  split; [exact Hsv |]. split; [exact Hhooks |]. split.
  { intros e st etype eid. now apply Fire_console. }
  split.
  { intros st Hnone. split; [now apply notifySystem_no_service |].
    intros err. now apply NotifyShutdown_no_service. }
  split.
  { intros st h Hst. split; [now apply Hn |]. intros err. now apply Hd. }
  intros st. split.
  - intros Hnoop. destruct (service st) as [h|] eqn:Hst; [exfalso | reflexivity].
    destruct (Hn st h Hst) as [Hx | [_ Htr]]; rewrite Hnoop in *.
    + discriminate.
    + now apply (trace_grown st st _ _ Htr).
  - intros err Hnoop. destruct (service st) as [h|] eqn:Hst; [exfalso | reflexivity].
    destruct (Hd st h err Hst) as [[_ Hx] | [_ [evs Htr]]]; rewrite Hnoop in *.
    + discriminate.
    + now apply (trace_grown st st _ _ Htr).
Qed.

Lemma initService_interactive_mode_witness :
  (exists h, service (snd (initService false false interactive_boot)) = Some h) /\
  hooks (snd (initService false false interactive_boot)) =
    hooks interactive_boot ++ [mkEtwHook None] /\
  notifySystem (snd (initService false false interactive_boot)) <>
    (Returned tt, snd (initService false false interactive_boot)).
Proof.
  assert (Hses : session (os interactive_boot) = Some true) by reflexivity.
  assert (Hret : initService false false interactive_boot =
                 (Returned None, snd (initService false false interactive_boot)))
    by (vm_compute; reflexivity).
  destruct (initService_interactive_mode false false interactive_boot _ Hses Hret)
    as (Hsv & Hhooks & _ & _ & _ & Honly).
  split; [exact Hsv |]. split; [exact Hhooks |].
  intros Hnoop. apply (Honly _) in Hnoop.
  destruct Hsv as [h Hsv]. rewrite Hsv in Hnoop. discriminate.
Defined.

(** C5 as stated fails: after [initService] in an interactive session
    the service of the process is set, and [notifySystem] is not a
    no-op: it begins the crash capture, redirects standard error and
    signals the dispatcher. *)
Lemma initService_interactive_counterexample :
  let s1 := snd (initService false false interactive_boot) in
  session (os interactive_boot) = Some true /\
  fst (initService false false interactive_boot) = Returned None /\
  service s1 = Some (mkHandler 1 2) /\
  fst (notifySystem s1) = Returned tt /\
  trace (snd (notifySystem s1)) = trace s1 ++ [Sent 1 (MBool false)] /\
  files (os s1) !! rancherPanicFile = None /\
  files (os (snd (notifySystem s1))) !! rancherPanicFile = Some "" /\
  std_error (os (snd (notifySystem s1))) <> std_error (os s1).
Proof. vm_compute. repeat split; try reflexivity. discriminate. Qed.

(** * Further properties *)

(** ** Event sink adapter *)

(** The six cases of the switch of [Fire]. *)
Lemma level_event_cases (lvl : logrus.Level) (etype eid : Z) :
  level_event lvl = Some (etype, eid) ->
  (lvl = 0 /\ etype = 1 /\ eid = 3) \/ (lvl = 1 /\ etype = 1 /\ eid = 4) \/
  (lvl = 2 /\ etype = 1 /\ eid = 1) \/ (lvl = 3 /\ etype = 2 /\ eid = 1) \/
  (lvl = 4 /\ etype = 4 /\ eid = 1) \/ (lvl = 5 /\ etype = 4 /\ eid = 2).
Proof.
  unfold level_event, logrus.PanicLevel, logrus.FatalLevel, logrus.ErrorLevel,
    logrus.WarnLevel, logrus.InfoLevel, logrus.DebugLevel.
  repeat match goal with
  | |- context [?a =? ?b] => destruct (Z.eqb_spec a b)
  end; intros [= <- <-]; subst; cbv; tauto.
Qed.

Lemma level_event_known (lvl : logrus.Level) :
  is_Some (level_event lvl) <-> 0 <= lvl <= 5.
Proof.
  split.
  - intros [[etype eid] H]. apply level_event_cases in H. lia.
  - intros H. destruct (level_event lvl) eqn:E; [eauto |].
    apply level_event_None in E. contradiction.
Qed.

(** The identifier [Fire] reports, by the presence of fields. *)
Lemma extended_eid (data : list (string * string)) (lvl : logrus.Level) (etype eid : Z) :
  level_event lvl = Some (etype, eid) ->
  snd (extended data eid) = match data with [] => eid | _ :: _ => eid + eventExtraOffset end.
Proof.
  intros Hlvl. destruct data as [|kv rest]; [reflexivity |].
  now rewrite (extended_fields _ _ _ _ Hlvl).
Qed.

Lemma extended_exts (data : list (string * string)) (lvl : logrus.Level) (etype eid : Z) :
  level_event lvl = Some (etype, eid) ->
  fst (extended data eid) = match data with [] => "" | _ :: _ => joined_fields data end.
Proof.
  intros Hlvl. destruct data as [|kv rest]; [reflexivity |].
  now rewrite (extended_fields _ _ _ _ Hlvl).
Qed.

Lemma has_NUL_joined (data : list (string * string)) :
  has_NUL (joined_fields data) =
  existsb (fun kv => has_NUL (fst kv) || has_NUL (snd kv)) data.
Proof.
  unfold joined_fields.
  induction data as [|[k v] rest IH]; [reflexivity |].
  cbn [map existsb fst snd]. destruct rest as [|kv rest'].
  - cbn [String.concat map existsb]. rewrite !has_NUL_append. cbn [has_NUL].
    now rewrite !orb_false_r.
  - change (String.concat " " ((k +:+ "=" +:+ v) :: map _ (kv :: rest')))
      with ((k +:+ "=" +:+ v) +:+ " " +:+ String.concat " "
              (map (fun kv => fst kv +:+ "=" +:+ snd kv) (kv :: rest'))).
    rewrite !has_NUL_append, IH. cbn [has_NUL].
    now rewrite !orb_false_r, ?orb_false_l.
Qed.

(** X1. The levels the hook asks logrus for are exactly the levels the
    switch of [Fire] knows, and [Fire] answers "unknown level" exactly
    to a record whose level the hook did not ask for. *)
Theorem Levels_are_the_known_levels (h : etwHook) :
  (forall lvl, In lvl (Levels h) <-> is_Some (level_event lvl)) /\
  (forall (e : logrus.Entry) (s : Sys),
     fst (Fire h e s) = Returned (Some "unknown level") <->
     ~ In (logrus.Level_ e) (Levels h)).
Proof.
  assert (HL : forall lvl, In lvl (Levels h) <-> is_Some (level_event lvl)).
  { intros lvl. rewrite level_event_known.
    unfold Levels, logrus.PanicLevel, logrus.FatalLevel, logrus.ErrorLevel,
      logrus.WarnLevel, logrus.InfoLevel, logrus.DebugLevel. cbn [In]. lia. }
  split; [exact HL |].
  intros e s. rewrite HL. split.
  - intros HF [[etype eid] Hlvl]. unfold Fire in HF. rewrite Hlvl in HF.
    destruct (log h) as [lg|]; [| discriminate HF].
    unfold syscall_UTF16PtrFromString in HF.
    destruct (has_NUL (logrus.Message e)); [discriminate HF |].
    destruct (negb _); [| discriminate HF].
    destruct (has_NUL _); discriminate HF.
  - intros Hnone. unfold Fire.
    destruct (level_event (logrus.Level_ e)) as [p|]; [| reflexivity].
    exfalso. apply Hnone. eauto.
Qed.

(** X2. The type and the identifier of a reported event tell the
    severity of the record and whether it had fields: two records of the
    same event type and the same reported identifier have the same level
    and both have fields or both have none. *)
Theorem Fire_event_identifies_record (l1 l2 : logrus.Level) (t e1 e2 : Z)
    (d1 d2 : list (string * string)) :
  level_event l1 = Some (t, e1) ->
  level_event l2 = Some (t, e2) ->
  snd (extended d1 e1) = snd (extended d2 e2) ->
  l1 = l2 /\ (d1 = [] <-> d2 = []).
Proof.
  intros H1 H2. rewrite (extended_eid d1 _ _ _ H1), (extended_eid d2 _ _ _ H2).
  apply level_event_cases in H1, H2. unfold eventExtraOffset.
  destruct d1, d2; intros He; (split; [lia | split; intros; (congruence || lia)]).
Qed.

Lemma Fire_event_identifies_record_witness :
  logrus.FatalLevel = logrus.FatalLevel /\
  ([("host", "a")] = [] <-> [("subnet", "b"); ("host", "c")] = []).
Proof.
  apply (Fire_event_identifies_record logrus.FatalLevel logrus.FatalLevel
           windows.EVENTLOG_ERROR_TYPE eventFatal eventFatal
           [("host", "a")] [("subnet", "b"); ("host", "c")]);
    reflexivity.
Defined.

(** X3. Without an event log, a record of a known severity is one line
    on standard error: the message, then the fields joined as [k=v] by
    single spaces between brackets (empty brackets when there is none),
    then a line feed. [Fire] returns no error and reports no event. *)
Theorem Fire_console_line (h : etwHook) (e : logrus.Entry) (s : Sys) :
  log h = None ->
  is_Some (level_event (logrus.Level_ e)) ->
  exists s',
    Fire h e s = (Returned None, s') /\
    console (os s') =
      console (os s) ++
        [logrus.Message e +:+ " [" +:+
           match logrus.Data e with [] => "" | _ :: _ => joined_fields (logrus.Data e) end
           +:+ "]" +:+ LF] /\
    event_log (os s') = event_log (os s).
Proof.
  intros Hlog [[etype eid] Hlvl].
  rewrite (Fire_console h e s etype eid Hlog Hlvl).
  rewrite (extended_exts _ _ _ _ Hlvl).
  eexists. split; [reflexivity |]. split; reflexivity.
Qed.

Lemma Fire_console_line_witness :
  exists s',
    Fire (mkEtwHook None)
         (logrus.mkEntry logrus.InfoLevel "route added" [("subnet", "10.42.1.0/24")])
         boot = (Returned None, s') /\
    console (os s') = console (os boot) ++ ["route added [subnet=10.42.1.0/24]" +:+ LF] /\
    event_log (os s') = event_log (os boot).
Proof.
  apply (Fire_console_line (mkEtwHook None)
           (logrus.mkEntry logrus.InfoLevel "route added" [("subnet", "10.42.1.0/24")])
           boot).
  - reflexivity.
  - eexists. reflexivity.
Defined.

(** X4. With an event log open, a record whose message, or one of
    whose field names or values, holds a NUL byte is not reported:
    [Fire] returns the error of the conversion to UTF-16 and leaves the
    state as it was. *)
Theorem Fire_rejects_NUL (h : etwHook) (e : logrus.Entry) (s : Sys) (lg : Handle) :
  log h = Some lg ->
  is_Some (level_event (logrus.Level_ e)) ->
  has_NUL (logrus.Message e) = true \/
  existsb (fun kv => has_NUL (fst kv) || has_NUL (snd kv)) (logrus.Data e) = true ->
  Fire h e s = (Returned (Some "invalid argument"), s).
Proof.
  intros Hlog [[etype eid] Hlvl] Hnul. unfold Fire. rewrite Hlvl, Hlog.
  unfold syscall_UTF16PtrFromString at 1.
  destruct (has_NUL (logrus.Message e)) eqn:Hmsg; [reflexivity |].
  destruct Hnul as [Hnul | Hnul]; [discriminate |].
  assert (Hne : logrus.Data e <> []) by (intros Heq; rewrite Heq in Hnul; discriminate).
  rewrite (extended_fields _ _ _ _ Hlvl Hne). cbn [fst snd].
  destruct (String.eqb_spec (joined_fields (logrus.Data e)) "") as [Heq|_].
  { now apply joined_fields_nonempty in Heq. }
  cbn [negb]. unfold syscall_UTF16PtrFromString.
  now rewrite has_NUL_joined, Hnul.
Qed.

Lemma Fire_rejects_NUL_witness :
  Fire (mkEtwHook (Some 5))
       (logrus.mkEntry logrus.WarnLevel "lease"
          [("peer", String Ascii.zero "x")]) boot =
  (Returned (Some "invalid argument"), boot).
Proof.
  apply (Fire_rejects_NUL (mkEtwHook (Some 5))
           (logrus.mkEntry logrus.WarnLevel "lease" [("peer", String Ascii.zero "x")])
           boot 5).
  - reflexivity.
  - eexists. reflexivity.
  - right. reflexivity.
Defined.

(** X5. One call of [Fire] does one of three things and never two:
    it returns an error and leaves the state as it was; or, without an
    event log, it writes one line to standard error; or it reports one
    event on the event log of the hook, of one or two strings as its
    count says. It never ends the process and never waits. *)
Theorem Fire_outcomes (h : etwHook) (e : logrus.Entry) (s : Sys) :
  (exists err, Fire h e s = (Returned (Some err), s)) \/
  (exists line,
     log h = None /\
     Fire h e s =
     (Returned None, set_os (set_console (console (os s) ++ [line]) (os s)) s)) \/
  (exists ev,
     log h = Some (rep_log ev) /\
     Fire h e s = (Returned None, report ev s) /\
     (rep_count ev = 1 \/ rep_count ev = 2) /\
     Z.of_nat (length (rep_strings ev)) = rep_count ev).
Proof.
  unfold Fire.
  destruct (level_event (logrus.Level_ e)) as [[etype eid]|]; [| left; eauto].
  destruct (log h) as [lg|]; [| right; left; eauto].
  unfold syscall_UTF16PtrFromString.
  destruct (has_NUL (logrus.Message e)); [left; eauto |].
  destruct (negb _).
  - destruct (has_NUL _); [left; eauto |].
    right. right. eexists (mkReported lg etype _ 2 [_; _]).
    split; [reflexivity |]. split; [reflexivity |]. split; [now right | reflexivity].
  - right. right. eexists (mkReported lg etype _ 1 [_]).
    split; [reflexivity |]. split; [reflexivity |]. split; [now left | reflexivity].
Qed.

(** ** Crash capture manager *)

(** X6. The begin of the crash capture always returns, and it
    redirects standard error exactly when it returns no error: then the
    crash file is open, standard error is its handle and the handle it
    replaced is remembered; on every error standard error is where it
    was. Nothing but the operating system and the two variables of the
    crash capture is touched. *)
Theorem initPanicFile_redirects_iff_ok (path : string) (s : Sys) :
  exists err s',
    initPanicFile path s = (Returned err, s') /\
    capture_frame s s' /\
    ((err = None /\ is_Some (panicFile s') /\
      std_error (os s') = File_Fd (panicFile s') /\
      oldStderr s' = std_error (os s)) \/
     (is_Some err /\ std_error (os s') = std_error (os s))).
Proof. exact (initPanicFile_post path s). Qed.

(** After an end of the crash capture, [Stat] of the crash file fails
    or the end had nothing to do. *)
Lemma removePanicFile_done (s s1 : Sys) :
  removePanicFile s = (Returned tt, s1) -> s1 = s \/ Stat_fails s1.
Proof.
  unfold removePanicFile.
  rewrite (bind_Returned _ _ s s (panicFile s)) by reflexivity.
  destruct (File_Stat_pure (panicFile s) s) as [[st err] HS].
  rewrite (bind_Returned _ _ _ _ _ HS).
  destruct err as [e|]; [intros [= <-]; now left |].
  destruct (Size st =? 0); [| intros [= <-]; now left].
  unfold File_Stat in HS.
  destruct (panicFile s) as [f|] eqn:Hpf; [| discriminate].
  destruct (handles (os s) !! Fd f) as [p|] eqn:Hh; [| discriminate].
  rewrite (bind_Returned _ _ s s (oldStderr s)) by reflexivity.
  rewrite (bind_Returned _ _ s (set_os (set_std_error (oldStderr s) (os s)) s)
             (1, Some "The operation completed successfully.")) by reflexivity.
  rewrite (bind_Returned _ _ _
             (set_os (set_handles (delete (Fd f) (handles (os s)))
                        (set_std_error (oldStderr s) (os s))) s) (None : error))
    by (unfold File_Close; simpl_sys; now rewrite Hh).
  destruct (post_Remove (File_Name (Some f))
              (set_os (set_handles (delete (Fd f) (handles (os s)))
                         (set_std_error (oldStderr s) (os s))) s))
    as (er & s2 & HR & Hs2).
  rewrite (bind_Returned _ _ _ _ _ HR). intros [= <-]. right.
  exists ("stat " +:+ Name f +:+ ": file already closed").
  destruct Hs2 as [-> | (fs & ds & ->)]; unfold File_Stat; simpl_sys;
    now rewrite Hpf, lookup_delete_eq.
Qed.

(** X7. A second end of the crash capture does nothing: after any
    call of [removePanicFile], another call returns with the state as
    the first one left it. *)
Theorem removePanicFile_idempotent (s : Sys) :
  exists s1,
    removePanicFile s = (Returned tt, s1) /\
    removePanicFile s1 = (Returned tt, s1).
Proof.
  destruct (removePanicFile_returns s) as [s1 H1]. exists s1.
  split; [exact H1 |].
  destruct (removePanicFile_done s s1 H1) as [-> | Hfail]; [exact H1 |].
  now apply removePanicFile_Stat_fails.
Qed.

(** X8. A crash record survives the end of the capture: when the
    crash file has come to hold [c], not empty, after a begin that
    returned no error, the end returns with the file, its contents and
    the redirection of standard error to it as they were. *)
Theorem crash_record_preserved (path c : string) (s s1 : Sys) :
  initPanicFile path s = (Returned None, s1) ->
  c <> "" ->
  let s2 := set_os (set_files (<[path := c]> (files (os s1))) (os s1)) s1 in
  removePanicFile s2 = (Returned tt, s2) /\
  files (os s2) !! path = Some c /\
  std_error (os s2) = File_Fd (panicFile s2).
Proof.
  intros H Hc s2.
  apply initPanicFile_ok in H as (f & Hpf & <- & Hh & _ & _ & Hstd).
  assert (Hf2 : files (os s2) !! Name f = Some c) by apply lookup_insert_eq.
  split; [| split; [exact Hf2 |]].
  - apply (removePanicFile_nonempty s2 f c); [exact Hpf | exact Hh | exact Hf2 | exact Hc].
  - subst s2. simpl_sys. now rewrite Hpf.
Qed.

Lemma crash_record_preserved_witness :
  let s1 := snd (initPanicFile rancherPanicFile boot) in
  let s2 := set_os (set_files (<[rancherPanicFile := "panic: nil map"]> (files (os s1)))
                      (os s1)) s1 in
  removePanicFile s2 = (Returned tt, s2) /\
  files (os s2) !! rancherPanicFile = Some "panic: nil map" /\
  std_error (os s2) = File_Fd (panicFile s2).
Proof.
  apply (crash_record_preserved rancherPanicFile "panic: nil map" boot
           (snd (initPanicFile rancherPanicFile boot))).
  - vm_compute. reflexivity.
  - discriminate.
Defined.

(** ** Service control state machine *)

Lemma advanced_nil (s : Sys) : advanced [] (inbox s) s = s.
Proof. unfold advanced. rewrite app_nil_r. destruct s; reflexivity. Qed.

(** The machine in [Running] goes over any run of quiet requests. *)
Lemma Execute_Running_quiet_prefix (h : handler) (r st : Chan)
    (pre : list svc.ChangeRequest) (rest : list (Chan * Msg)) (s : Sys) :
  inbox s = requests r pre ++ rest ->
  Forall quiet pre ->
  Execute_Running h r st s =
  Execute_Running h r st (advanced (answers r st pre) rest s).
Proof.
  revert s. induction pre as [|c pre IH]; intros s Hin Hq.
  - cbn in Hin. cbn [answers flat_map]. now rewrite <- Hin, advanced_nil.
  - apply Forall_cons in Hq as [[Hstop Hshut] Hq].
    rewrite (Execute_Running_stays h r st c (requests r pre ++ rest) s Hin Hstop Hshut).
    rewrite (IH (advanced (Received r (MChange c) :: answer st c)
                   (requests r pre ++ rest) s) eq_refl Hq).
    now rewrite advanced_advanced.
Qed.

(** X9. However many interrogations, parameter changes and unknown
    commands come first, each answered (an interrogation with the
    current status it carries) or passed over without a change of
    state, the stop or shutdown after them makes the machine report
    [StopPending], signal the stop listener and return failure with
    exit code 1, leaving the rest of the script unread. *)
Theorem Execute_Running_stop_after_quiet (h : handler) (r st : Chan)
    (pre : list svc.ChangeRequest) (c : svc.ChangeRequest)
    (rest : list (Chan * Msg)) (s : Sys) :
  inbox s = requests r pre ++ (r, MChange c) :: rest ->
  Forall quiet pre ->
  svc.Cmd_ c = svc.Stop \/ svc.Cmd_ c = svc.Shutdown ->
  exists s',
    Execute_Running h r st s = (Returned (true, 1), s') /\
    trace s' =
      trace s ++ answers r st pre ++
        [Received r (MChange c);
         Sent st (MStatus (svc.mkStatus svc.StopPending 0));
         Sent serviceSignal (MBool true)] /\
    inbox s' = rest.
Proof.
  intros Hin Hq Hcmd.
  rewrite (Execute_Running_quiet_prefix h r st pre _ s Hin Hq).
  rewrite (Execute_Running_stop h r st c rest
             (advanced (answers r st pre) ((r, MChange c) :: rest) s) eq_refl Hcmd).
  rewrite advanced_advanced.
  match goal with
  | |- context [removePanicFile ?x] =>
      destruct (removePanicFile_returns x) as [s' Hrem]; rewrite Hrem;
      apply removePanicFile_frame in Hrem as [w ->]
  end.
  eexists. split; [reflexivity |]. split; reflexivity.
Qed.

Lemma Execute_Running_stop_after_quiet_witness :
  exists s',
    Execute_Running h0 r0 s0
      (set_inbox [(r0, MChange (svc.mkChangeRequest svc.Interrogate Running_status));
                  (r0, MChange (svc.mkChangeRequest windows.SERVICE_CONTROL_PARAMCHANGE
                                  Running_status));
                  (r0, MChange stop_request)] started_state)
      = (Returned (true, 1), s') /\
    trace s' =
      trace started_state ++
        [Received r0 (MChange (svc.mkChangeRequest svc.Interrogate Running_status));
         Sent s0 (MStatus Running_status);
         Received r0 (MChange (svc.mkChangeRequest windows.SERVICE_CONTROL_PARAMCHANGE
                                 Running_status))] ++
        [Received r0 (MChange stop_request);
         Sent s0 (MStatus (svc.mkStatus svc.StopPending 0));
         Sent serviceSignal (MBool true)] /\
    inbox s' = [].
Proof.
  apply (Execute_Running_stop_after_quiet h0 r0 s0
           [svc.mkChangeRequest svc.Interrogate Running_status;
            svc.mkChangeRequest windows.SERVICE_CONTROL_PARAMCHANGE Running_status]
           stop_request []
           (set_inbox [(r0, MChange (svc.mkChangeRequest svc.Interrogate Running_status));
                       (r0, MChange (svc.mkChangeRequest windows.SERVICE_CONTROL_PARAMCHANGE
                                       Running_status));
                       (r0, MChange stop_request)] started_state)).
  - reflexivity.
  - repeat constructor; discriminate.
  - left. reflexivity.
Defined.

(** X10. When the application itself stops the service, after any
    quiet requests, the machine takes its report, ends the crash
    capture (the state it returns in is the one [removePanicFile]
    leaves) and returns that report: success with exit code 0 for
    [false], failure with exit code 1 for [true]. It reports no
    [StopPending] and sends nothing to the stop listener. *)
Theorem Execute_Running_application_stops (h : handler) (r st : Chan)
    (pre : list svc.ChangeRequest) (failed : bool)
    (rest : list (Chan * Msg)) (s : Sys) :
  inbox s = requests r pre ++ (tosvc h, MBool failed) :: rest ->
  Forall quiet pre ->
  exists s',
    Execute_Running h r st s =
      (Returned (if failed then (true, 1) else (false, 0)), s') /\
    removePanicFile
      (advanced (answers r st pre ++ [Received (tosvc h) (MBool failed)]) rest s) =
      (Returned tt, s') /\
    trace s' = trace s ++ answers r st pre ++ [Received (tosvc h) (MBool failed)] /\
    inbox s' = rest.
Proof.
  intros Hin Hq.
  rewrite (Execute_Running_quiet_prefix h r st pre _ s Hin Hq).
  rewrite (Execute_Running_application_stop h r st failed rest
             (advanced (answers r st pre) ((tosvc h, MBool failed) :: rest) s) eq_refl).
  rewrite advanced_advanced.
  match goal with
  | |- context [removePanicFile ?x] =>
      destruct (removePanicFile_returns x) as [s' Hrem]; rewrite Hrem;
      apply removePanicFile_frame in Hrem as [w ->]
  end.
  eexists. split; [reflexivity |]. split; [reflexivity |]. split; reflexivity.
Qed.

Lemma Execute_Running_application_stops_witness :
  (exists s',
     Execute_Running h0 r0 s0 (set_inbox [(tosvc h0, MBool false)] started_state)
       = (Returned (false, 0), s') /\
     removePanicFile
       (advanced ([] ++ [Received (tosvc h0) (MBool false)]) []
          (set_inbox [(tosvc h0, MBool false)] started_state)) = (Returned tt, s') /\
     trace s' = trace started_state ++ [] ++ [Received (tosvc h0) (MBool false)] /\
     inbox s' = []) /\
  files (os started_state) !! rancherPanicFile = Some "" /\
  files (os (snd (Execute_Running h0 r0 s0
                    (set_inbox [(tosvc h0, MBool false)] started_state))))
    !! rancherPanicFile = None.
Proof.
  split.
  - apply (Execute_Running_application_stops h0 r0 s0 [] false []
             (set_inbox [(tosvc h0, MBool false)] started_state)).
    + reflexivity.
    + constructor.
  - vm_compute. split; reflexivity.
Defined.

(** The loop waits or breaks with a value of [failed]; it only reads
    the script and adds to the trace. *)
Lemma Execute_Loop_dispatched (h : handler) (r st : Chan) (n : nat) (s s' : Sys)
    (res : Result bool) :
  Execute_Loop h r st n s = (res, s') ->
  (res = Blocked \/ exists b, res = Returned b) /\
  exists evs rest, s' = advanced evs rest s.
Proof.
  revert s. induction n as [|n IH]; intros s H.
  - injection H as <- <-. split; [now left |].
    exists [], (inbox s). now rewrite advanced_nil.
  - cbn [Execute_Loop] in H.
    destruct (select2_cases (tosvc h) as_bool r as_change s)
      as [Hb | (c' & msg & rest & v & Hin & Hsel)].
    { rewrite (bind_Blocked _ _ _ _ Hb) in H. injection H as <- <-.
      split; [now left |]. exists [], (inbox s). now rewrite advanced_nil. }
    rewrite (bind_Returned _ _ _ _ _ Hsel) in H.
    destruct v as [failed|c].
    { injection H as <- <-. split; [right; eauto | eauto]. }
    destruct (svc.Cmd_ c =? windows.SERVICE_CONTROL_PARAMCHANGE).
    { apply IH in H as [Hres (evs & rest' & ->)]. split; [exact Hres |].
      rewrite advanced_advanced. eauto. }
    destruct (svc.Cmd_ c =? svc.Interrogate).
    { rewrite (bind_Returned _ _ _ _ _ (send_advanced _ _ _ _ _)) in H.
      apply IH in H as [Hres (evs & rest' & ->)]. split; [exact Hres |].
      rewrite advanced_advanced. eauto. }
    destruct ((svc.Cmd_ c =? svc.Stop) || (svc.Cmd_ c =? svc.Shutdown)).
    { rewrite !(bind_Returned _ _ _ _ _ (send_advanced _ _ _ _ _)) in H.
      injection H as <- <-. split; [right; eauto | eauto]. }
    apply IH in H as [Hres (evs & rest' & ->)]. split; [exact Hres |].
    rewrite advanced_advanced. eauto.
Qed.

Lemma Execute_Running_outcome (h : handler) (r st : Chan) (s s' : Sys)
    (res : Result (bool * Z)) :
  Execute_Running h r st s = (res, s') ->
  (res = Blocked \/ res = Returned (true, 1) \/ res = Returned (false, 0)) /\
  exists evs, trace s' = trace s ++ evs.
Proof.
  unfold Execute_Running.
  rewrite (bind_Returned _ _ s s (length (inbox s))) by reflexivity.
  destruct (Execute_Loop h r st (S (length (inbox s))) s) as [res1 s1] eqn:HL.
  apply Execute_Loop_dispatched in HL as H1. destruct H1 as [Hres (evs & rest & ->)].
  destruct Hres as [-> | [b ->]].
  - rewrite (bind_Blocked _ _ _ _ HL). intros [= <- <-].
    split; [now left | exists evs; reflexivity].
  - rewrite (bind_Returned _ _ _ _ _ HL).
    destruct (removePanicFile_returns (advanced evs rest s)) as [s2 Hrem].
    rewrite (bind_Returned _ _ _ _ _ Hrem).
    apply removePanicFile_frame in Hrem as [w ->].
    destruct b; intros [= <- <-]; (split; [tauto | exists evs; reflexivity]).
Qed.

(** What one run of [Execute] comes to, and what it has done to the
    trace on the way. *)
Lemma Execute_outcome (h : handler) (r st : Chan) (s s' : Sys)
    (res : Result (bool * Z)) :
  Execute h r st s = (res, s') ->
  (res = Blocked \/ res = Returned (true, 1) \/ res = Returned (false, 0)) /\
  exists evs,
    trace s' =
      trace s ++ Sent st (MStatus StartPending_status) ::
                 Sent (fromsvc h) (MErr None) :: evs /\
    (evs = [] \/
     exists b evs',
       evs = Received (tosvc h) (MBool b) :: evs' /\
       (b = true -> evs' = []) /\
       (b = false -> exists evs'', evs' = Sent st (MStatus Running_status) :: evs'')).
Proof.
  intros H.
  destruct (recv_cases (tosvc h) as_bool
              (advanced [Sent st (MStatus StartPending_status);
                         Sent (fromsvc h) (MErr None)] (inbox s) s))
    as [Hb | (m & rest & b & Hin & Hdec & _)].
  - (* the application has not answered *)
    unfold Execute in H.
    rewrite (bind_Returned _ _ s
               (advanced [Sent st (MStatus StartPending_status)] (inbox s) s) tt) in H
      by (unfold send, modify; now rewrite advanced_start).
    rewrite (bind_Returned _ _ _ _ _ (send_advanced _ _ _ _ _)) in H.
    rewrite (bind_Blocked _ _ _ _ Hb) in H. injection H as <- <-.
    split; [now left |]. exists []. split; [reflexivity | now left].
  - destruct m as [b'| | |]; try discriminate. injection Hdec as ->.
    unfold advanced in Hin. simpl_sys_all.
    rewrite (Execute_handshake h r st b rest s Hin) in H.
    destruct b.
    + unfold logrus_Debug in H.
      match type of H with
      | context [(log_at ?lv ?msg ≫= _) ?s1] =>
          destruct (log_at_logged lv msg s1) as (s2 & Hlog & Hl)
      end.
      rewrite (bind_Returned _ _ _ _ _ Hlog) in H. injection H as <- <-.
      apply logged_fields in Hl as (Htr & _).
      split; [tauto |]. eexists. split; [rewrite Htr; reflexivity |].
      right. exists true, []. split; [reflexivity |]. split; [reflexivity | discriminate].
    + rewrite (bind_Returned _ _ _ _ _ (send_advanced _ _ _ _ _)) in H.
      unfold logrus_Debug in H.
      match type of H with
      | context [(log_at ?lv ?msg ≫= _) ?s1] =>
          destruct (log_at_logged lv msg s1) as (s2 & Hlog & Hl)
      end.
      rewrite (bind_Returned _ _ _ _ _ Hlog) in H.
      apply Execute_Running_outcome in H as [Hres [evs Htr']].
      apply logged_fields in Hl as (Htr & _).
      split; [exact Hres |].
      exists (Received (tosvc h) (MBool false) :: Sent st (MStatus Running_status) :: evs).
      split.
      * rewrite Htr', Htr. unfold advanced. simpl_sys.
        rewrite <- app_assoc. reflexivity.
      * right. exists false, (Sent st (MStatus Running_status) :: evs).
        split; [reflexivity |]. split; [discriminate | eauto].
Qed.

(** X11. [Execute] never ends the process. It waits for a message, or
    it returns one of two pairs: failure with exit code 1, or success
    with exit code 0. *)
Theorem Execute_results (h : handler) (r st : Chan) (s : Sys) :
  fst (Execute h r st s) = Blocked \/
  fst (Execute h r st s) = Returned (true, 1) \/
  fst (Execute h r st s) = Returned (false, 0).
Proof.
  destruct (Execute h r st s) as [res s'] eqn:H.
  apply Execute_outcome in H as [Hres _]. exact Hres.
Qed.

(** X12. Whatever the script, [Execute] first reports [StartPending]
    and releases [initService]; it does nothing more before the
    application has answered on [tosvc]; after the answer [true] it
    does nothing visible; after the answer [false] its next action is
    the report of [Running]. So no [Running] status is reported before
    the handshake, nor without the success of the initialisation. *)
Theorem Execute_handshake_order (h : handler) (r st : Chan) (s : Sys) :
  exists evs,
    trace (snd (Execute h r st s)) =
      trace s ++ Sent st (MStatus (svc.mkStatus svc.StartPending 0)) ::
                 Sent (fromsvc h) (MErr None) :: evs /\
    (evs = [] \/
     exists b evs',
       evs = Received (tosvc h) (MBool b) :: evs' /\
       (b = true -> evs' = []) /\
       (b = false -> exists evs'', evs' = Sent st (MStatus Running_status) :: evs'')).
Proof.
  destruct (Execute h r st s) as [res s'] eqn:H.
  apply Execute_outcome in H as [_ Hev]. exact Hev.
Qed.

(** ** The collaborator interface and the stop listener *)

(** X13. The application side never tells the dispatcher [true].
    With a service installed, [notifySystem] either begins the crash
    capture (the crash file is open and empty, standard error is on its
    handle, the handle it replaced is remembered) and then sends [false]
    on [tosvc], or ends the process with exit code 1 having sent nothing
    and with standard error where it was; [NotifyShutdown] with an error
    ends the process having sent nothing, and without an error sends
    [false] and waits for the answer of the dispatcher. *)
Theorem application_reports_success_only (h : handler) (s : Sys) :
  service s = Some h ->
  (exists res s' evs,
     notifySystem s = (res, s') /\ trace s' = trace s ++ evs /\
     ((res = Returned tt /\ evs = [Sent (tosvc h) (MBool false)] /\
       exists f,
         panicFile s' = Some f /\ Name f = rancherPanicFile /\
         handles (os s') !! Fd f = Some rancherPanicFile /\
         files (os s') !! rancherPanicFile = Some "" /\
         std_error (os s') = Fd f /\
         oldStderr s' = std_error (os s)) \/
      (res = Exited 1 /\ evs = [] /\ std_error (os s') = std_error (os s)))) /\
  (forall err, exists res s' evs,
     NotifyShutdown err s = (res, s') /\ trace s' = trace s ++ evs /\
     ((is_Some err /\ res = Exited 1 /\ evs = []) \/
      (err = None /\ res = Blocked /\ evs = [Sent (tosvc h) (MBool false)]) \/
      (err = None /\ res = Returned tt /\
       exists e, evs = [Sent (tosvc h) (MBool false); Received (fromsvc h) (MErr e)]))).
Proof.
  intros Hsv. split; [| intros err; now apply NotifyShutdown_installed].
  destruct (notifySystem_installed h s Hsv) as (err & s1 & Hi & [Hf Hres] & Hrun).
  apply capture_frame_fields in Hf as (Htr & _).
  destruct err as [e|].
  - destruct Hrun as (s2 & Hrun & Hl).
    apply logged_fields in Hl as (Htr2 & _ & _ & _ & _ & _ & _ & Hstd2).
    exists (Exited 1), s2, []. split; [exact Hrun |].
    split; [now rewrite Htr2, Htr, app_nil_r |]. right.
    split; [reflexivity |]. split; [reflexivity |].
    destruct Hres as [([=] & _) | (_ & Hstd)]. now rewrite Hstd2.
  - apply initPanicFile_ok in Hi as (f & Hpf & Hname & Hh & Hfile & Hold & Hstd).
    eexists _, _, _. split; [exact Hrun |].
    split; [unfold advanced; simpl_sys; now rewrite Htr |]. left.
    split; [reflexivity |]. split; [reflexivity |].
    exists f. unfold advanced. simpl_sys. repeat split; assumption.
Qed.

Lemma application_reports_success_only_witness :
  exists s',
    notifySystem (set_service (Some h0) boot) = (Returned tt, s') /\
    trace s' = trace (set_service (Some h0) boot) ++ [Sent (tosvc h0) (MBool false)] /\
    files (os s') !! rancherPanicFile = Some "" /\
    oldStderr s' = std_error (os (set_service (Some h0) boot)).
Proof.
  destruct (application_reports_success_only h0 (set_service (Some h0) boot) eq_refl)
    as [(res & s' & evs & Hrun & Htr &
         [(-> & -> & f & _ & _ & _ & Hfile & _ & Hold) | (-> & _)]) _].
  - exists s'. repeat split; assumption.
  - vm_compute in Hrun. discriminate.
Defined.

(** X14. The stop listener that [Init] starts takes one signal: on
    [true] it ends the process with exit code 0, on [false] it returns
    and listens no more. *)
Theorem signal_listener_outcome (b : bool) (rest : list (Chan * Msg)) (s : Sys) :
  inbox s = (serviceSignal, MBool b) :: rest ->
  exists s',
    signal_listener s = (if b then Exited 0 else Returned tt, s') /\
    trace s' = trace s ++ [Received serviceSignal (MBool b)] /\
    inbox s' = rest.
Proof.
  intros Hin. unfold signal_listener.
  rewrite (bind_Returned _ _ _ _ _ (recv_bool serviceSignal b rest s Hin)).
  destruct b.
  - unfold logrus_Info.
    destruct (log_at_logged logrus.InfoLevel
                "Receiving service stop signal. Stopping per-host-subnet"
                (advanced [Received serviceSignal (MBool true)] rest s))
      as (s' & Hlog & Hl).
    rewrite (bind_Returned _ _ _ _ _ Hlog).
    apply logged_fields in Hl as (Htr & Hin' & _).
    exists s'. split; [reflexivity |]. now rewrite Htr, Hin'.
  - eexists. split; [reflexivity |]. split; reflexivity.
Qed.

Lemma signal_listener_outcome_witness :
  exists s',
    signal_listener (set_inbox [(serviceSignal, MBool true)] boot) = (Exited 0, s') /\
    trace s' = trace (set_inbox [(serviceSignal, MBool true)] boot)
                 ++ [Received serviceSignal (MBool true)] /\
    inbox s' = [].
Proof.
  apply (signal_listener_outcome true [] (set_inbox [(serviceSignal, MBool true)] boot)).
  reflexivity.
Defined.

(** ** Service installer *)

(** [registerService] succeeded from [s]: the manager was reachable,
    the executable found, neither the service nor the event source was
    installed, and both are now. *)
Lemma registerService_ok (s s1 : Sys) :
  registerService s = (Returned None, s1) ->
  exists p,
    exe_path (os s) = Some p /\ scm_up (os s) = true /\
    services (os s) !! ServiceName = None /\
    (ServiceName ∉ event_sources (os s)) /\
    s1 = set_os (set_event_sources ({[ServiceName]} ∪ event_sources (os s))
                   (set_services
                      (<[ServiceName :=
                           mkServiceDef p ["--enable-route-update"]
                             [uint32 (60 * 1000); uint32 (60 * 1000)]]> (services (os s)))
                      (os s))) s.
Proof.
  unfold registerService, getServicePath, mgr_Connect, mgr_CreateService,
    windows_ChangeServiceConfig2, eventlog_Install.
  set (n := ServiceName). clearbody n.
  unfold mbind, M_bind.
  destruct (exe_path (os s)) as [p|]; [| discriminate]. cbn [check].
  destruct (scm_up (os s)); [| discriminate]. cbn [check].
  destruct (services (os s) !! n) eqn:Hsv; [discriminate |]. cbn [check].
  simpl_sys. rewrite lookup_insert_eq. cbn [check sd_path sd_args]. simpl_sys.
  rewrite insert_insert_eq.
  destruct (bool_decide (n ∈ event_sources (os s))) eqn:Hes; [discriminate |].
  apply bool_decide_eq_false in Hes. cbn [check mret M_ret].
  intros [= <-]. exists p. repeat split; auto.
Qed.

(** X15. Unregistering undoes a registration: after a
    [registerService] that returned no error, [unregisterService]
    returns no error and the state is the one before the
    registration, service definition and event source gone. *)
Theorem register_unregister (s s1 : Sys) :
  registerService s = (Returned None, s1) ->
  unregisterService s1 = (Returned None, s).
Proof.
  intros H. apply registerService_ok in H as (p & _ & Hup & Hsv & Hes & ->).
  unfold unregisterService, mgr_Connect, mgr_OpenService, eventlog_Remove, Service_Delete.
  set (n := ServiceName) in *. clearbody n.
  unfold mbind, M_bind. simpl_sys. rewrite Hup. cbn [check]. simpl_sys.
  rewrite lookup_insert_eq. cbn [check]. simpl_sys.
  rewrite bool_decide_eq_true_2 by set_solver.
  simpl_sys. cbn [check mret M_ret].
  rewrite delete_insert_id by exact Hsv.
  assert (Hdiff : ({[n]} ∪ event_sources (os s)) ∖ {[n]} = event_sources (os s)).
  { apply set_eq. intros x. rewrite elem_of_difference, elem_of_union, elem_of_singleton.
    split; [intros [[-> | Hx] Hne]; [contradiction | exact Hx] |].
    intros Hx. split; [now right |]. intros ->. contradiction. }
  rewrite Hdiff.
  destruct s as [w]; destruct w; reflexivity.
Qed.

Lemma register_unregister_witness :
  unregisterService (snd (registerService boot)) = (Returned None, boot).
Proof.
  apply (register_unregister boot (snd (registerService boot))).
  vm_compute. reflexivity.
Defined.

(** X16. A registration that fails. Without the executable, without
    the service manager, or with the service already installed,
    [registerService] returns an error and changes nothing. When only
    the event source is already installed, it returns an error after
    the service definition was created, and the definition stays. *)
Theorem registerService_failures (s : Sys) :
  (exe_path (os s) = None \/ scm_up (os s) = false \/
   is_Some (services (os s) !! ServiceName) ->
   exists e, registerService s = (Returned (Some e), s)) /\
  (forall p,
     exe_path (os s) = Some p -> scm_up (os s) = true ->
     services (os s) !! ServiceName = None ->
     ServiceName ∈ event_sources (os s) ->
     exists e s',
       registerService s = (Returned (Some e), s') /\
       is_Some (services (os s') !! ServiceName) /\
       event_sources (os s') = event_sources (os s)).
Proof.
  unfold registerService, getServicePath, mgr_Connect, mgr_CreateService,
    windows_ChangeServiceConfig2, eventlog_Install.
  set (n := ServiceName). clearbody n.
  unfold mbind, M_bind. split.
  - intros Hcase.
    destruct (exe_path (os s)) as [p|]; [| eauto]. cbn [check].
    destruct (scm_up (os s)); [| eauto]. cbn [check].
    destruct (services (os s) !! n) as [d|]; [eauto |].
    destruct Hcase as [[=] | [[=] | [d [=]]]].
  - intros p Hp Hup Hsv Hes. rewrite Hp. cbn [check]. rewrite Hup. cbn [check].
    rewrite Hsv. cbn [check]. simpl_sys.
    rewrite lookup_insert_eq. cbn [check sd_path sd_args]. simpl_sys.
    rewrite bool_decide_eq_true_2 by exact Hes. cbn [check].
    eexists _, _. split; [reflexivity |]. simpl_sys.
    split; [| reflexivity]. rewrite lookup_insert_eq. eauto.
Qed.

(** X17. [unregisterService] needs the service manager and an
    installed service, nothing else: with both it returns no error, and
    neither the service definition nor the event source is installed
    afterwards, whether the event source was there or not; without one
    of them it returns an error and changes nothing. *)
Theorem unregisterService_outcomes (s : Sys) :
  (scm_up (os s) = true -> is_Some (services (os s) !! ServiceName) ->
   exists s',
     unregisterService s = (Returned None, s') /\
     services (os s') !! ServiceName = None /\
     ServiceName ∉ event_sources (os s')) /\
  (scm_up (os s) = false \/ services (os s) !! ServiceName = None ->
   exists e, unregisterService s = (Returned (Some e), s)).
Proof.
  unfold unregisterService, mgr_Connect, mgr_OpenService, eventlog_Remove, Service_Delete.
  set (n := ServiceName). clearbody n.
  unfold mbind, M_bind. split.
  - intros -> [d Hd]. cbn [check]. rewrite Hd. cbn [check].
    destruct (bool_decide (n ∈ event_sources (os s))) eqn:Hes.
    + eexists. split; [reflexivity |]. simpl_sys.
      split; [apply lookup_delete_eq |].
      rewrite elem_of_difference, elem_of_singleton. tauto.
    + apply bool_decide_eq_false in Hes.
      eexists. split; [reflexivity |]. simpl_sys.
      split; [apply lookup_delete_eq | exact Hes].
  - intros Hcase.
    destruct (scm_up (os s)); [| eauto]. cbn [check].
    destruct (services (os s) !! n) as [d|]; [| eauto].
    destruct Hcase as [[=] | [=]].
Qed.

(** ** Initialisation *)

Lemma os_changed_refl (s : Sys) : os_changed s s.
Proof. exists (os s). split; [now destruct s | reflexivity]. Qed.

Lemma os_changed_trans (s1 s2 s3 : Sys) :
  os_changed s1 s2 -> os_changed s2 s3 -> os_changed s1 s3.
Proof.
  intros (w2 & -> & H2) (w3 & -> & H3). exists w3.
  split; [reflexivity | now rewrite H3, <- H2].
Qed.

Lemma os_changed_fields (s s' : Sys) :
  os_changed s s' ->
  session (os s') = session (os s) /\ trace s' = trace s /\ inbox s' = inbox s /\
  service s' = service s /\ hooks s' = hooks s /\ next_chan s' = next_chan s /\
  panicFile s' = panicFile s.
Proof. intros (w & -> & Hw). repeat split. exact Hw. Qed.

Lemma os_Stat_returns (name : string) (s : Sys) :
  exists e, os_Stat name s = (Returned e, s).
Proof.
  unfold os_Stat. destruct (files (os s) !! name); [eauto |].
  destruct (bool_decide _); eauto.
Qed.

Lemma os_MkdirAll_changed (path : string) (perm : Z) (s : Sys) :
  exists e s', os_MkdirAll path perm s = (Returned e, s') /\ os_changed s s'.
Proof.
  unfold os_MkdirAll. destruct (bool_decide _).
  { eexists _, _. split; [reflexivity | apply os_changed_refl]. }
  destruct (_ || _); eexists _, _; (split; [reflexivity |]).
  - apply os_changed_refl.
  - eexists. split; reflexivity.
Qed.

Lemma os_OpenFile_changed (name : string) (flag perm : Z) (s s' : Sys)
    (fo : option File) (e : error) :
  os_OpenFile name flag perm s = (Returned (fo, e), s') -> os_changed s s'.
Proof.
  intros H. apply os_OpenFile_inv in H
    as [(? & _ & _ & ->) | (_ & _ & fs & c & -> & _)].
  - apply os_changed_refl.
  - eexists. split; reflexivity.
Qed.

(** The first lines of [initService]: the home directory is made when
    [os.Stat] does not find it. *)
Lemma initService_homeDir (e1 : error) (s : Sys) :
  exists e s1,
    match e1 with
    | Some _ => os_MkdirAll homeDir 493
    | None => mret None
    end s = (Returned e, s1) /\ os_changed s s1.
Proof.
  destruct e1 as [e|].
  - apply os_MkdirAll_changed.
  - eexists _, _. split; [reflexivity | apply os_changed_refl].
Qed.

(** The installer calls return, and touch the operating system only. *)
Lemma registerService_changed (s : Sys) :
  exists e s', registerService s = (Returned e, s') /\ os_changed s s'.
Proof.
  unfold registerService, getServicePath, mgr_Connect, mgr_CreateService,
    windows_ChangeServiceConfig2, eventlog_Install.
  set (n := ServiceName). clearbody n.
  unfold mbind, M_bind.
  destruct (exe_path (os s)) as [p|];
    [| eexists _, _; split; [reflexivity | apply os_changed_refl]].
  cbn [check].
  destruct (scm_up (os s));
    [| eexists _, _; split; [reflexivity | apply os_changed_refl]].
  cbn [check].
  destruct (services (os s) !! n);
    [eexists _, _; split; [reflexivity | apply os_changed_refl] |].
  cbn [check]. simpl_sys. rewrite lookup_insert_eq. cbn [check]. simpl_sys.
  destruct (bool_decide _); cbn [check];
    eexists _, _; (split; [reflexivity |]); eexists; split; reflexivity.
Qed.

Lemma unregisterService_changed (s : Sys) :
  exists e s', unregisterService s = (Returned e, s') /\ os_changed s s'.
Proof.
  unfold unregisterService, mgr_Connect, mgr_OpenService, eventlog_Remove, Service_Delete.
  set (n := ServiceName). clearbody n.
  unfold mbind, M_bind.
  destruct (scm_up (os s));
    [| eexists _, _; split; [reflexivity | apply os_changed_refl]].
  cbn [check].
  destruct (services (os s) !! n);
    [| eexists _, _; split; [reflexivity | apply os_changed_refl]].
  cbn [check].
  destruct (bool_decide _); cbn [check];
    eexists _, _; (split; [reflexivity |]); eexists; split; reflexivity.
Qed.

(** An installer call under its flag: fatal on an error, [os.Exit(0)]
    otherwise. *)
Lemma installer_branch (call : M error) (msg : string) (s : Sys) :
  (exists e s', call s = (Returned e, s') /\ os_changed s s') ->
  exists e s1,
    call s = (Returned e, s1) /\ trace s1 = trace s /\ service s1 = service s /\
    match e with
    | None =>
        (err ← call;
         match err with
         | Some e => logrus_Fatal (msg +:+ e)
         | None => mret tt
         end;;
         os_Exit (A := unit) 0) s = (Exited 0, s1)
    | Some x =>
        exists s',
          (err ← call;
           match err with
           | Some e => logrus_Fatal (msg +:+ e)
           | None => mret tt
           end;;
           os_Exit (A := unit) 0) s = (Exited 1, s') /\
          logrus_Fatal (msg +:+ x) s1 = (Exited 1, s') /\
          trace s' = trace s /\ service s' = service s
    end.
Proof.
  intros (e & s1 & Hc & Hch).
  rewrite (bind_Returned _ _ _ _ _ Hc).
  apply os_changed_fields in Hch as (_ & Htr & _ & Hsv & _).
  exists e, s1. split; [exact Hc |]. split; [exact Htr |]. split; [exact Hsv |].
  destruct e as [x|]; [| reflexivity].
  destruct (logrus_Fatal_exits (msg +:+ x) s1) as (s2 & HF & Hl).
  rewrite (bind_Exited _ _ _ _ _ HF).
  apply logged_fields in Hl as (Htr2 & _ & _ & _ & Hsv2 & _).
  exists s2. split; [reflexivity |]. split; [exact HF |]. split; congruence.
Qed.

(** X18. Under the register or the unregister flag [initService]
    never returns without an error and never starts the dispatcher. It
    first sees to the home directory; when that fails it returns the
    error. Otherwise it calls the installer of the flag (the one of
    register when both are set) in the state the first step left, and
    ends the process: with exit code 0 in the state the installer left
    when the installer returned no error, and with exit code 1 after
    the fatal record of the error when it returned one. The trace and
    the service variable are as they were throughout. *)
Theorem initService_installer_flags (register unregister : bool) (s : Sys) :
  register = true \/ unregister = true ->
  exists e0 s0,
    (err ← os_Stat homeDir;
     match err with
     | Some _ => os_MkdirAll homeDir 493
     | None => mret None
     end) s = (Returned e0, s0) /\
    trace s0 = trace s /\ service s0 = service s /\
    match e0 with
    | Some e => initService register unregister s = (Returned (Some e), s0)
    | None =>
        exists e s1,
          (if register then registerService else unregisterService) s0
            = (Returned e, s1) /\
          trace s1 = trace s /\ service s1 = service s /\
          match e with
          | None => initService register unregister s = (Exited 0, s1)
          | Some x =>
              exists s',
                initService register unregister s = (Exited 1, s') /\
                logrus_Fatal
                  ((if register then "Failed to register service, err: "
                    else "Failed to unregister service, err: ") +:+ x) s1
                  = (Exited 1, s') /\
                trace s' = trace s /\ service s' = service s
          end
    end.
Proof.
  intros Hflag. unfold initService.
  destruct (os_Stat_returns homeDir s) as [e1 H1].
  rewrite !(bind_Returned _ _ _ _ _ H1).
  destruct (initService_homeDir e1 s) as (e0 & s0 & H0 & Hch).
  rewrite (bind_Returned _ _ _ _ _ H0).
  apply os_changed_fields in Hch as Hf. destruct Hf as (_ & Htr & _ & Hsv & _).
  exists e0, s0. split; [exact H0 |]. split; [exact Htr |]. split; [exact Hsv |].
  destruct e0 as [e|]; cbn [check]; [reflexivity |].
  destruct register.
  - destruct (installer_branch registerService "Failed to register service, err: " s0
                (registerService_changed s0))
      as (e & s1 & Hcall & Htr1 & Hsv1 & Hrun).
    exists e, s1. split; [exact Hcall |].
    split; [congruence |]. split; [congruence |].
    destruct e as [x|].
    + destruct Hrun as (s' & Hrun & HF & Htr' & Hsv').
      exists s'. rewrite (bind_Exited _ _ _ _ _ Hrun).
      split; [reflexivity |]. split; [exact HF |]. split; congruence.
    + now rewrite (bind_Exited _ _ _ _ _ Hrun).
  - destruct Hflag as [[=] | ->].
    rewrite (bind_Returned _ _ s0 s0 tt) by reflexivity.
    destruct (installer_branch unregisterService "Failed to unregister service, err: " s0
                (unregisterService_changed s0))
      as (e & s1 & Hcall & Htr1 & Hsv1 & Hrun).
    exists e, s1. split; [exact Hcall |].
    split; [congruence |]. split; [congruence |].
    destruct e as [x|].
    + destruct Hrun as (s' & Hrun & HF & Htr' & Hsv').
      exists s'. rewrite (bind_Exited _ _ _ _ _ Hrun).
      split; [reflexivity |]. split; [exact HF |]. split; congruence.
    + now rewrite (bind_Exited _ _ _ _ _ Hrun).
Qed.

Lemma initService_installer_flags_witness :
  (exists e0 s0,
     (err ← os_Stat homeDir;
      match err with
      | Some _ => os_MkdirAll homeDir 493
      | None => mret None
      end) boot = (Returned e0, s0) /\
     trace s0 = trace boot /\ service s0 = service boot /\
     match e0 with
     | Some e => initService true false boot = (Returned (Some e), s0)
     | None =>
         exists e s1,
           registerService s0 = (Returned e, s1) /\
           trace s1 = trace boot /\ service s1 = service boot /\
           match e with
           | None => initService true false boot = (Exited 0, s1)
           | Some x =>
               exists s',
                 initService true false boot = (Exited 1, s') /\
                 logrus_Fatal ("Failed to register service, err: " +:+ x) s1
                   = (Exited 1, s') /\
                 trace s' = trace boot /\ service s' = service boot
           end
     end) /\
  fst (initService true false boot) = Exited 0 /\
  is_Some (services (os (snd (initService true false boot))) !! ServiceName) /\
  services (os boot) !! ServiceName = None.
Proof.
  split.
  - apply (initService_installer_flags true false boot). left. reflexivity.
  - vm_compute. repeat split. eauto.
Defined.

Lemma eventlog_Open_changed (source : string) (s s' : Sys) (lg : option Handle) (e : error) :
  eventlog_Open source s = (Returned (lg, e), s') ->
  os_changed s s' /\ (e = None -> is_Some lg).
Proof.
  unfold eventlog_Open. destruct (eventlog_up (os s)); cbn; intros [= <- <- <-].
  - split; [eexists; split; reflexivity | eauto].
  - split; [apply os_changed_refl | discriminate].
Qed.

Lemma recv_inv {A : Type} (c : Chan) (dec : Msg -> option A) (s s' : Sys) (a : A) :
  recv c dec s = (Returned a, s') ->
  exists m rest,
    inbox s = (c, m) :: rest /\ dec m = Some a /\
    s' = advanced [Received c m] rest s.
Proof.
  intros H. destruct (recv_cases c dec s) as [Hb | (m & rest & a' & Hin & Hdec & Hr)].
  - rewrite Hb in H. discriminate.
  - rewrite Hr in H. injection H as <- <-. eauto.
Qed.

(** What [initService] has done when it returns without an error. *)
Lemma initService_ok (register unregister : bool) (s s' : Sys) :
  initService register unregister s = (Returned None, s') ->
  let h := mkHandler (next_chan s) (next_chan s + 1) in
  exists (interactive : bool) (lg : option Handle) (f : File),
    register = false /\ unregister = false /\
    session (os s) = Some interactive /\
    (if interactive then lg = None else is_Some lg) /\
    service s' = Some h /\
    hooks s' = hooks s ++ [mkEtwHook lg] /\
    log_out s' = WFile f /\ Name f = logFile /\
    panicFile s' = panicFile s /\
    trace s' = trace s ++ [Spawned (GoRunService interactive h);
                           Received (fromsvc h) (MErr None)].
Proof.
  intros H h. unfold initService in H.
  apply bind_inv in H as (e1 & s1 & H1 & H).
  apply os_Stat_pure in H1 as ->.
  apply bind_inv in H as (e2 & s2 & H2 & H).
  assert (K2 : os_changed s s2).
  { destruct (initService_homeDir e1 s) as (e & sx & Hx & Hch).
    rewrite Hx in H2. now injection H2 as _ <-. }
  destruct e2 as [e|]; [discriminate |]. cbn [check] in H.
  apply bind_inv in H as ([] & s3 & H3 & H).
  destruct register.
  { apply bind_inv in H3 as (er & sx & _ & H3). now apply exit_no_return in H3. }
  injection H3 as <-.
  apply bind_inv in H as ([] & s4 & H4 & H).
  destruct unregister.
  { apply bind_inv in H4 as (er & sx & _ & H4). now apply exit_no_return in H4. }
  injection H4 as <-.
  apply bind_inv in H as ([interactive e5] & s5 & H5 & H).
  unfold svc_IsAnInteractiveSession in H5.
  apply os_changed_fields in K2 as (Kses & Ktr & _ & _ & Khooks & Kchan & Kpf).
  rewrite Kses in H5.
  destruct (session (os s)) as [b|] eqn:Hses; injection H5 as <- <- <-;
    [| discriminate].
  cbn [check] in H.
  apply bind_inv in H as (c1 & s6 & H6 & H). injection H6 as <- <-.
  apply bind_inv in H as (c2 & s7 & H7 & H). injection H7 as <- <-.
  apply bind_inv in H as ([lg e8] & s8 & H8 & H).
  set (sa := set_next_chan (next_chan (set_next_chan (next_chan s2 + 1) s2) + 1)
               (set_next_chan (next_chan s2 + 1) s2)) in *.
  assert (K8 : os_changed sa s8 /\ (if b then lg = None else is_Some lg) /\ e8 = e8).
  { destruct b; cbn [negb] in H8.
    - injection H8 as <- <- <-. split; [apply os_changed_refl | auto].
    - destruct e8 as [e|]; [discriminate |].
      apply eventlog_Open_changed in H8 as [Hc Hlg]. split; [exact Hc | auto]. }
  destruct K8 as (K8 & Hlg & _).
  destruct e8 as [e|]; [discriminate |]. cbn [check] in H.
  apply bind_inv in H as ([] & s9 & H9 & H). injection H9 as <-.
  apply bind_inv in H as (e10 & s10 & H10 & H).
  apply os_Stat_pure in H10 as ->.
  apply bind_inv in H as (e11 & s11 & H11 & H).
  assert (K11 : os_changed (set_hooks (hooks s8 ++ [mkEtwHook lg]) s8) s11).
  { destruct e10 as [e|].
    - apply bind_inv in H11 as ([fo e'] & sx & Hc & Hr).
      injection Hr as _ <-. unfold os_Create in Hc.
      now apply os_OpenFile_changed in Hc.
    - injection H11 as _ <-. apply os_changed_refl. }
  destruct e11 as [e|]; [discriminate |]. cbn [check] in H.
  apply bind_inv in H as ([file e12] & s12 & H12 & H).
  destruct e12 as [e|]; [discriminate |]. cbn [check] in H.
  apply os_OpenFile_inv in H12 as Hopen.
  destruct Hopen as [(e & [=] & _) | (_ & -> & fs & c & _)].
  apply os_OpenFile_changed in H12 as K12.
  apply bind_inv in H as ([] & s13 & H13 & H). injection H13 as <-.
  apply bind_inv in H as ([] & s14 & H14 & H). injection H14 as <-.
  apply bind_inv in H as ([] & s15 & H15 & H). injection H15 as <-.
  apply bind_inv in H as (e16 & s16 & H16 & H).
  destruct e16 as [e|]; [discriminate |]. cbn [check] in H.
  injection H as <-.
  apply recv_inv in H16 as (m & rest & Hin & Hdec & ->).
  destruct m as [| e | |]; try discriminate. injection Hdec as ->.
  apply os_changed_fields in K8 as (_ & Ktr8 & _ & _ & Khooks8 & _ & Kpf8).
  apply os_changed_fields in K11 as (_ & Ktr11 & _ & _ & Khooks11 & _ & Kpf11).
  apply os_changed_fields in K12 as (_ & Ktr12 & _ & _ & Khooks12 & _ & Kpf12).
  subst sa. unfold advanced. simpl_sys_all.
  exists b, lg, (mkFile (next_handle (os s11)) logFile).
  repeat split; try reflexivity; try exact Hlg.
  - subst h. now rewrite Kchan.
  - congruence.
  - congruence.
  - subst h. rewrite <- app_assoc, Kchan. cbn [app]. congruence.
Qed.

(** X19. When [initService] returns without an error, no installer
    flag was given and the session could be told; the handler, on two
    new channels, is the service of the process; one more hook is
    registered, with an event log exactly when the session is not
    interactive; the logger writes to the log file; and the dispatcher
    task was started before its first signal, which carried no error,
    was received. *)
Theorem initService_returns_nil (register unregister : bool) (s s' : Sys) :
  initService register unregister s = (Returned None, s') ->
  exists (interactive : bool) (lg : option Handle) (f : File),
    register = false /\ unregister = false /\
    session (os s) = Some interactive /\
    (if interactive then lg = None else is_Some lg) /\
    service s' = Some (mkHandler (next_chan s) (next_chan s + 1)) /\
    hooks s' = hooks s ++ [mkEtwHook lg] /\
    log_out s' = WFile f /\ Name f = logFile /\
    trace s' =
      trace s ++
        [Spawned (GoRunService interactive (mkHandler (next_chan s) (next_chan s + 1)));
         Received (next_chan s + 1) (MErr None)].
Proof.
  intros H.
  destruct (initService_ok register unregister s s' H)
    as (interactive & lg & f & Hr & Hu & Hses & Hlg & Hsv & Hh & Hout & Hname & _ & Htr).
  exists interactive, lg, f. repeat split; assumption.
Qed.

Lemma initService_returns_nil_witness :
  exists (interactive : bool) (lg : option Handle) (f : File),
    false = false /\ false = false /\
    session (os (set_inbox [(2, MErr None)] boot)) = Some interactive /\
    (if interactive then lg = None else is_Some lg) /\
    service (snd (initService false false (set_inbox [(2, MErr None)] boot)))
      = Some (mkHandler 1 2) /\
    hooks (snd (initService false false (set_inbox [(2, MErr None)] boot)))
      = hooks boot ++ [mkEtwHook lg] /\
    log_out (snd (initService false false (set_inbox [(2, MErr None)] boot))) = WFile f /\
    Name f = logFile /\
    trace (snd (initService false false (set_inbox [(2, MErr None)] boot))) =
      trace boot ++ [Spawned (GoRunService interactive (mkHandler 1 2));
                     Received 2 (MErr None)].
Proof.
  apply (initService_returns_nil false false (set_inbox [(2, MErr None)] boot)
           (snd (initService false false (set_inbox [(2, MErr None)] boot)))).
  vm_compute. reflexivity.
Defined.

Lemma logrus_Fatal_no_return (msg : string) (s s' : Sys) (a : unit) :
  logrus_Fatal msg s <> (Returned a, s').
Proof.
  destruct (logrus_Fatal_exits msg s) as (s2 & HF & _). rewrite HF. discriminate.
Qed.

(** X20. When [Init] returns without an error, the service is
    installed, the crash capture has begun on the empty crash file with
    standard error redirected to it, and the application task has done
    four things in this order: started the dispatcher task, received
    its first signal, told it that the initialisation succeeded, and
    only then started the stop listener. *)
Theorem Init_returns_nil (register unregister : bool) (s s' : Sys) :
  Init register unregister s = (Returned None, s') ->
  let h := mkHandler (next_chan s) (next_chan s + 1) in
  exists (interactive : bool) (f : File),
    service s' = Some h /\
    panicFile s' = Some f /\ Name f = rancherPanicFile /\
    handles (os s') !! Fd f = Some rancherPanicFile /\
    files (os s') !! rancherPanicFile = Some "" /\
    std_error (os s') = Fd f /\
    trace s' =
      trace s ++ [Spawned (GoRunService interactive h);
                  Received (fromsvc h) (MErr None);
                  Sent (tosvc h) (MBool false);
                  Spawned GoSignalListener].
Proof.
  intros H h. unfold Init in H.
  apply bind_inv in H as (err & s1 & H1 & H).
  destruct err as [e|]; [discriminate |]. cbn [check] in H.
  apply initService_ok in H1
    as (interactive & lg & fl & _ & _ & _ & _ & Hsv & _ & _ & _ & _ & Htr1).
  fold h in Hsv, Htr1.
  apply bind_inv in H as ([] & s2 & H2 & H).
  apply bind_inv in H as ([] & s3 & H3 & H).
  injection H3 as <-. injection H as <-.
  unfold notifySystem in H2.
  rewrite (bind_Returned _ _ s1 s1 (Some h)) in H2 by (unfold gets; now rewrite Hsv).
  apply bind_inv in H2 as (e & s4 & H4 & H2).
  destruct e as [e|]; [now apply logrus_Fatal_no_return in H2 |].
  injection H2 as <-.
  unfold started in H4.
  apply bind_inv in H4 as (e0 & s5 & H5 & H4).
  destruct e0 as [e|]; [discriminate |]. cbn [check] in H4.
  apply bind_inv in H4 as ([] & s6 & H6 & H4).
  injection H6 as <-. injection H4 as <-.
  destruct (initPanicFile_post rancherPanicFile s1) as (e' & s5' & H5' & Hframe & _).
  rewrite H5 in H5'. injection H5' as <- <-.
  apply capture_frame_fields in Hframe as (Htr5 & _ & Hsv5 & _).
  apply initPanicFile_ok in H5 as (f & Hpf & Hname & Hh & Hf & _ & Hstd).
  exists interactive, f. simpl_sys.
  split; [congruence |]. split; [exact Hpf |]. split; [exact Hname |].
  split; [exact Hh |]. split; [exact Hf |]. split; [exact Hstd |].
  rewrite Htr5, Htr1, <- !app_assoc. reflexivity.
Qed.

Lemma Init_returns_nil_witness :
  exists (interactive : bool) (f : File),
    service (snd (Init false false interactive_boot)) = Some (mkHandler 1 2) /\
    panicFile (snd (Init false false interactive_boot)) = Some f /\
    Name f = rancherPanicFile /\
    handles (os (snd (Init false false interactive_boot))) !! Fd f = Some rancherPanicFile /\
    files (os (snd (Init false false interactive_boot))) !! rancherPanicFile = Some "" /\
    std_error (os (snd (Init false false interactive_boot))) = Fd f /\
    trace (snd (Init false false interactive_boot)) =
      trace interactive_boot ++
        [Spawned (GoRunService interactive (mkHandler 1 2));
         Received 2 (MErr None);
         Sent 1 (MBool false);
         Spawned GoSignalListener].
Proof.
  apply (Init_returns_nil false false interactive_boot
           (snd (Init false false interactive_boot))).
  vm_compute. reflexivity.
Defined.

(** ** Rotation of the crash file *)

Lemma append_old_ne (path : string) : path +:+ ".old" <> path.
Proof.
  intros H. apply (f_equal String.length) in H.
  rewrite length_append in H. simpl in H. lia.
Qed.

(** The last part of [initPanicFile], run. *)
Lemma redirect_run (s : Sys) :
  ('(h, err) ← syscall_GetStdHandle STD_ERROR_HANDLE;
   check err (
     modify (set_oldStderr h);;
     pf ← gets panicFile;
     '(r, err) ← setStdHandle_Call STD_ERROR_HANDLE (File_Fd pf);
     if (r =? 0) && bool_decide (is_Some err) then mret err else mret None)) s =
  (Returned None,
   set_os (set_std_error (File_Fd (panicFile s)) (os s))
     (set_oldStderr (std_error (os s)) s)).
Proof. reflexivity. Qed.

(** What a successful [os.OpenFile] leaves, field by field. *)
Lemma os_OpenFile_facts (name : string) (flag perm : Z) (s s' : Sys) (fo : option File) :
  os_OpenFile name flag perm s = (Returned (fo, None), s') ->
  exists c,
    fo = Some (mkFile (next_handle (os s)) name) /\
    files (os s') !! name = Some c /\
    (has_flag flag os_flag.O_TRUNC = true -> c = "") /\
    (has_flag flag os_flag.O_TRUNC = false ->
     files (os s) !! name = Some c \/ files (os s) !! name = None) /\
    (forall p, p <> name -> files (os s') !! p = files (os s) !! p) /\
    denied (os s') = denied (os s) /\ dirs (os s') = dirs (os s) /\
    handles (os s') = <[next_handle (os s) := name]> (handles (os s)).
Proof.
  intros H. apply os_OpenFile_inv in H
    as [(e & [=] & _) | (_ & -> & fs & c & -> & Hc & Htr & _ & Hold & Hfs)].
  exists c. unfold opened. simpl_sys. repeat split; auto.
Qed.

Lemma File_Close_facts (f : option File) (s s' : Sys) (e : error) :
  File_Close f s = (Returned e, s') ->
  files (os s') = files (os s) /\ denied (os s') = denied (os s) /\
  dirs (os s') = dirs (os s).
Proof.
  unfold File_Close. destruct f as [f|]; [| now intros [= _ <-]].
  destruct (handles (os s) !! Fd f); intros [= _ <-]; repeat split.
Qed.

Lemma os_Rename_facts (oldpath newpath c : string) (s s' : Sys) (e : error) :
  files (os s) !! oldpath = Some c ->
  newpath ∉ denied (os s) -> newpath ∉ dirs (os s) ->
  os_Rename oldpath newpath s = (Returned e, s') ->
  files (os s') = <[newpath := c]> (delete oldpath (files (os s))) /\
  denied (os s') = denied (os s) /\ dirs (os s') = dirs (os s).
Proof.
  intros Hc Hden Hdir. unfold os_Rename. rewrite Hc.
  rewrite (bool_decide_eq_false_2 _ Hden), (bool_decide_eq_false_2 _ Hdir).
  cbn [orb]. intros [= _ <-]. repeat split.
Qed.

(** X21. On a path of its own the rotation works: when
    [initPanicFile] is called on a path other than [rancherPanicFile]
    whose file holds [c], not empty, and the [.old] path can be written
    and is not [rancherPanicFile] either, a begin that returns no error
    has moved [c] to the [.old] file and made the crash file anew,
    empty. *)
Theorem initPanicFile_rotates (path c : string) (s s1 : Sys) :
  path <> rancherPanicFile ->
  path +:+ ".old" <> rancherPanicFile ->
  files (os s) !! path = Some c ->
  c <> "" ->
  path +:+ ".old" ∉ denied (os s) ->
  path +:+ ".old" ∉ dirs (os s) ->
  initPanicFile path s = (Returned None, s1) ->
  files (os s1) !! (path +:+ ".old") = Some c /\
  files (os s1) !! path = Some "".
Proof.
  intros Hne Hne' Hfile Hc Hden Hdir H.
  split; [| apply initPanicFile_ok in H as (f & _ & _ & _ & Hf & _); exact Hf].
  unfold initPanicFile in H.
  set (rpf := rancherPanicFile) in *. clearbody rpf.
  pose proof (append_old_ne path) as Hold_ne.
  set (old := path +:+ ".old") in *. clearbody old.
  (* os.Create(rancherPanicFile) *)
  apply bind_inv in H as ([fo0 err0] & sa & H0 & H).
  destruct err0 as [e|]; [discriminate |]. cbn [check] in H.
  unfold os_Create in H0.
  apply os_OpenFile_facts in H0
    as (c0 & _ & _ & _ & _ & Hfa & Hda & Hra & _).
  (* os.OpenFile(path, ...) *)
  apply bind_inv in H as ([fo1 err1] & sb & H1 & H).
  apply bind_inv in H as ([] & sc & Hset & H).
  injection Hset as <-.
  destruct err1 as [e|]; [discriminate |]. cbn [check] in H.
  apply os_OpenFile_facts in H1
    as (c1 & -> & Hc1 & _ & Hkeep & Hfb & Hdb & Hrb & Hhb).
  specialize (Hkeep eq_refl). rewrite (Hfa path Hne), Hfile in Hkeep.
  destruct Hkeep as [[= <-] | [=]].
  (* Stat *)
  apply bind_inv in H as (pf & sd & Hpf & H).
  injection Hpf as <- <-. simpl_sys_all.
  apply bind_inv in H as ([st err2] & se & HS & H).
  unfold File_Stat in HS. simpl_sys_all.
  rewrite Hhb, lookup_insert_eq, Hc1 in HS.
  injection HS as <- <- <-. cbn [check Size] in H.
  replace (0 <? Z.of_nat (String.length c)) with true in H.
  2: { symmetry. apply Z.ltb_lt. destruct c; [congruence | simpl; lia]. }
  (* Close, Rename, Create *)
  apply bind_inv in H as (ec & sf & HC & H).
  apply File_Close_facts in HC as (Hff & Hdf & Hrf). simpl_sys_all.
  apply bind_inv in H as (er & sg & HR & H).
  apply (os_Rename_facts path old c) in HR as (Hfg & Hdg & Hrg).
  2: { now rewrite Hff. }
  2: { now rewrite Hdf, Hdb, Hda. }
  2: { now rewrite Hrf, Hrb, Hra. }
  apply bind_inv in H as ([fo2 err3] & sh & H2 & H).
  apply bind_inv in H as ([] & si & Hset & H).
  injection Hset as <-.
  destruct err3 as [e|]; [discriminate |]. cbn [check] in H.
  unfold os_Create in H2.
  apply os_OpenFile_facts in H2 as (c2 & _ & _ & _ & _ & Hfh & _).
  (* the redirection *)
  pose proof (eq_trans (eq_sym (redirect_run (set_panicFile fo2 sh))) H) as Heq.
  injection Heq as <-. simpl_sys.
  rewrite (Hfh old Hold_ne), Hfg. apply lookup_insert_eq.
Qed.

Lemma initPanicFile_rotates_witness :
  let s := set_os (set_files {[ "C:/crash.log" := "panic: nil map" ]} boot_os) boot in
  files (os (snd (initPanicFile "C:/crash.log" s))) !! ("C:/crash.log" +:+ ".old")
    = Some "panic: nil map" /\
  files (os (snd (initPanicFile "C:/crash.log" s))) !! "C:/crash.log" = Some "".
Proof.
  apply (initPanicFile_rotates "C:/crash.log" "panic: nil map"
           (set_os (set_files {[ "C:/crash.log" := "panic: nil map" ]} boot_os) boot)
           (snd (initPanicFile "C:/crash.log"
                   (set_os (set_files {[ "C:/crash.log" := "panic: nil map" ]} boot_os)
                      boot)))).
  - discriminate.
  - discriminate.
  - vm_compute. reflexivity.
  - discriminate.
  - unfold boot_os. simpl_sys. apply not_elem_of_empty.
  - unfold boot_os. simpl_sys. intros Hin. apply elem_of_singleton in Hin.
    discriminate Hin.
  - vm_compute. reflexivity.
Defined.

(** X22. On its own path the rotation never happens: after a call
    of [initPanicFile] on [rancherPanicFile] that returns no error, the
    crash file is empty and every other file, the [.old] file among
    them, is as it was. So a text that some file holds afterwards was
    in that file before, and the file is not the crash file. *)
Theorem initPanicFile_own_path_keeps_nothing (s s1 : Sys) :
  initPanicFile rancherPanicFile s = (Returned None, s1) ->
  files (os s1) !! rancherPanicFile = Some "" /\
  files (os s1) !! (rancherPanicFile +:+ ".old") =
    files (os s) !! (rancherPanicFile +:+ ".old") /\
  (forall p c, c <> "" -> files (os s1) !! p = Some c ->
     p <> rancherPanicFile /\ files (os s) !! p = Some c).
Proof.
  intros H. apply initPanicFile_never_rotates in H as [Hempty Hother].
  split; [exact Hempty |]. split.
  - apply Hother, append_old_ne.
  - intros p c Hc Hp.
    assert (Hne : p <> rancherPanicFile).
    { intros ->. rewrite Hempty in Hp. injection Hp as <-. now apply Hc. }
    split; [exact Hne |]. now rewrite <- (Hother p Hne).
Qed.

Lemma initPanicFile_own_path_keeps_nothing_witness :
  files (os (snd (initPanicFile rancherPanicFile after_crash))) !! rancherPanicFile
    = Some "" /\
  files (os (snd (initPanicFile rancherPanicFile after_crash)))
    !! (rancherPanicFile +:+ ".old") =
    files (os after_crash) !! (rancherPanicFile +:+ ".old") /\
  (forall p c, c <> "" ->
     files (os (snd (initPanicFile rancherPanicFile after_crash))) !! p = Some c ->
     p <> rancherPanicFile /\ files (os after_crash) !! p = Some c).
Proof.
  apply (initPanicFile_own_path_keeps_nothing after_crash
           (snd (initPanicFile rancherPanicFile after_crash))).
  vm_compute. reflexivity.
Defined.
